(** * sanitize_ipynb: the notebook normalisation pass, embedded and verified

    The development follows [tools/sanitize_ipynb.py]: the scalar coercer
    [to_s] and the document normaliser [sanitize_notebook].  A parsed
    notebook is a tree of Python values as [json.loads] builds them; the
    pass mutates that tree in place and reports a [changed] flag. *)

From Stdlib Require Import ZArith NArith List String Ascii Bool Lia.
From Stdlib Require Import DecimalString Floats.
Import ListNotations.
Set Warnings "-register-all".
Local Open Scope list_scope.
Local Open Scope string_scope.

(** ** Python values produced by [json.loads] *)

(** A [dict] is kept as its insertion-ordered list of entries; [json.loads]
    never yields two entries with one key (see [unique_keys] below). *)
Inductive json : Type :=
| JNull
| JBool (b : bool)
| JInt (n : Z)
| JFloat (f : float)
| JStr (s : string)
| JList (items : list json)
| JDict (entries : list (string * json)).

Definition dict := list (string * json).

(** [isinstance(x, str)], [isinstance(x, list)], [isinstance(x, dict)]. *)
Definition is_str (x : json) : bool :=
  match x with JStr _ => true | _ => false end.
Definition is_list (x : json) : bool :=
  match x with JList _ => true | _ => false end.
Definition is_dict (x : json) : bool :=
  match x with JDict _ => true | _ => false end.

(** [isinstance(x, int)]: [bool] is a subclass of [int] in Python, so
    [True] and [False] pass this test. *)
Definition is_int (x : json) : bool :=
  match x with JInt _ | JBool _ => true | _ => false end.

(** [x is None]. *)
Definition is_none (x : json) : bool :=
  match x with JNull => true | _ => false end.

(** Truth value of a Python object, as [if x:], [not x] and [x or y] use it. *)
Definition truthy (x : json) : bool :=
  match x with
  | JNull => false
  | JBool b => b
  | JInt n => negb (n =? 0)%Z
  | JFloat f => negb (PrimFloat.eqb f 0%float)
  | JStr s => negb (s =? "")
  | JList l => match l with [] => false | _ => true end
  | JDict d => match d with [] => false | _ => true end
  end.

(** [x or y]. *)
Definition py_or (x y : json) : json := if truthy x then x else y.

(** *** Dictionary operations *)

(** [d.get(k)] as an option: [None] when the key is absent. *)
Fixpoint lookup (k : string) (d : dict) : option json :=
  match d with
  | [] => None
  | (k', v) :: rest => if k =? k' then Some v else lookup k rest
  end.

(** [d.get(k, dflt)]. *)
Definition get_default (k : string) (dflt : json) (d : dict) : json :=
  match lookup k d with Some v => v | None => dflt end.

(** [d.get(k)]: Python's [None] when the key is absent. *)
Definition get (k : string) (d : dict) : json := get_default k JNull d.

(** [k in d]. *)
Definition contains (k : string) (d : dict) : bool :=
  match lookup k d with Some _ => true | None => false end.

(** [d[k] = v]: an existing key keeps its place, a new key goes last. *)
Fixpoint setitem (k : string) (v : json) (d : dict) : dict :=
  match d with
  | [] => [(k, v)]
  | (k', v') :: rest =>
      if k =? k' then (k, v) :: rest else (k', v') :: setitem k v rest
  end.

Definition keys (d : dict) : list string := map fst d.

(** *** Value equality, Python's [==] *)

Definition Z_of_bool (b : bool) : Z := if b then 1%Z else 0%Z.

(** An [int] against a [float]: Python compares the exact values. *)
Definition float_eq_Z (f : float) (n : Z) : bool :=
  match Prim2SF f with
  | S754_zero _ => (n =? 0)%Z
  | S754_finite sgn m e =>
      let sm := if sgn then Z.neg m else Z.pos m in
      if (0 <=? e)%Z then (n =? sm * 2 ^ e)%Z else (n * 2 ^ (- e) =? sm)%Z
  | _ => false
  end.

(** [a == b] on parsed JSON.  Numbers ([bool], [int], [float]) compare by
    value across types, lists element by element, dicts by key set and
    values whatever the order.  (CPython's identity shortcut inside
    containers only matters for one NaN object met twice.) *)
Fixpoint py_eq (a b : json) {struct a} : bool :=
  match a with
  | JNull => is_none b
  | JBool x =>
      match b with
      | JBool y => Bool.eqb x y
      | JInt n => (Z_of_bool x =? n)%Z
      | JFloat f => float_eq_Z f (Z_of_bool x)
      | _ => false
      end
  | JInt m =>
      match b with
      | JBool y => (m =? Z_of_bool y)%Z
      | JInt n => (m =? n)%Z
      | JFloat f => float_eq_Z f m
      | _ => false
      end
  | JFloat f =>
      match b with
      | JBool y => float_eq_Z f (Z_of_bool y)
      | JInt n => float_eq_Z f n
      | JFloat g => PrimFloat.eqb f g
      | _ => false
      end
  | JStr s => match b with JStr t => (s =? t) | _ => false end
  | JList xs =>
      match b with
      | JList ys =>
          (fix all2 (xs : list json) (ys : list json) {struct xs} : bool :=
             match xs, ys with
             | [], [] => true
             | x :: xs', y :: ys' => py_eq x y && all2 xs' ys'
             | _, _ => false
             end) xs ys
      | _ => false
      end
  | JDict d =>
      match b with
      | JDict d' =>
          (List.length d =? List.length d')%nat &&
          (fix sub (d : dict) : bool :=
             match d with
             | [] => true
             | (k, v) :: rest =>
                 match lookup k d' with
                 | Some v' => py_eq v v' && sub rest
                 | None => false
                 end
             end) d
      | _ => false
      end
  end.

(** [x in (a, b, ...)]. *)
Definition py_in (x : json) (choices : list json) : bool :=
  existsb (py_eq x) choices.

(** What [json.loads] guarantees and the entry lists alone do not: no key
    occurs twice in a dict, at any depth. *)
Fixpoint distinct (l : list string) : bool :=
  match l with
  | [] => true
  | k :: rest => negb (existsb (String.eqb k) rest) && distinct rest
  end.

Fixpoint unique_keys (x : json) : bool :=
  match x with
  | JList l =>
      (fix all (l : list json) : bool :=
         match l with [] => true | y :: l' => unique_keys y && all l' end) l
  | JDict d =>
      distinct (map fst d) &&
      (fix all (d : dict) : bool :=
         match d with
         | [] => true
         | (_, v) :: d' => unique_keys v && all d'
         end) d
  | _ => true
  end.

(** ** The process state and its effects *)

Inductive exn : Type := AttributeError | KeyError.

Inductive result (A : Type) : Type :=
| Ok (a : A)
| Raise (e : exn).
Arguments Ok {A} a.
Arguments Raise {A} e.

(** [changed] is the local flag of [sanitize_notebook]; [uuid_calls] counts
    the calls to [uuid.uuid4] made by the process so far. *)
Record state : Type := mkState { changed : bool; uuid_calls : nat }.

Definition M (A : Type) : Type := state -> result (A * state).

Definition ret {A} (a : A) : M A := fun s => Ok (a, s).

Definition bind {A B} (m : M A) (k : A -> M B) : M B :=
  fun s => match m s with
           | Ok (a, s') => k a s'
           | Raise e => Raise e
           end.

Definition raise {A} (e : exn) : M A := fun _ => Raise e.

Notation "x <- m ;; k" := (bind m (fun x => k))
  (at level 61, m at next level, right associativity).
Notation "m ;;; k" := (bind m (fun _ => k))
  (at level 61, right associativity).

(** [changed = v]. *)
Definition set_changed (v : bool) : M unit :=
  fun s => Ok (tt, mkState v (uuid_calls s)).

Definition get_changed : M bool := fun s => Ok (changed s, s).

(** [x.get]: only a dict has the attribute. *)
Definition as_dict (x : json) : M dict :=
  match x with JDict d => ret d | _ => raise AttributeError end.

(** [d[k]] read: [KeyError] when the key is absent. *)
Definition getitem (k : string) (d : dict) : M json :=
  match lookup k d with Some v => ret v | None => raise KeyError end.

(** [for x in xs: body(x)], where the body mutates [x] in place. *)
Fixpoint for_each {A} (body : A -> M A) (xs : list A) : M (list A) :=
  match xs with
  | [] => ret []
  | x :: rest =>
      x' <- body x ;;
      rest' <- for_each body rest ;;
      ret (x' :: rest')
  end.

(** [for k, v in list(d.items()): body(k, v)], where the body may assign
    into [d]: the loop walks a snapshot while [d] is updated. *)
Fixpoint for_items (body : string -> json -> dict -> M dict)
    (snapshot : dict) (d : dict) : M dict :=
  match snapshot with
  | [] => ret d
  | (k, v) :: rest => d' <- body k v d ;; for_items body rest d'
  end.

(** *** Hexadecimal identifiers *)

Definition hex_digit (n : N) : ascii :=
  nth (N.to_nat (n mod 16))
      ["0"; "1"; "2"; "3"; "4"; "5"; "6"; "7";
       "8"; "9"; "a"; "b"; "c"; "d"; "e"; "f"]%char "0"%char.

(** The first eight digits of the 32-digit [hex] of a 128-bit UUID. *)
Definition hex_prefix8 (u : N) : string :=
  let w := N.shiftr u 96 in
  String (hex_digit (N.shiftr w 28))
 (String (hex_digit (N.shiftr w 24))
 (String (hex_digit (N.shiftr w 20))
 (String (hex_digit (N.shiftr w 16))
 (String (hex_digit (N.shiftr w 12))
 (String (hex_digit (N.shiftr w 8))
 (String (hex_digit (N.shiftr w 4))
 (String (hex_digit w) EmptyString))))))).

(** *** Nested lists *)



Section Sanitize.

(** The runtime the script runs on: the UUIDs the process draws, in order,
    and Python's [repr] of a float and of a string. *)
Variable uuid4 : nat -> N.
Variable float_repr : float -> string.
Variable str_repr : string -> string.

(** [uuid.uuid4().hex[:8]]. *)
Definition fresh_id : M string :=
  fun s => Ok (hex_prefix8 (uuid4 (uuid_calls s)),
               mkState (changed s) (S (uuid_calls s))).

(** ** Python's [repr] and [str] *)

Definition join_comma (parts : list string) : string :=
  String.concat ", " parts.

Fixpoint py_repr (x : json) : string :=
  match x with
  | JNull => "None"
  | JBool true => "True"
  | JBool false => "False"
  | JInt n => NilZero.string_of_int (Z.to_int n)
  | JFloat f => float_repr f
  | JStr s => str_repr s
  | JList l => "[" ++ join_comma (map py_repr l) ++ "]"
  | JDict d =>
      "{" ++ join_comma
               ((fix items (d : dict) : list string :=
                   match d with
                   | [] => []
                   | (k, v) :: d' =>
                       (str_repr k ++ ": " ++ py_repr v) :: items d'
                   end) d) ++ "}"
  end.

(** [str(x)]. *)
Definition py_str (x : json) : string :=
  match x with JStr s => s | _ => py_repr x end.

(** ** The scalar coercer *)

(** <<
def to_s(x):
    if isinstance(x, str): return x
    if isinstance(x, list): return "".join(to_s(i) for i in x)
    return str(x)
>> *)
Fixpoint to_s (x : json) : string :=
  match x with
  | JStr s => s
  | JList l => String.concat "" (map to_s l)
  | _ => py_str x
  end.



(** ** The document normaliser *)

(** [changed = True]. *)
Definition mark_changed : M unit := set_changed true.

(** [if fld in o and not isinstance(o[fld], str): o[fld] = to_s(o[fld])],
    the shape of lines 65-66, 106-109 and 139-141. *)
Definition coerce_field (fld : string) (o : dict) : M dict :=
  match lookup fld o with
  | Some v =>
      if negb (is_str v) then
        mark_changed ;;; ret (setitem fld (JStr (to_s v)) o)
      else ret o
  | None => ret o
  end.

(** [ec = o.get("execution_count")], then [None] unless an int or [None]
    (lines 126-128 and 144-146). *)
Definition int_or_null (o : dict) : M dict :=
  let ec := get "execution_count" o in
  if negb (is_none ec) && negb (is_int ec) then
    mark_changed ;;; ret (setitem "execution_count" JNull o)
  else ret o.

(** *** Top level, lines 30-50 *)

Definition top_nbformat (raw : dict) : M dict :=
  if negb (py_eq (get "nbformat" raw) (JInt 4)) then
    mark_changed ;;; ret (setitem "nbformat" (JInt 4) raw)
  else ret raw.

Definition top_nbformat_minor (raw : dict) : M dict :=
  if negb (is_int (get "nbformat_minor" raw)) then
    mark_changed ;;; ret (setitem "nbformat_minor" (JInt 5) raw)
  else ret raw.

Definition default_language_info : json := JDict [("name", JStr "python")].

Definition default_kernelspec : json :=
  JDict [("name", JStr "python3"); ("display_name", JStr "Python 3")].

(** Lines 38-43, on the dict [md]. *)
Definition top_language_info (md : dict) : M dict :=
  match get "language_info" md with
  | JDict li =>
      if match lookup "name" li with
         | None => true
         | Some name => negb (is_str name)
         end
      then
        mark_changed ;;;
        ret (setitem "language_info"
               (JDict (setitem "name" (JStr "python") li)) md)
      else ret md
  | _ =>
      mark_changed ;;; ret (setitem "language_info" default_language_info md)
  end.

(** Lines 45-50, on the dict [md]. *)
Definition top_kernelspec (md : dict) : M dict :=
  match get "kernelspec" md with
  | JDict ks =>
      ks <- (if is_none (get "name" ks) then
               mark_changed ;;; ret (setitem "name" (JStr "python3") ks)
             else ret ks) ;;
      ks <- (if is_none (get "display_name" ks) then
               mark_changed ;;;
               ret (setitem "display_name" (JStr "Python 3") ks)
             else ret ks) ;;
      ret (setitem "kernelspec" (JDict ks) md)
  | _ => mark_changed ;;; ret (setitem "kernelspec" default_kernelspec md)
  end.

(** Lines 34-50.  [md] aliases [raw["metadata"]]: what the two blocks do to
    it is seen through [raw]. *)
Definition top_metadata (raw : dict) : M dict :=
  raw <- (if negb (is_dict (get "metadata" raw)) then
            mark_changed ;;; ret (setitem "metadata" (JDict []) raw)
          else ret raw) ;;
  md <- as_dict (get "metadata" raw) ;;
  md <- top_language_info md ;;
  md <- top_kernelspec md ;;
  ret (setitem "metadata" (JDict md) raw).

(** *** One cell, lines 60-88 *)

(** Lines 60-62. *)
Definition cell_id (c : dict) : M dict :=
  let cid := get "id" c in
  if is_none cid || negb (is_str cid) || negb (truthy cid) then
    i <- fresh_id ;;
    mark_changed ;;; ret (setitem "id" (JStr i) c)
  else ret c.

(** Lines 69-70. *)
Definition cell_metadata (c : dict) : M dict :=
  if negb (is_dict (get_default "metadata" (JDict []) c)) then
    mark_changed ;;; ret (setitem "metadata" (JDict []) c)
  else ret c.

(** [[to_s(t) for t in tags if t is not None]]. *)
Definition coerce_tags (tags : list json) : list json :=
  map (fun t => JStr (to_s t)) (filter (fun t => negb (is_none t)) tags).

(** Lines 73-77.  [c["metadata"]] is read with a subscript here. *)
Definition cell_tags (c : dict) : M dict :=
  md <- getitem "metadata" c ;;
  md <- as_dict md ;;
  match get "tags" md with
  | JList tags =>
      let new_tags := coerce_tags tags in
      if negb (py_eq (JList new_tags) (JList tags)) then
        mark_changed ;;;
        ret (setitem "metadata"
               (JDict (setitem "tags" (JList new_tags) md)) c)
      else ret c
  | _ => ret c
  end.

(** Body of the loop of lines 82-84. *)
Definition coerce_value (k : string) (v : json) (d : dict) : M dict :=
  if negb (is_str v) then
    mark_changed ;;; ret (setitem k (JStr (to_s v)) d)
  else ret d.

(** Lines 80-84. *)
Definition cell_execution (c : dict) : M dict :=
  md <- getitem "metadata" c ;;
  md <- as_dict md ;;
  match get "execution" md with
  | JDict exec_md =>
      exec_md' <- for_items coerce_value exec_md exec_md ;;
      ret (setitem "metadata"
             (JDict (setitem "execution" (JDict exec_md') md)) c)
  | _ => ret c
  end.

(** Lines 87-88. *)
Definition cell_attachments (c : dict) : M dict :=
  if py_in (get "cell_type" c) [JStr "markdown"; JStr "raw"]
     && match lookup "attachments" c with
        | None => false
        | Some a => negb (is_dict a)
        end
  then mark_changed ;;; ret (setitem "attachments" (JDict []) c)
  else ret c.

(** *** One output, lines 101-141 *)

(** [k.startswith("text/") or k == "text/plain" or k.startswith("image/")]. *)
Definition is_text_mime (k : string) : bool :=
  prefix "text/" k || (k =? "text/plain") || prefix "image/" k.

(** Body of the loop of lines 116-123. *)
Definition coerce_data (k : string) (v : json) (data : dict) : M dict :=
  if is_text_mime k then
    if negb (is_str v) then
      mark_changed ;;; ret (setitem k (JStr (to_s v)) data)
    else ret data
  else
    if negb (is_dict v || is_list v || is_str v) then
      mark_changed ;;; ret (setitem k (JStr (to_s v)) data)
    else ret data.

(** Lines 112-123.  [data] is [o["data"]] itself when that is truthy, and a
    fresh empty dict, never stored in [o], when it is not. *)
Definition output_data (o : dict) : M dict :=
  let dv := get "data" o in
  match py_or dv (JDict []) with
  | JDict data =>
      data' <- for_items coerce_data data data ;;
      ret (if truthy dv then setitem "data" (JDict data') o else o)
  | _ => mark_changed ;;; ret (setitem "data" (JDict []) o)
  end.

(** Lines 131-138. *)
Definition coerce_traceback (tb : json) : list json :=
  match tb with
  | JList l => map (fun t => JStr (to_s t)) l
  | _ => [JStr (to_s tb)]
  end.

Definition output_traceback (o : dict) : M dict :=
  match lookup "traceback" o with
  | Some tb =>
      let new_tb := coerce_traceback tb in
      if negb (py_eq (JList new_tb) tb) then
        mark_changed ;;; ret (setitem "traceback" (JList new_tb) o)
      else ret o
  | None => ret o
  end.

(** Body of the loop of line 100. *)
Definition normalize_output (out : json) : M json :=
  o <- as_dict out ;;
  o <- (if negb (is_dict (get_default "metadata" (JDict []) o)) then
          mark_changed ;;; ret (setitem "metadata" (JDict []) o)
        else ret o) ;;
  let ot := get "output_type" o in
  o <- (if py_eq ot (JStr "stream") then
          o <- coerce_field "text" o ;;
          coerce_field "name" o
        else if py_in ot [JStr "display_data"; JStr "execute_result"] then
          o <- output_data o ;;
          if py_eq ot (JStr "execute_result") then int_or_null o else ret o
        else if py_eq ot (JStr "error") then
          o <- output_traceback o ;;
          o <- coerce_field "ename" o ;;
          coerce_field "evalue" o
        else ret o) ;;
  ret (JDict o).

(** *** Code cells, lines 91-146 *)

(** Lines 93-96. *)
Definition cell_strip (c : dict) : M dict :=
  (if truthy (get "outputs" c) then mark_changed else ret tt) ;;;
  let c := setitem "outputs" (JList []) c in
  if negb (is_none (get "execution_count" c)) then
    mark_changed ;;; ret (setitem "execution_count" JNull c)
  else ret c.

(** Lines 98-146.  [outs] is [c["outputs"]] itself when that is truthy, and
    a fresh empty list, never stored in [c], when it is not. *)
Definition cell_normalize (c : dict) : M dict :=
  let v := get "outputs" c in
  c <- match py_or v (JList []) with
       | JList outs =>
           outs' <- for_each normalize_output outs ;;
           ret (if truthy v then setitem "outputs" (JList outs') c else c)
       | _ => mark_changed ;;; ret (setitem "outputs" (JList []) c)
       end ;;
  int_or_null c.

Definition cell_outputs (strip_outputs : bool) (c : dict) : M dict :=
  if py_eq (get "cell_type" c) (JStr "code") then
    if strip_outputs then cell_strip c else cell_normalize c
  else ret c.

(** Body of the loop of line 58. *)
Definition sanitize_cell (strip_outputs : bool) (cell : json) : M json :=
  c <- as_dict cell ;;
  c <- cell_id c ;;
  c <- coerce_field "source" c ;;
  c <- cell_metadata c ;;
  c <- cell_tags c ;;
  c <- cell_execution c ;;
  c <- cell_attachments c ;;
  c <- cell_outputs strip_outputs c ;;
  ret (JDict c).

(** Lines 53-58. *)
Definition top_cells (strip_outputs : bool) (raw : dict) : M dict :=
  raw <- (if negb (is_list (get "cells" raw)) then
            mark_changed ;;; ret (setitem "cells" (JList []) raw)
          else ret raw) ;;
  match get "cells" raw with
  | JList cells =>
      cells' <- for_each (sanitize_cell strip_outputs) cells ;;
      ret (setitem "cells" (JList cells') raw)
  | _ => ret raw
  end.

(** The pass on the parsed document [doc] ([raw] after line 26).  It
    returns the tree as the pass leaves it in memory, and the flag. *)
Definition sanitize_notebook (strip_outputs : bool) (doc : json)
  : M (json * bool) :=
  set_changed false ;;;
  raw <- as_dict doc ;;
  raw <- top_nbformat raw ;;
  raw <- top_nbformat_minor raw ;;
  raw <- top_metadata raw ;;
  raw <- top_cells strip_outputs raw ;;
  ch <- get_changed ;;
  ret (JDict raw, ch).

(** Lines 148-149: what the file holds once the call has returned. *)
Definition file_after (before : json) (r : json * bool) : json :=
  if snd r then fst r else before.


(** ** Normalised documents *)

(** The tests of the rules, read off the code: a document is normalised
    when none of them fires. *)

Definition good_id (cid : json) : bool :=
  negb (is_none cid || negb (is_str cid) || negb (truthy cid)).

Definition field_ok (fld : string) (o : dict) : bool :=
  match lookup fld o with Some v => is_str v | None => true end.

Definition int_or_null_ok (o : dict) : bool :=
  let ec := get "execution_count" o in is_none ec || is_int ec.

Definition tags_ok (md : dict) : bool :=
  match get "tags" md with
  | JList tags => py_eq (JList (coerce_tags tags)) (JList tags)
  | _ => true
  end.

Definition execution_ok (md : dict) : bool :=
  match get "execution" md with
  | JDict exec_md => forallb (fun kv => is_str (snd kv)) exec_md
  | _ => true
  end.

Definition metadata_ok (c : dict) : bool :=
  match lookup "metadata" c with
  | Some (JDict md) => tags_ok md && execution_ok md
  | _ => false
  end.

Definition attachments_ok (c : dict) : bool :=
  negb (py_in (get "cell_type" c) [JStr "markdown"; JStr "raw"]
        && match lookup "attachments" c with
           | None => false
           | Some a => negb (is_dict a)
           end).

(** The test of lines 117-123 on one entry of [data]. *)
Definition needs_coerce (k : string) (v : json) : bool :=
  if is_text_mime k then negb (is_str v)
  else negb (is_dict v || is_list v || is_str v).

Definition data_ok (o : dict) : bool :=
  match py_or (get "data" o) (JDict []) with
  | JDict data => forallb (fun kv => negb (needs_coerce (fst kv) (snd kv))) data
  | _ => false
  end.

Definition traceback_ok (o : dict) : bool :=
  match lookup "traceback" o with
  | Some tb => py_eq (JList (coerce_traceback tb)) tb
  | None => true
  end.

Definition output_ok (out : json) : bool :=
  match out with
  | JDict o =>
      is_dict (get_default "metadata" (JDict []) o) &&
      let ot := get "output_type" o in
      if py_eq ot (JStr "stream") then
        field_ok "text" o && field_ok "name" o
      else if py_in ot [JStr "display_data"; JStr "execute_result"] then
        data_ok o &&
        (if py_eq ot (JStr "execute_result") then int_or_null_ok o else true)
      else if py_eq ot (JStr "error") then
        traceback_ok o && field_ok "ename" o && field_ok "evalue" o
      else true
  | _ => false
  end.

Definition outputs_ok (c : dict) : bool :=
  match py_or (get "outputs" c) (JList []) with
  | JList outs => forallb output_ok outs
  | _ => false
  end.

Definition stripped (c : dict) : bool :=
  match lookup "outputs" c with
  | Some (JList []) => is_none (get "execution_count" c)
  | _ => false
  end.

Definition code_ok (strip_outputs : bool) (c : dict) : bool :=
  if py_eq (get "cell_type" c) (JStr "code") then
    if strip_outputs then stripped c
    else outputs_ok c && int_or_null_ok c
  else true.

Definition cell_ok (strip_outputs : bool) (cell : json) : bool :=
  match cell with
  | JDict c =>
      good_id (get "id" c) && field_ok "source" c && metadata_ok c &&
      attachments_ok c && code_ok strip_outputs c
  | _ => false
  end.

Definition language_info_ok (md : dict) : bool :=
  match get "language_info" md with
  | JDict li =>
      match lookup "name" li with Some name => is_str name | None => false end
  | _ => false
  end.

Definition kernelspec_ok (md : dict) : bool :=
  match get "kernelspec" md with
  | JDict ks =>
      negb (is_none (get "name" ks)) && negb (is_none (get "display_name" ks))
  | _ => false
  end.

Definition top_ok (raw : dict) : bool :=
  py_eq (get "nbformat" raw) (JInt 4) &&
  is_int (get "nbformat_minor" raw) &&
  match get "metadata" raw with
  | JDict md => language_info_ok md && kernelspec_ok md
  | _ => false
  end.

Definition normalized (strip_outputs : bool) (doc : json) : bool :=
  match doc with
  | JDict raw =>
      top_ok raw &&
      match get "cells" raw with
      | JList cells => forallb (cell_ok strip_outputs) cells
      | _ => false
      end
  | _ => false
  end.

(** The loops over [d.items()] as one pass over the entries. *)
Definition coerce_entries (g : string -> json -> bool) (d : dict) : dict :=
  map (fun kv => (fst kv,
                  if g (fst kv) (snd kv) then JStr (to_s (snd kv))
                  else snd kv)) d.

(** A rule is quiet when it leaves its argument and the state alone unless
    it sets [changed], and never clears the flag. *)
Definition quiet {A} (f : A -> M A) : Prop :=
  forall x s x' s', f x s = Ok (x', s') ->
    (changed s = true -> changed s' = true) /\
    ((x' = x /\ s' = s) \/ changed s' = true).

(** [touches K c c']: [c'] agrees with [c] on every key outside [K]. *)
Definition touches (K : list string) (c c' : dict) : Prop :=
  forall k, existsb (String.eqb k) K = false -> lookup k c' = lookup k c.

(** What a rule [o[fld] = to_s(o[fld])] makes of a value. *)
Definition coerce_str (v : json) : json :=
  if is_str v then v else JStr (to_s v).

(** A step keeps the flag when it never clears a [changed] that is set. *)
Definition keeps_flag {A B} (f : A -> M B) : Prop :=
  forall x s y s', f x s = Ok (y, s') -> changed s = true -> changed s' = true.

(** The entries of a dict, and none for any other value. *)
Definition entries_of (x : json) : dict :=
  match x with JDict d => d | _ => [] end.

(** The cells the loop of line 58 walks: [raw["cells"]] when it is a list,
    the fresh empty list otherwise. *)
Definition cells_of (raw : dict) : list json :=
  match get "cells" raw with JList cells => cells | _ => [] end.

(** [cell_run strip final c c']: during a pass that ended in state
    [final], the loop body took the cell [c] to [c']. *)
Definition cell_run (strip_outputs : bool) (final : state) (c c' : json)
  : Prop :=
  exists s1 s2,
    sanitize_cell strip_outputs c s1 = Ok (c', s2) /\
    (changed s2 = true -> changed final = true).

(** The outputs the loop of line 100 walks. *)
Definition outputs_of (c : dict) : list json :=
  match py_or (get "outputs" c) (JList []) with
  | JList outs => outs
  | _ => []
  end.

(** The documents on which the pass raises nothing: every cell is a dict
    with a [metadata] key and, in normalize mode, every output the loop
    walks in a code cell is a dict. *)
Definition cell_shaped (strip_outputs : bool) (cell : json) : bool :=
  match cell with
  | JDict c =>
      contains "metadata" c &&
      (strip_outputs
       || negb (py_eq (get "cell_type" c) (JStr "code"))
       || forallb is_dict (outputs_of c))
  | _ => false
  end.

Definition well_shaped (strip_outputs : bool) (doc : json) : bool :=
  match doc with
  | JDict raw => forallb (cell_shaped strip_outputs) (cells_of raw)
  | _ => false
  end.

(** A computation is steady when it never clears the flag and, unless it
    sets the flag, neither reads nor writes the state: it leaves the state
    as it is and gives the same result from any other state. *)
Definition steady {A} (m : M A) : Prop :=
  forall s a s', m s = Ok (a, s') ->
    (changed s = true -> changed s' = true) /\
    (changed s' = true \/ (s' = s /\ forall t, m t = Ok (a, t))).

(** The code cells that strip mode rewrites without setting [changed]:
    line 94 assigns [outputs] whatever the cell held, and line 93 sets the
    flag for a truthy value only, so a cell whose [outputs] is missing, or
    falsy and not the empty list, is altered behind the flag. *)
Definition cleared_silently (cell : json) : bool :=
  py_eq (get "cell_type" (entries_of cell)) (JStr "code") &&
  match lookup "outputs" (entries_of cell) with
  | None => true
  | Some (JList []) => false
  | Some v => negb (truthy v)
  end.

(** The cells that enter the loop of line 58 without a usable id. *)
Definition lacks_id (cell : json) : bool :=
  negb (good_id (get "id" (entries_of cell))).

(** A computation is silent when it draws no UUID. *)
Definition silent {A} (m : M A) : Prop :=
  forall s a s', m s = Ok (a, s') -> uuid_calls s' = uuid_calls s.

(** * Properties *)

(** ** Dictionaries *)

Lemma lookup_setitem (k k' : string) (v : json) (d : dict) :
  lookup k' (setitem k v d) = if k' =? k then Some v else lookup k' d.
Proof.
  induction d as [|[k0 v0] d IH]; simpl.
  - destruct (k' =? k); reflexivity.
  - destruct (k =? k0) eqn:E; simpl.
    + apply String.eqb_eq in E; subst k0.
      destruct (k' =? k); reflexivity.
    + destruct (k' =? k0) eqn:E'.
      * apply String.eqb_eq in E'; subst k0.
        rewrite String.eqb_sym, E. reflexivity.
      * exact IH.
Qed.

Lemma lookup_setitem_same (k : string) (v : json) (d : dict) :
  lookup k (setitem k v d) = Some v.
Proof. rewrite lookup_setitem, String.eqb_refl. reflexivity. Qed.

(** Storing the value a key already holds leaves the dict as it is. *)
Lemma setitem_id (k : string) (v : json) (d : dict) :
  lookup k d = Some v -> setitem k v d = d.
Proof.
  induction d as [|[k0 v0] d IH]; simpl; [discriminate|].
  destruct (k =? k0) eqn:E.
  - apply String.eqb_eq in E. intros [= ->]. subst; reflexivity.
  - intros H. rewrite (IH H). reflexivity.
Qed.

Lemma keys_setitem_present (k : string) (v : json) (d : dict) :
  lookup k d <> None -> keys (setitem k v d) = keys d.
Proof.
  unfold keys. induction d as [|[k0 v0] d IH]; simpl; [congruence|].
  destruct (k =? k0) eqn:E; simpl.
  - apply String.eqb_eq in E. subst; reflexivity.
  - intros H. rewrite (IH H). reflexivity.
Qed.

Lemma get_is_dict_lookup (k : string) (d e : dict) :
  get k d = JDict e -> lookup k d = Some (JDict e).
Proof.
  unfold get, get_default. destruct (lookup k d); [congruence | discriminate].
Qed.

Lemma get_is_list_lookup (k : string) (d : dict) (l : list json) :
  get k d = JList l -> lookup k d = Some (JList l).
Proof.
  unfold get, get_default. destruct (lookup k d); [congruence | discriminate].
Qed.

Lemma get_setitem (k k' : string) (v : json) (d : dict) :
  get k' (setitem k v d) = if k' =? k then v else get k' d.
Proof.
  unfold get, get_default. rewrite lookup_setitem.
  destruct (k' =? k); reflexivity.
Qed.

Lemma lookup_In (k : string) (v : json) (d : dict) :
  lookup k d = Some v -> In (k, v) d.
Proof.
  induction d as [|[k0 v0] d IH]; simpl; [discriminate|].
  destruct (k =? k0) eqn:E.
  - apply String.eqb_eq in E. intros [= ->]. left; congruence.
  - intros H; right; auto.
Qed.

(** ** Unique keys *)

Lemma existsb_eqb_In (k : string) (l : list string) :
  existsb (String.eqb k) l = true <-> In k l.
Proof.
  rewrite existsb_exists. split.
  - intros (x & Hx & E). apply String.eqb_eq in E. congruence.
  - intros H. exists k. split; [exact H | apply String.eqb_refl].
Qed.

Lemma distinct_NoDup (l : list string) : distinct l = true <-> NoDup l.
Proof.
  induction l as [|k l IH]; simpl.
  - split; [constructor | reflexivity].
  - rewrite andb_true_iff, negb_true_iff, IH. split.
    + intros [H1 H2]. constructor; [|exact H2].
      rewrite <- existsb_eqb_In. congruence.
    + intros H. inversion H as [|? ? Hn Hd]; subst. split; [|exact Hd].
      destruct (existsb (String.eqb k) l) eqn:E; [|reflexivity].
      apply existsb_eqb_In in E. contradiction.
Qed.

Lemma unique_keys_dict (d : dict) :
  unique_keys (JDict d) = true <->
  distinct (keys d) = true /\ forall k v, In (k, v) d -> unique_keys v = true.
Proof.
  simpl. fold (keys d). rewrite andb_true_iff.
  enough (E : (fix all (d : dict) : bool :=
                 match d with
                 | [] => true
                 | (_, v) :: d' => unique_keys v && all d'
                 end) d = true <->
              forall k v, In (k, v) d -> unique_keys v = true) by (rewrite E; tauto).
  induction d as [|[k0 v0] d IH]; simpl.
  - split; [intros _ k v [] | reflexivity].
  - rewrite andb_true_iff, IH. split.
    + intros [H1 H2] k v [E|Hin]; [congruence | eauto].
    + intros H. split; [eapply H; left; reflexivity | intros; eapply H; right; eauto].
Qed.

Lemma unique_keys_list (l : list json) :
  unique_keys (JList l) = true <-> forall x, In x l -> unique_keys x = true.
Proof.
  simpl. induction l as [|y l IH]; simpl.
  - split; [intros _ x [] | reflexivity].
  - rewrite andb_true_iff, IH. split.
    + intros [H1 H2] x [E|Hin]; [congruence | eauto].
    + intros H. split; [apply H; left; reflexivity | intros; apply H; right; assumption].
Qed.

Lemma unique_keys_lookup (k : string) (d : dict) (v : json) :
  unique_keys (JDict d) = true -> lookup k d = Some v -> unique_keys v = true.
Proof.
  intros H L. apply unique_keys_dict in H. destruct H as [_ H].
  eapply H, lookup_In, L.
Qed.

Lemma unique_keys_get (k : string) (d : dict) :
  unique_keys (JDict d) = true -> unique_keys (get k d) = true.
Proof.
  intros H. unfold get, get_default. destruct (lookup k d) eqn:L.
  - eapply unique_keys_lookup; eauto.
  - reflexivity.
Qed.

(** ** Value equality against strings *)

Lemma py_eq_JStr_r (x : json) (s : string) :
  py_eq x (JStr s) = true <-> x = JStr s.
Proof.
  destruct x; simpl; try (split; [discriminate | discriminate]).
  rewrite String.eqb_eq. split; congruence.
Qed.

Lemma py_eq_JStr_l (s : string) (y : json) :
  py_eq (JStr s) y = true <-> y = JStr s.
Proof.
  destruct y; simpl; try (split; [discriminate | discriminate]).
  rewrite String.eqb_eq. split; congruence.
Qed.

(** A list of strings is equal, in Python's sense, to itself only. *)
Lemma py_eq_strs (l : list json) (y : json) :
  forallb is_str l = true ->
  (py_eq (JList l) y = true <-> y = JList l).
Proof.
  intros Hl. destruct y as [| | | | |ys|]; simpl;
    try (split; [discriminate | discriminate]).
  revert ys. induction l as [|x l IH]; intros ys.
  - destruct ys; split; congruence.
  - simpl in Hl. apply andb_true_iff in Hl. destruct Hl as [Hx Hl].
    destruct x; try discriminate.
    destruct ys as [|y ys]; [split; discriminate|].
    rewrite andb_true_iff, (IH Hl ys), py_eq_JStr_l.
    split; [intros [-> [= ->]]; reflexivity | intros [= -> ->]; auto].
Qed.

Lemma py_eq_strs_refl (l : list json) :
  forallb is_str l = true -> py_eq (JList l) (JList l) = true.
Proof. intros H. apply py_eq_strs; auto. Qed.

Lemma py_in_two (x : json) (a b : string) :
  py_in x [JStr a; JStr b] = true <-> x = JStr a \/ x = JStr b.
Proof.
  unfold py_in. simpl. rewrite !orb_true_iff, !py_eq_JStr_r.
  split; [intros [H|[H|H]]; auto; discriminate | intros [H|H]; auto].
Qed.

(** What compares equal to an [int]: that int, a bool of the same value,
    or a float of exactly that value. *)
Lemma py_eq_JInt_r (v : json) (n : Z) :
  py_eq v (JInt n) = true ->
  v = JInt n \/ (exists b, v = JBool b /\ Z_of_bool b = n) \/
  (exists f, v = JFloat f /\ float_eq_Z f n = true).
Proof.
  destruct v; simpl; try discriminate.
  - intros H. apply Z.eqb_eq in H. right. left. eauto.
  - intros H. apply Z.eqb_eq in H. left. congruence.
  - intros H. right. right. eauto.
Qed.

Lemma is_int_inv (v : json) :
  is_int v = true -> (exists n, v = JInt n) \/ (exists b, v = JBool b).
Proof. destruct v; try discriminate; eauto. Qed.

Arguments py_eq : simpl never.

(** ** The coercions *)

Lemma forallb_is_str_map (l : list json) :
  forallb is_str (map (fun t => JStr (to_s t)) l) = true.
Proof. induction l; simpl; auto. Qed.

Lemma coerce_tags_strs (tags : list json) :
  forallb is_str (coerce_tags tags) = true.
Proof. apply forallb_is_str_map. Qed.

Lemma coerce_strs_fix (l : list json) :
  forallb is_str l = true -> map (fun t => JStr (to_s t)) l = l.
Proof.
  induction l as [|x l IH]; simpl; [reflexivity|].
  rewrite andb_true_iff. intros [Hx Hl]. rewrite (IH Hl).
  destruct x; try discriminate. reflexivity.
Qed.

Lemma filter_strs (l : list json) :
  forallb is_str l = true -> filter (fun t => negb (is_none t)) l = l.
Proof.
  induction l as [|x l IH]; simpl; [reflexivity|].
  rewrite andb_true_iff. intros [Hx Hl]. rewrite (IH Hl).
  destruct x; try discriminate. reflexivity.
Qed.

Lemma coerce_tags_fix (l : list json) :
  forallb is_str l = true -> coerce_tags l = l.
Proof.
  intros H. unfold coerce_tags. rewrite (filter_strs _ H).
  apply coerce_strs_fix, H.
Qed.

Lemma coerce_tags_idem (tags : list json) :
  coerce_tags (coerce_tags tags) = coerce_tags tags.
Proof. apply coerce_tags_fix, coerce_tags_strs. Qed.

Lemma coerce_traceback_strs (tb : json) :
  forallb is_str (coerce_traceback tb) = true.
Proof. destruct tb; simpl; auto using forallb_is_str_map. Qed.

Lemma coerce_traceback_idem (tb : json) :
  coerce_traceback (JList (coerce_traceback tb)) = coerce_traceback tb.
Proof.
  simpl. apply coerce_strs_fix, coerce_traceback_strs.
Qed.

(** ** Running the effects *)

Lemma bind_Ok {A B} (m : M A) (k : A -> M B) (s : state) (r : B * state) :
  bind m k s = Ok r -> exists a s1, m s = Ok (a, s1) /\ k a s1 = Ok r.
Proof.
  unfold bind. destruct (m s) as [[a s1]|e]; [eauto | discriminate].
Qed.

Lemma ret_Ok {A} (a b : A) (s s' : state) :
  ret a s = Ok (b, s') -> b = a /\ s' = s.
Proof. unfold ret. intros [= -> ->]. auto. Qed.

Lemma mark_ret_Ok {A} (a b : A) (s s' : state) :
  (mark_changed ;;; ret a) s = Ok (b, s') ->
  b = a /\ s' = mkState true (uuid_calls s).
Proof. unfold bind, mark_changed, set_changed, ret. intros [= -> ->]. auto. Qed.

(** The shape of most rules: a test, then an assignment and
    [changed = True], or nothing. *)
Lemma guarded_Ok {A} (g : bool) (v c c' : A) (s s' : state) :
  (if g then mark_changed ;;; ret v else ret c) s = Ok (c', s') ->
  (g = true /\ c' = v /\ s' = mkState true (uuid_calls s)) \/
  (g = false /\ c' = c /\ s' = s).
Proof.
  destruct g; intros H.
  - left. apply mark_ret_Ok in H. tauto.
  - right. apply ret_Ok in H. tauto.
Qed.

Lemma as_dict_Ok (x : json) (s : state) (d : dict) (s' : state) :
  as_dict x s = Ok (d, s') -> x = JDict d /\ s' = s.
Proof.
  destruct x; simpl; unfold raise, ret; try discriminate.
  intros [= -> ->]. auto.
Qed.

Lemma getitem_Ok (k : string) (d : dict) (s : state) (v : json) (s' : state) :
  getitem k d s = Ok (v, s') -> lookup k d = Some v /\ s' = s.
Proof.
  unfold getitem. destruct (lookup k d); unfold raise, ret; try discriminate.
  intros [= -> ->]. auto.
Qed.

(** ** Quiet rules *)

Lemma quiet_ret {A} : quiet (@ret A).
Proof. intros x s x' s' H. apply ret_Ok in H. destruct H; subst. auto. Qed.

Lemma quiet_bind {A} (f g : A -> M A) :
  quiet f -> quiet g -> quiet (fun x => y <- f x ;; g y).
Proof.
  intros Hf Hg x s x' s' H.
  apply bind_Ok in H. destruct H as (y & s1 & H1 & H2).
  apply Hf in H1. apply Hg in H2.
  destruct H1 as [M1 [[-> ->]|C1]], H2 as [M2 [[-> ->]|C2]]; auto.
Qed.

Lemma quiet_guarded {A} (g : A -> bool) (v : A -> A) :
  quiet (fun c => if g c then mark_changed ;;; ret (v c) else ret c).
Proof.
  intros x s x' s' H. apply guarded_Ok in H.
  destruct H as [(_ & -> & ->)|(_ & -> & ->)]; simpl; auto.
Qed.

Lemma quiet_ext {A} (f g : A -> M A) :
  (forall x s, f x s = g x s) -> quiet g -> quiet f.
Proof. intros E Hg x s x' s' H. rewrite E in H. eauto. Qed.

Lemma quiet_for_each {A} (f : A -> M A) :
  quiet f -> quiet (for_each f).
Proof.
  intros Hf l. induction l as [|x l IH]; intros s l' s' H; simpl in H.
  - apply ret_Ok in H. destruct H; subst; auto.
  - apply bind_Ok in H. destruct H as (x1 & s1 & H1 & H).
    apply bind_Ok in H. destruct H as (l1 & s2 & H2 & H).
    apply ret_Ok in H. destruct H as [-> ->].
    apply Hf in H1. apply IH in H2.
    destruct H1 as [M1 [[-> ->]|C1]], H2 as [M2 [[-> ->]|C2]]; auto.
Qed.

Lemma quiet_for_items (body : string -> json -> dict -> M dict) :
  (forall k v, quiet (body k v)) ->
  forall snapshot, quiet (for_items body snapshot).
Proof.
  intros Hb snapshot.
  induction snapshot as [|[k v] rest IH]; intros d s d' s' H; simpl in H.
  - apply ret_Ok in H. destruct H; subst; auto.
  - apply bind_Ok in H. destruct H as (d1 & s1 & H1 & H2).
    apply Hb in H1. apply IH in H2.
    destruct H1 as [M1 [[-> ->]|C1]], H2 as [M2 [[-> ->]|C2]]; auto.
Qed.

Ltac run_inv :=
  repeat match goal with
  | H : (mark_changed ;;; ret _) _ = Ok _ |- _ =>
      apply mark_ret_Ok in H; destruct H; subst
  | H : bind _ _ _ = Ok _ |- _ =>
      let a := fresh "x" in let s := fresh "s" in let H1 := fresh "H" in
      apply bind_Ok in H; destruct H as (a & s & H1 & H)
  | H : ret _ _ = Ok _ |- _ => apply ret_Ok in H; destruct H; subst
  | H : (if _ then mark_changed ;;; ret _ else ret _) _ = Ok _ |- _ =>
      apply guarded_Ok in H; destruct H as [(? & ? & ?)|(? & ? & ?)]; subst
  | H : as_dict _ _ = Ok _ |- _ => apply as_dict_Ok in H; destruct H; subst
  | H : getitem _ _ _ = Ok _ |- _ => apply getitem_Ok in H; destruct H; subst
  | H : raise _ _ = Ok _ |- _ => discriminate H
  end.

(** Closes a [quiet] goal from the facts of the steps, taken in order. *)
Ltac quiet_chain :=
  repeat match goal with
  | H : (_ -> _) /\ _ |- _ => destruct H
  | H : (_ = _ /\ _ = _) \/ _ |- _ =>
      destruct H as [[-> ->] | ?];
      [ | solve [split; [auto 12 | right; auto 12]] ]
  end;
  try solve [split; [auto 12 | first [left; split; reflexivity | right; auto 12]]].

Lemma quiet_coerce_field (fld : string) : quiet (coerce_field fld).
Proof.
  intros o s o' s' H. unfold coerce_field in H.
  destruct (lookup fld o); run_inv; simpl; auto.
Qed.

Lemma quiet_int_or_null : quiet int_or_null.
Proof.
  intros o s o' s' H. unfold int_or_null in H. run_inv; simpl; auto.
Qed.

Lemma quiet_top_nbformat : quiet top_nbformat.
Proof.
  intros o s o' s' H. unfold top_nbformat in H. run_inv; simpl; auto.
Qed.

Lemma quiet_top_nbformat_minor : quiet top_nbformat_minor.
Proof.
  intros o s o' s' H. unfold top_nbformat_minor in H. run_inv; simpl; auto.
Qed.

Lemma quiet_top_language_info : quiet top_language_info.
Proof.
  intros o s o' s' H. unfold top_language_info in H.
  destruct (get "language_info" o); run_inv; simpl; auto.
Qed.

Lemma quiet_top_kernelspec : quiet top_kernelspec.
Proof.
  intros md s md' s' H. unfold top_kernelspec in H.
  destruct (get "kernelspec" md) eqn:E; run_inv; simpl; auto.
  rewrite (setitem_id _ _ _ (get_is_dict_lookup _ _ _ E)). auto.
Qed.

Lemma quiet_top_metadata : quiet top_metadata.
Proof.
  intros raw s raw' s' H. unfold top_metadata in H. run_inv.
  - match goal with H : top_language_info _ _ = _ |- _ =>
      apply quiet_top_language_info in H end.
    match goal with H : top_kernelspec _ _ = _ |- _ =>
      apply quiet_top_kernelspec in H end.
    quiet_chain.
  - match goal with H : top_language_info _ _ = _ |- _ =>
      apply quiet_top_language_info in H end.
    match goal with H : top_kernelspec _ _ = _ |- _ =>
      apply quiet_top_kernelspec in H end.
    match goal with H : get "metadata" _ = JDict _ |- _ =>
      apply get_is_dict_lookup in H; rename H into L end.
    quiet_chain. rewrite (setitem_id _ _ _ L). auto.
Qed.

Lemma quiet_cell_id : quiet cell_id.
Proof.
  intros c s c' s' H. unfold cell_id in H.
  destruct (_ || _) in H; run_inv; auto.
Qed.

Lemma quiet_cell_metadata : quiet cell_metadata.
Proof.
  intros o s o' s' H. unfold cell_metadata in H. run_inv; simpl; auto.
Qed.

Lemma quiet_cell_tags : quiet cell_tags.
Proof.
  intros c s c' s' H. unfold cell_tags in H. run_inv.
  destruct (get "tags" _); run_inv; simpl; auto.
Qed.

Lemma quiet_coerce_value (k : string) (v : json) : quiet (coerce_value k v).
Proof.
  intros o s o' s' H. unfold coerce_value in H. run_inv; simpl; auto.
Qed.

Lemma quiet_cell_execution : quiet cell_execution.
Proof.
  intros c s c' s' H. unfold cell_execution in H. run_inv.
  destruct (get "execution" _) eqn:E; run_inv; auto.
  match goal with H : for_items _ _ _ _ = _ |- _ =>
    apply (quiet_for_items _ quiet_coerce_value) in H end.
  quiet_chain.
  rewrite (setitem_id "execution") by (apply get_is_dict_lookup, E).
  rewrite setitem_id by assumption. auto.
Qed.

Lemma quiet_cell_attachments : quiet cell_attachments.
Proof.
  intros o s o' s' H. unfold cell_attachments in H. run_inv; simpl; auto.
Qed.

Lemma quiet_coerce_data (k : string) (v : json) : quiet (coerce_data k v).
Proof.
  intros o s o' s' H. unfold coerce_data in H.
  destruct (is_text_mime k); run_inv; simpl; auto.
Qed.

(** [x or y] is [x] itself when [x] is a non-empty container. *)
Lemma py_or_truthy (x y : json) : truthy x = true -> py_or x y = x.
Proof. unfold py_or. intros ->. reflexivity. Qed.

Lemma quiet_output_data : quiet output_data.
Proof.
  intros o s o' s' H. unfold output_data in H.
  destruct (py_or _ _) eqn:E; run_inv; simpl; auto.
  match goal with H : for_items _ _ _ _ = _ |- _ =>
    apply (quiet_for_items _ quiet_coerce_data) in H end.
  quiet_chain.
  destruct (truthy (get "data" o)) eqn:T; auto.
  rewrite py_or_truthy in E by assumption.
  rewrite setitem_id by (apply get_is_dict_lookup, E). auto.
Qed.

Lemma quiet_output_traceback : quiet output_traceback.
Proof.
  intros o s o' s' H. unfold output_traceback in H.
  destruct (lookup "traceback" o); run_inv; simpl; auto.
Qed.

Lemma quiet_normalize_output : quiet normalize_output.
Proof.
  intros out s out' s' H. unfold normalize_output in H.
  apply bind_Ok in H. destruct H as (o & s0 & H0 & H).
  apply as_dict_Ok in H0. destruct H0 as [-> ->].
  apply bind_Ok in H. destruct H as (o1 & s1 & H1 & H).
  apply bind_Ok in H. destruct H as (o2 & s2 & H2 & H).
  apply ret_Ok in H. destruct H as [-> ->].
  apply (quiet_guarded
           (fun o => negb (is_dict (get_default "metadata" (JDict []) o)))
           (fun o => setitem "metadata" (JDict []) o)) in H1.
  assert (Q2 : (changed s1 = true -> changed s2 = true) /\
               ((o2 = o1 /\ s2 = s1) \/ changed s2 = true)).
  { clear H1. revert H2.
    generalize (get "output_type" o1). intros ot H2.
    destruct (py_eq ot (JStr "stream")).
    - revert H2. apply (quiet_bind (coerce_field "text") (coerce_field "name"));
        apply quiet_coerce_field.
    - destruct (py_in ot _).
      + destruct (py_eq ot (JStr "execute_result")).
        * revert H2. apply (quiet_bind output_data int_or_null);
            [apply quiet_output_data | apply quiet_int_or_null].
        * revert H2. apply (quiet_bind output_data (@ret dict));
            [apply quiet_output_data | apply quiet_ret].
      + destruct (py_eq ot (JStr "error")).
        * revert H2.
          apply (quiet_bind output_traceback
                   (fun o => o <- coerce_field "ename" o ;;
                             coerce_field "evalue" o));
            [apply quiet_output_traceback|].
          apply quiet_bind; apply quiet_coerce_field.
        * apply ret_Ok in H2. destruct H2; subst; auto. }
  quiet_chain.
Qed.

Lemma quiet_cell_normalize : quiet cell_normalize.
Proof.
  intros c s c' s' H. unfold cell_normalize in H.
  apply bind_Ok in H. destruct H as (c1 & s1 & H1 & H2).
  apply quiet_int_or_null in H2.
  destruct (py_or _ _) eqn:E in H1; run_inv; try solve [quiet_chain].
  match goal with H : for_each _ _ _ = _ |- _ =>
    apply (quiet_for_each _ quiet_normalize_output) in H end.
  quiet_chain.
  destruct (truthy (get "outputs" c)) eqn:T; auto.
  rewrite py_or_truthy in E by assumption.
  rewrite setitem_id by (apply get_is_list_lookup, E). auto.
Qed.

Lemma quiet_cell_outputs : quiet (cell_outputs false).
Proof.
  intros c s c' s' H. unfold cell_outputs in H.
  destruct (py_eq _ _).
  - apply quiet_cell_normalize in H. exact H.
  - apply quiet_ret in H. exact H.
Qed.

(** In normalize mode the loop body either leaves the cell and the state
    as they are, or sets [changed]. *)
Lemma quiet_sanitize_cell : quiet (sanitize_cell false).
Proof.
  intros cell s cell' s' H. unfold sanitize_cell in H. run_inv.
  repeat match goal with
  | H : cell_id _ _ = _ |- _ => apply quiet_cell_id in H
  | H : coerce_field _ _ _ = _ |- _ => apply quiet_coerce_field in H
  | H : cell_metadata _ _ = _ |- _ => apply quiet_cell_metadata in H
  | H : cell_tags _ _ = _ |- _ => apply quiet_cell_tags in H
  | H : cell_execution _ _ = _ |- _ => apply quiet_cell_execution in H
  | H : cell_attachments _ _ = _ |- _ => apply quiet_cell_attachments in H
  | H : cell_outputs _ _ _ = _ |- _ => apply quiet_cell_outputs in H
  end.
  quiet_chain.
Qed.

Lemma quiet_top_cells : quiet (top_cells false).
Proof.
  intros raw s raw' s' H. unfold top_cells in H.
  apply bind_Ok in H. destruct H as (raw1 & s1 & H1 & H2).
  apply guarded_Ok in H1.
  destruct H1 as [(G & -> & ->)|(G & -> & ->)].
  - rewrite get_setitem in H2. simpl in H2. run_inv.
    simpl in *. subst. auto.
  - destruct (get "cells" raw) eqn:E; try discriminate G. run_inv.
    match goal with H : for_each _ _ _ = _ |- _ =>
      apply (quiet_for_each _ quiet_sanitize_cell) in H end.
    quiet_chain.
    rewrite setitem_id by (apply get_is_list_lookup, E). auto.
Qed.

(** In normalize mode a pass that returns [changed = False] has left the
    tree as it was. *)
Lemma sanitize_unchanged (doc doc' : json) (s s' : state) :
  sanitize_notebook false doc s = Ok ((doc', false), s') -> doc' = doc.
Proof.
  intros H. unfold sanitize_notebook in H.
  apply bind_Ok in H. destruct H as ([] & s0 & H0 & H).
  unfold set_changed in H0. injection H0 as <-.
  run_inv.
  repeat match goal with
  | H : top_nbformat _ _ = _ |- _ => apply quiet_top_nbformat in H
  | H : top_nbformat_minor _ _ = _ |- _ => apply quiet_top_nbformat_minor in H
  | H : top_metadata _ _ = _ |- _ => apply quiet_top_metadata in H
  | H : top_cells _ _ _ = _ |- _ => apply quiet_top_cells in H
  end.
  unfold get_changed in *.
  match goal with H : Ok _ = Ok _ |- _ => injection H as E1 E2 end.
  match goal with H : (_, _) = (_, _) |- _ => injection H as E3 E4 end.
  subst.
  repeat match goal with
  | H : (_ -> _) /\ _ |- _ => destruct H
  | H : (_ = _ /\ _ = _) \/ _ |- _ => destruct H as [[-> ->] | ?]
  end; try reflexivity; exfalso;
  repeat match goal with
  | H : changed ?a = true -> changed ?b = true, H' : changed ?a = true |- _ =>
      specialize (H H')
  end; congruence.
Qed.

(** ** A normalised document is left alone *)

Lemma bind_step {A B} (m : M A) (k : A -> M B) (s s1 : state) (a : A) :
  m s = Ok (a, s1) -> bind m k s = k a s1.
Proof. unfold bind. intros ->. reflexivity. Qed.

Lemma for_each_noop {A} (f : A -> M A) (l : list A) (s : state) :
  (forall x, In x l -> f x s = Ok (x, s)) -> for_each f l s = Ok (l, s).
Proof.
  induction l as [|x l IH]; intros H; simpl; [reflexivity|].
  rewrite (bind_step _ _ _ _ _ (H x (or_introl eq_refl))).
  rewrite (bind_step _ _ _ _ _ (IH (fun y Hy => H y (or_intror Hy)))).
  reflexivity.
Qed.

Lemma coerce_value_eq (k : string) (v : json) (d : dict) :
  coerce_value k v d =
  if negb (is_str v) then mark_changed ;;; ret (setitem k (JStr (to_s v)) d)
  else ret d.
Proof. reflexivity. Qed.

Lemma coerce_data_eq (k : string) (v : json) (d : dict) :
  coerce_data k v d =
  if needs_coerce k v then mark_changed ;;; ret (setitem k (JStr (to_s v)) d)
  else ret d.
Proof. unfold coerce_data, needs_coerce. destruct (is_text_mime k); reflexivity. Qed.

Section Items.

(** The two loops over [items()] share their shape: a test [g] on the
    entry, and [d[k] = to_s(v)] when it holds. *)
Variable g : string -> json -> bool.
Variable body : string -> json -> dict -> M dict.
Hypothesis body_eq : forall k v d,
  body k v d =
  if g k v then mark_changed ;;; ret (setitem k (JStr (to_s v)) d) else ret d.

Lemma for_items_noop (snapshot d : dict) (s : state) :
  forallb (fun kv => negb (g (fst kv) (snd kv))) snapshot = true ->
  for_items body snapshot d s = Ok (d, s).
Proof.
  induction snapshot as [|[k v] rest IH]; simpl; [reflexivity|].
  rewrite andb_true_iff, negb_true_iff. intros [Hg Hrest].
  rewrite body_eq, Hg. unfold bind at 1. simpl. auto.
Qed.

Lemma setitem_app_fresh (k : string) (v v' : json) (pre rest : dict) :
  ~ In k (keys pre) ->
  setitem k v' (pre ++ (k, v) :: rest)%list = (pre ++ (k, v') :: rest)%list.
Proof.
  induction pre as [|[k0 v0] pre IH]; simpl; intros Hn.
  - rewrite String.eqb_refl. reflexivity.
  - destruct (k =? k0) eqn:E.
    + apply String.eqb_eq in E. subst. exfalso. apply Hn. left. reflexivity.
    + rewrite IH; [reflexivity|]. intros Hin. apply Hn. right. exact Hin.
Qed.

(** With distinct keys the loop rewrites every entry in place: it is a
    [map] over the entries, and it sets [changed] when some test holds. *)
Lemma for_items_run (snapshot pre : dict) (s : state) :
  NoDup (keys (pre ++ snapshot)%list) ->
  for_items body snapshot (pre ++ snapshot)%list s =
  Ok ((pre ++ coerce_entries g snapshot)%list,
      if existsb (fun kv => g (fst kv) (snd kv)) snapshot
      then mkState true (uuid_calls s) else s).
Proof.
  revert pre s. induction snapshot as [|[k v] rest IH]; intros pre s Hnd.
  - reflexivity.
  - assert (Hfresh : ~ In k (keys pre)).
    { unfold keys in *. rewrite map_app in Hnd. simpl in Hnd.
      apply NoDup_remove_2 in Hnd. intros Hin. apply Hnd.
      apply in_or_app. left. exact Hin. }
    simpl. rewrite body_eq. destruct (g k v) eqn:Hg; simpl.
    + unfold bind at 1. simpl.
      rewrite (setitem_app_fresh _ _ _ _ _ Hfresh).
      replace (pre ++ (k, JStr (to_s v)) :: rest)%list
        with ((pre ++ [(k, JStr (to_s v))]) ++ rest)%list
        by (rewrite <- app_assoc; reflexivity).
      rewrite IH.
      * rewrite <- app_assoc. simpl.
        destruct (existsb _ rest); reflexivity.
      * unfold keys in *. rewrite !map_app in *. simpl in *.
        rewrite <- app_assoc. exact Hnd.
    + unfold bind at 1. simpl.
      replace (pre ++ (k, v) :: rest)%list
        with ((pre ++ [(k, v)]) ++ rest)%list
        by (rewrite <- app_assoc; reflexivity).
      rewrite IH.
      * rewrite <- app_assoc. reflexivity.
      * unfold keys in *. rewrite !map_app in *. simpl in *.
        rewrite <- app_assoc. exact Hnd.
Qed.

Lemma for_items_entries (d : dict) (s : state) :
  NoDup (keys d) ->
  for_items body d d s =
  Ok (coerce_entries g d,
      if existsb (fun kv => g (fst kv) (snd kv)) d
      then mkState true (uuid_calls s) else s).
Proof. intros H. exact (for_items_run d [] s H). Qed.

End Items.

Lemma coerce_entries_clean (g : string -> json -> bool) (d : dict) :
  (forall k s, g k (JStr s) = false) ->
  forallb (fun kv => negb (g (fst kv) (snd kv))) (coerce_entries g d) = true.
Proof.
  intros Hg. induction d as [|[k v] d IH]; simpl; [reflexivity|].
  rewrite IH, andb_true_r. destruct (g k v) eqn:E; [|rewrite E; reflexivity].
  rewrite Hg. reflexivity.
Qed.

Lemma needs_coerce_str (k s : string) : needs_coerce k (JStr s) = false.
Proof. unfold needs_coerce. destruct (is_text_mime k); reflexivity. Qed.

Lemma coerce_field_noop (fld : string) (o : dict) (s : state) :
  field_ok fld o = true -> coerce_field fld o s = Ok (o, s).
Proof.
  unfold field_ok, coerce_field. destruct (lookup fld o); [|reflexivity].
  intros ->. reflexivity.
Qed.

Lemma int_or_null_noop (o : dict) (s : state) :
  int_or_null_ok o = true -> int_or_null o s = Ok (o, s).
Proof.
  unfold int_or_null_ok, int_or_null.
  destruct (is_none _), (is_int _); simpl; intros H;
    try discriminate; reflexivity.
Qed.

Lemma output_data_noop (o : dict) (s : state) :
  data_ok o = true -> output_data o s = Ok (o, s).
Proof.
  unfold data_ok, output_data.
  destruct (py_or _ _) eqn:E; try discriminate. intros H.
  rewrite (bind_step _ _ _ _ _
             (for_items_noop needs_coerce coerce_data coerce_data_eq
                entries entries s H)).
  unfold ret. destruct (truthy (get "data" o)) eqn:T; [|reflexivity].
  rewrite py_or_truthy in E by assumption.
  rewrite setitem_id by (apply get_is_dict_lookup, E). reflexivity.
Qed.

Lemma output_traceback_noop (o : dict) (s : state) :
  traceback_ok o = true -> output_traceback o s = Ok (o, s).
Proof.
  unfold traceback_ok, output_traceback.
  destruct (lookup "traceback" o); [|reflexivity].
  intros ->. reflexivity.
Qed.

Lemma normalize_output_noop (out : json) (s : state) :
  output_ok out = true -> normalize_output out s = Ok (out, s).
Proof.
  destruct out as [| | | | | |o]; try discriminate. unfold output_ok.
  rewrite andb_true_iff. intros [Hm H].
  unfold normalize_output.
  rewrite (bind_step _ _ s s o eq_refl).
  rewrite (bind_step _ _ s s o) by (rewrite Hm; reflexivity).
  cbv zeta in *. set (ot := get "output_type" o) in *.
  match goal with |- bind ?m _ _ = _ =>
    assert (Hmid : m s = Ok (o, s)) end.
  { destruct (py_eq ot (JStr "stream")).
    - apply andb_true_iff in H. destruct H as [H1 H2].
      rewrite (bind_step _ _ _ _ _ (coerce_field_noop _ _ _ H1)).
      apply coerce_field_noop, H2.
    - destruct (py_in ot _).
      + apply andb_true_iff in H. destruct H as [H1 H2].
        rewrite (bind_step _ _ _ _ _ (output_data_noop _ _ H1)).
        destruct (py_eq ot (JStr "execute_result")).
        * apply int_or_null_noop, H2.
        * reflexivity.
      + destruct (py_eq ot (JStr "error")); [|reflexivity].
        apply andb_true_iff in H. destruct H as [H H3].
        apply andb_true_iff in H. destruct H as [H1 H2].
        rewrite (bind_step _ _ _ _ _ (output_traceback_noop _ _ H1)).
        rewrite (bind_step _ _ _ _ _ (coerce_field_noop _ _ _ H2)).
        apply coerce_field_noop, H3. }
  rewrite (bind_step _ _ _ _ _ Hmid). reflexivity.
Qed.

Lemma cell_id_noop (c : dict) (s : state) :
  good_id (get "id" c) = true -> cell_id c s = Ok (c, s).
Proof.
  unfold good_id, cell_id. rewrite negb_true_iff. intros ->. reflexivity.
Qed.

Lemma cell_metadata_noop (c : dict) (s : state) :
  metadata_ok c = true -> cell_metadata c s = Ok (c, s).
Proof.
  unfold metadata_ok, cell_metadata, get_default.
  destruct (lookup "metadata" c) as [[]|]; try discriminate. reflexivity.
Qed.

Lemma cell_tags_noop (c : dict) (s : state) :
  metadata_ok c = true -> cell_tags c s = Ok (c, s).
Proof.
  unfold metadata_ok, cell_tags.
  destruct (lookup "metadata" c) as [[| | | | | |md]|] eqn:L; try discriminate.
  rewrite andb_true_iff. intros [H _]. unfold tags_ok in H.
  rewrite (bind_step _ _ s s (JDict md))
    by (unfold getitem; rewrite L; reflexivity).
  rewrite (bind_step _ _ s s md eq_refl).
  destruct (get "tags" md); try reflexivity.
  cbv zeta. rewrite H. reflexivity.
Qed.

Lemma forallb_pointwise {A} (f g : A -> bool) (l : list A) :
  (forall x, f x = g x) -> forallb f l = forallb g l.
Proof.
  intros E. induction l as [|x l IH]; simpl; [reflexivity|].
  rewrite E, IH. reflexivity.
Qed.

Lemma cell_execution_noop (c : dict) (s : state) :
  metadata_ok c = true -> cell_execution c s = Ok (c, s).
Proof.
  unfold metadata_ok, cell_execution.
  destruct (lookup "metadata" c) as [[| | | | | |md]|] eqn:L; try discriminate.
  rewrite andb_true_iff. intros [_ H]. unfold execution_ok in H.
  rewrite (bind_step _ _ s s (JDict md))
    by (unfold getitem; rewrite L; reflexivity).
  rewrite (bind_step _ _ s s md eq_refl).
  destruct (get "execution" md) eqn:E; try reflexivity.
  rewrite (bind_step _ _ s s _
             (for_items_noop (fun _ v => negb (is_str v)) coerce_value
                coerce_value_eq entries entries s
                ltac:(rewrite <- H; apply forallb_pointwise;
                      intros [k v]; simpl; apply negb_involutive))).
  unfold ret.
  rewrite (setitem_id "execution") by (apply get_is_dict_lookup, E).
  rewrite setitem_id by assumption. reflexivity.
Qed.

Lemma cell_attachments_noop (c : dict) (s : state) :
  attachments_ok c = true -> cell_attachments c s = Ok (c, s).
Proof.
  unfold attachments_ok, cell_attachments. rewrite negb_true_iff.
  intros ->. reflexivity.
Qed.

Lemma cell_strip_noop (c : dict) (s : state) :
  stripped c = true -> cell_strip c s = Ok (c, s).
Proof.
  unfold stripped, cell_strip.
  destruct (lookup "outputs" c) as [[| | | | |[|]|]|] eqn:L; try discriminate.
  intros H. unfold get at 1, get_default. rewrite L. simpl truthy.
  unfold bind at 1; simpl.
  rewrite (setitem_id _ _ _ L), H. reflexivity.
Qed.

Lemma cell_normalize_noop (c : dict) (s : state) :
  outputs_ok c = true -> int_or_null_ok c = true ->
  cell_normalize c s = Ok (c, s).
Proof.
  unfold outputs_ok, cell_normalize. intros H1 H2.
  destruct (py_or _ _) eqn:E; try discriminate.
  assert (F : for_each normalize_output items s = Ok (items, s)).
  { apply for_each_noop. intros x Hx. apply normalize_output_noop.
    rewrite forallb_forall in H1. auto. }
  rewrite (bind_step _ _ _ _ _ (bind_step _ _ _ _ _ F)).
  destruct (truthy (get "outputs" c)) eqn:T.
  - rewrite py_or_truthy in E by assumption.
    rewrite setitem_id by (apply get_is_list_lookup, E).
    apply int_or_null_noop, H2.
  - apply int_or_null_noop, H2.
Qed.

Lemma cell_outputs_noop (strip_outputs : bool) (c : dict) (s : state) :
  code_ok strip_outputs c = true -> cell_outputs strip_outputs c s = Ok (c, s).
Proof.
  unfold code_ok, cell_outputs.
  destruct (py_eq _ _); [|reflexivity].
  destruct strip_outputs.
  - apply cell_strip_noop.
  - rewrite andb_true_iff. intros [H1 H2]. apply cell_normalize_noop; auto.
Qed.

(** The loop body leaves a clean cell, and the state, as they are. *)
Lemma sanitize_cell_noop (strip_outputs : bool) (cell : json) (s : state) :
  cell_ok strip_outputs cell = true ->
  sanitize_cell strip_outputs cell s = Ok (cell, s).
Proof.
  destruct cell as [| | | | | |c]; try discriminate. simpl cell_ok.
  rewrite !andb_true_iff. intros [[[[H1 H2] H3] H4] H5].
  unfold sanitize_cell. simpl as_dict. unfold bind at 1; simpl.
  rewrite (bind_step _ _ _ _ _ (cell_id_noop _ _ H1)).
  rewrite (bind_step _ _ _ _ _ (coerce_field_noop _ _ _ H2)).
  rewrite (bind_step _ _ _ _ _ (cell_metadata_noop _ _ H3)).
  rewrite (bind_step _ _ _ _ _ (cell_tags_noop _ _ H3)).
  rewrite (bind_step _ _ _ _ _ (cell_execution_noop _ _ H3)).
  rewrite (bind_step _ _ _ _ _ (cell_attachments_noop _ _ H4)).
  rewrite (bind_step _ _ _ _ _ (cell_outputs_noop _ _ _ H5)).
  reflexivity.
Qed.

Lemma top_language_info_noop (md : dict) (s : state) :
  language_info_ok md = true -> top_language_info md s = Ok (md, s).
Proof.
  unfold language_info_ok, top_language_info.
  destruct (get "language_info" md); try discriminate.
  destruct (lookup "name" entries); try discriminate.
  intros ->. reflexivity.
Qed.

Lemma top_kernelspec_noop (md : dict) (s : state) :
  kernelspec_ok md = true -> top_kernelspec md s = Ok (md, s).
Proof.
  unfold kernelspec_ok, top_kernelspec.
  destruct (get "kernelspec" md) eqn:E; try discriminate.
  rewrite andb_true_iff, !negb_true_iff. intros [H1 H2].
  rewrite H1. rewrite (bind_step _ _ s s entries eq_refl).
  rewrite H2. rewrite (bind_step _ _ s s entries eq_refl).
  unfold ret.
  rewrite setitem_id by (apply get_is_dict_lookup, E). reflexivity.
Qed.

Lemma top_metadata_noop (raw md : dict) (s : state) :
  get "metadata" raw = JDict md ->
  language_info_ok md = true -> kernelspec_ok md = true ->
  top_metadata raw s = Ok (raw, s).
Proof.
  intros E H1 H2. unfold top_metadata.
  rewrite (bind_step _ _ s s raw) by (rewrite E; reflexivity).
  rewrite (bind_step _ _ s s md) by (rewrite E; reflexivity).
  rewrite (bind_step _ _ _ _ _ (top_language_info_noop _ _ H1)).
  rewrite (bind_step _ _ _ _ _ (top_kernelspec_noop _ _ H2)).
  unfold ret. rewrite setitem_id by (apply get_is_dict_lookup, E).
  reflexivity.
Qed.

Lemma top_cells_noop (strip_outputs : bool) (raw : dict) (cells : list json)
    (s : state) :
  get "cells" raw = JList cells ->
  forallb (cell_ok strip_outputs) cells = true ->
  top_cells strip_outputs raw s = Ok (raw, s).
Proof.
  intros E H. unfold top_cells.
  rewrite (bind_step _ _ s s raw) by (rewrite E; reflexivity).
  rewrite E.
  assert (F : for_each (sanitize_cell strip_outputs) cells s = Ok (cells, s)).
  { apply for_each_noop. intros x Hx. apply sanitize_cell_noop.
    rewrite forallb_forall in H. auto. }
  rewrite (bind_step _ _ _ _ _ F). unfold ret.
  rewrite setitem_id by (apply get_is_list_lookup, E). reflexivity.
Qed.

(** On a normalised document the pass changes nothing, draws no UUID and
    returns [False]. *)
Lemma sanitize_noop (strip_outputs : bool) (doc : json) (s : state) :
  normalized strip_outputs doc = true ->
  sanitize_notebook strip_outputs doc s =
  Ok ((doc, false), mkState false (uuid_calls s)).
Proof.
  destruct doc as [| | | | | |raw]; try discriminate. unfold normalized, top_ok.
  rewrite !andb_true_iff. intros [[[H1 H2] H3] H4].
  destruct (get "metadata" raw) as [| | | | | |md] eqn:Em; try discriminate.
  destruct (get "cells" raw) as [| | | | |cells|] eqn:Ec; try discriminate.
  apply andb_true_iff in H3. destruct H3 as [H3 H3'].
  unfold sanitize_notebook.
  rewrite (bind_step _ _ s (mkState false (uuid_calls s)) tt eq_refl).
  rewrite (bind_step _ _ _ _ raw eq_refl).
  rewrite (bind_step _ _ _ (mkState false (uuid_calls s)) raw)
    by (unfold top_nbformat; rewrite H1; reflexivity).
  rewrite (bind_step _ _ _ (mkState false (uuid_calls s)) raw)
    by (unfold top_nbformat_minor; rewrite H2; reflexivity).
  rewrite (bind_step _ _ _ _ _ (top_metadata_noop _ _ _ Em H3 H3')).
  rewrite (bind_step _ _ _ _ _ (top_cells_noop _ _ _ _ Ec H4)).
  reflexivity.
Qed.

(** ** What each rule does to the keys it touches *)

Lemma touches_refl (K : list string) (c : dict) : touches K c c.
Proof. intros k _. reflexivity. Qed.

Lemma touches_setitem (k : string) (v : json) (c : dict) :
  touches [k] c (setitem k v c).
Proof.
  intros k' H. simpl in H. rewrite orb_false_r in H.
  rewrite lookup_setitem, H. reflexivity.
Qed.

Lemma touches_get (K : list string) (c c' : dict) (k : string) :
  touches K c c' -> existsb (String.eqb k) K = false -> get k c' = get k c.
Proof. intros T H. unfold get, get_default. rewrite (T k H). reflexivity. Qed.

Lemma touches_get_default (K : list string) (c c' : dict) (k : string)
    (dflt : json) :
  touches K c c' -> existsb (String.eqb k) K = false ->
  get_default k dflt c' = get_default k dflt c.
Proof. intros T H. unfold get_default. rewrite (T k H). reflexivity. Qed.

(** Rewrites the lookups of untouched keys back to the earlier dict. *)
Ltac back :=
  repeat match goal with
  | T : touches _ ?c ?c' |- context [lookup ?k ?c'] => rewrite (T k eq_refl)
  | T : touches _ ?c ?c' |- context [get ?k ?c'] =>
      rewrite (touches_get _ _ _ k T eq_refl)
  | T : touches _ ?c ?c' |- context [get_default ?k ?d ?c'] =>
      rewrite (touches_get_default _ _ _ k d T eq_refl)
  end.

Ltac back_in H :=
  repeat match type of H with
  | context [lookup ?k ?c'] =>
      match goal with
      | T : touches _ ?c c' |- _ => rewrite (T k eq_refl) in H
      end
  | context [get ?k ?c'] =>
      match goal with
      | T : touches _ ?c c' |- _ =>
          rewrite (touches_get _ _ _ k T eq_refl) in H
      end
  | context [get_default ?k ?d ?c'] =>
      match goal with
      | T : touches _ ?c c' |- _ =>
          rewrite (touches_get_default _ _ _ k d T eq_refl) in H
      end
  end.

Lemma guarded_setitem_Ok (g : bool) (k : string) (v : json) (c c' : dict)
    (s s' : state) :
  (if g then mark_changed ;;; ret (setitem k v c) else ret c) s = Ok (c', s') ->
  touches [k] c c' /\
  lookup k c' = (if g then Some v else lookup k c) /\
  s' = (if g then mkState true (uuid_calls s) else s).
Proof.
  intros H. apply guarded_Ok in H.
  destruct H as [(-> & -> & ->)|(-> & -> & ->)].
  - split; [apply touches_setitem|]. rewrite lookup_setitem_same. auto.
  - split; [apply touches_refl|]. auto.
Qed.

Lemma coerce_field_spec (fld : string) (o o' : dict) (s s' : state) :
  coerce_field fld o s = Ok (o', s') ->
  touches [fld] o o' /\
  lookup fld o' = option_map coerce_str (lookup fld o) /\
  field_ok fld o' = true.
Proof.
  unfold coerce_field, field_ok. intros H.
  destruct (lookup fld o) as [v|] eqn:L.
  - apply guarded_setitem_Ok in H. destruct H as (T & E & _).
    split; [exact T|]. rewrite E. unfold coerce_str. simpl.
    destruct (is_str v) eqn:V; simpl; rewrite ?L; auto.
  - apply ret_Ok in H. destruct H as [-> ->].
    split; [apply touches_refl|]. rewrite L. auto.
Qed.

Lemma int_or_null_spec (o o' : dict) (s s' : state) :
  int_or_null o s = Ok (o', s') ->
  touches ["execution_count"] o o' /\
  int_or_null_ok o' = true /\
  lookup "execution_count" o' =
    (if int_or_null_ok o then lookup "execution_count" o else Some JNull).
Proof.
  unfold int_or_null, int_or_null_ok. intros H.
  apply guarded_setitem_Ok in H. destruct H as (T & E & _).
  split; [exact T|]. unfold get, get_default in *. rewrite E.
  destruct (lookup "execution_count" o) as [[]|]; simpl; auto.
Qed.

Lemma output_traceback_spec (o o' : dict) (s s' : state) :
  output_traceback o s = Ok (o', s') ->
  touches ["traceback"] o o' /\
  lookup "traceback" o' =
    option_map (fun tb => JList (coerce_traceback tb)) (lookup "traceback" o) /\
  traceback_ok o' = true.
Proof.
  unfold output_traceback, traceback_ok. intros H.
  destruct (lookup "traceback" o) as [tb|] eqn:L.
  - cbv zeta in H. apply guarded_setitem_Ok in H. destruct H as (T & E & _).
    split; [exact T|]. rewrite E. cbn [option_map].
    assert (Q : py_eq (JList (coerce_traceback (JList (coerce_traceback tb))))
                  (JList (coerce_traceback tb)) = true).
    { rewrite coerce_traceback_idem.
      apply py_eq_strs_refl, coerce_traceback_strs. }
    destruct (py_eq (JList (coerce_traceback tb)) tb) eqn:P; cbn [negb].
    + rewrite L. split; [|exact P].
      apply py_eq_strs in P; [|apply coerce_traceback_strs].
      f_equal. exact P.
    + split; [reflexivity | exact Q].
  - apply ret_Ok in H. destruct H as [-> ->].
    split; [apply touches_refl|]. rewrite L. auto.
Qed.

Lemma coerce_entries_nil_iff (g : string -> json -> bool) (d : dict) :
  coerce_entries g d = [] <-> d = [].
Proof. destruct d; simpl; split; congruence. Qed.

Lemma output_data_spec (o o' : dict) (s s' : state) :
  (forall data, lookup "data" o = Some (JDict data) -> NoDup (keys data)) ->
  output_data o s = Ok (o', s') ->
  touches ["data"] o o' /\
  data_ok o' = true /\
  lookup "data" o' =
    (if truthy (get "data" o) then
       Some (JDict match get "data" o with
                   | JDict data => coerce_entries needs_coerce data
                   | _ => []
                   end)
     else lookup "data" o).
Proof.
  intros U H. unfold output_data in H. cbv zeta in H. unfold data_ok.
  unfold py_or in *.
  destruct (truthy (get "data" o)) eqn:T.
  - destruct (get "data" o) as [| | | | | |data] eqn:G;
      try (apply mark_ret_Ok in H; destruct H as [-> ->];
           split; [apply touches_setitem|];
           rewrite get_setitem, lookup_setitem_same; simpl; auto).
    apply bind_Ok in H. destruct H as (data' & s1 & H1 & H).
    apply ret_Ok in H. destruct H as [-> ->].
    rewrite (for_items_entries needs_coerce coerce_data coerce_data_eq)
      in H1 by (apply U, get_is_dict_lookup, G).
    injection H1 as <- _.
    split; [apply touches_setitem|].
    rewrite get_setitem, lookup_setitem_same. simpl String.eqb. cbv iota.
    split; [|reflexivity].
    destruct (truthy (JDict (coerce_entries needs_coerce data)));
      [|reflexivity].
    apply coerce_entries_clean, needs_coerce_str.
  - apply bind_Ok in H. destruct H as (data' & s1 & H1 & H).
    apply ret_Ok in H. destruct H as [-> ->].
    split; [apply touches_refl|]. rewrite T. auto.
Qed.

(** Closes [touches K c c'] from the frames of the steps in between. *)
Ltac touch :=
  let k := fresh "k" in
  let Hk := fresh "Hk" in
  intros k Hk; simpl in Hk; rewrite ?orb_false_iff in Hk;
  repeat match goal with H : _ /\ _ |- _ => destruct H end;
  repeat match goal with
  | T : touches _ ?c ?c' |- context [lookup k ?c'] =>
      rewrite (T k)
        by (simpl;
            repeat match goal with
                   | E : (k =? _) = false |- _ => rewrite E
                   end; reflexivity)
  end; reflexivity.

(** The loop body on one output: the result is clean, the discriminator is
    kept, and a truthy [data] dict has been rewritten entry by entry. *)
Lemma normalize_output_spec (out out' : json) (s s' : state) :
  unique_keys out = true ->
  normalize_output out s = Ok (out', s') ->
  exists o o', out = JDict o /\ out' = JDict o' /\
    output_ok out' = true /\
    get "output_type" o' = get "output_type" o /\
    (py_in (get "output_type" o)
       [JStr "display_data"; JStr "execute_result"] = true ->
     lookup "data" o' =
       (if truthy (get "data" o) then
          Some (JDict match get "data" o with
                      | JDict data => coerce_entries needs_coerce data
                      | _ => []
                      end)
        else lookup "data" o)).
Proof.
  intros U H. unfold normalize_output in H.
  apply bind_Ok in H. destruct H as (o & s0 & H0 & H).
  apply as_dict_Ok in H0. destruct H0 as [-> ->].
  apply bind_Ok in H. destruct H as (o1 & s1 & H1 & H).
  apply bind_Ok in H. destruct H as (o2 & s2 & H2 & H).
  apply ret_Ok in H. destruct H as [-> ->].
  apply guarded_setitem_Ok in H1. destruct H1 as (T1 & E1 & _).
  exists o, o2. split; [reflexivity|]. split; [reflexivity|].
  assert (M1 : is_dict (get_default "metadata" (JDict []) o1) = true).
  { unfold get_default in *. rewrite E1.
    destruct (lookup "metadata" o) as [[]|]; reflexivity. }
  assert (U1 : forall data, lookup "data" o1 = Some (JDict data) ->
                 NoDup (keys data)).
  { intros data L. rewrite (T1 "data" eq_refl) in L.
    pose proof (unique_keys_lookup _ _ _ U L) as U'.
    apply unique_keys_dict in U'. apply distinct_NoDup, U'. }
  assert (D1 : get "data" o1 = get "data" o)
    by (apply (touches_get _ _ _ _ T1); reflexivity).
  assert (O1 : get "output_type" o1 = get "output_type" o)
    by (apply (touches_get _ _ _ _ T1); reflexivity).
  revert H2. cbv zeta. unfold output_ok. rewrite O1.
  set (ot := get "output_type" o). intros H2.
  destruct (py_eq ot (JStr "stream")) eqn:P1.
  - apply py_eq_JStr_r in P1.
    apply bind_Ok in H2. destruct H2 as (o3 & s3 & H3 & H4).
    apply coerce_field_spec in H3. destruct H3 as (T3 & _ & F3).
    apply coerce_field_spec in H4. destruct H4 as (T4 & _ & F4).
    assert (O2 : get "output_type" o2 = ot) by (subst ot; back; reflexivity).
    rewrite O2. split; [|split; [reflexivity|]].
    + rewrite P1. change (py_eq (JStr "stream") (JStr "stream")) with true.
      cbv iota. unfold field_ok in *. back. rewrite M1, F3, F4. reflexivity.
    + rewrite P1. intros X. discriminate X.
  - destruct (py_in ot [JStr "display_data"; JStr "execute_result"]) eqn:P2.
    + apply bind_Ok in H2. destruct H2 as (o3 & s3 & H3 & H4).
      apply (output_data_spec _ _ _ _ U1) in H3.
      destruct H3 as (T3 & F3 & V3). rewrite D1 in V3.
      rewrite (T1 "data" eq_refl) in V3.
      destruct (py_eq ot (JStr "execute_result")) eqn:P3.
      * apply int_or_null_spec in H4. destruct H4 as (T4 & F4 & _).
        assert (O2 : get "output_type" o2 = ot)
          by (subst ot; back; reflexivity).
        rewrite O2, P1, P2, P3. split; [|split; [reflexivity|]].
        -- unfold data_ok in *. back. rewrite M1, F3, F4. reflexivity.
        -- intros _. back. exact V3.
      * apply ret_Ok in H4. destruct H4 as [-> ->].
        assert (O2 : get "output_type" o3 = ot)
          by (subst ot; back; reflexivity).
        rewrite O2, P1, P2, P3. split; [|split; [reflexivity|]].
        -- back. rewrite M1, F3. reflexivity.
        -- intros _. exact V3.
    + destruct (py_eq ot (JStr "error")) eqn:P3.
      * apply bind_Ok in H2. destruct H2 as (o3 & s3 & H3 & H2).
        apply bind_Ok in H2. destruct H2 as (o4 & s4 & H4 & H5).
        apply output_traceback_spec in H3. destruct H3 as (T3 & _ & F3).
        apply coerce_field_spec in H4. destruct H4 as (T4 & _ & F4).
        apply coerce_field_spec in H5. destruct H5 as (T5 & _ & F5).
        assert (O2 : get "output_type" o2 = ot)
          by (subst ot; back; reflexivity).
        rewrite O2, P1, P2, P3. split; [|split; [reflexivity|]].
        -- unfold traceback_ok, field_ok in *. back.
           rewrite M1, F3, F4, F5. reflexivity.
        -- intros X. discriminate X.
      * apply ret_Ok in H2. destruct H2 as [-> ->].
        rewrite O1. fold ot. rewrite P1, P2, P3, M1.
        split; [reflexivity|]. split; [reflexivity|].
        intros X. discriminate X.
Qed.

Lemma for_each_Forall2 {A} (f : A -> M A) (l l' : list A) (s s' : state) :
  for_each f l s = Ok (l', s') ->
  Forall2 (fun x x' => exists s1 s2, f x s1 = Ok (x', s2)) l l'.
Proof.
  revert l' s s'. induction l as [|x l IH]; intros l' s s' H; simpl in H.
  - apply ret_Ok in H. destruct H as [-> _]. constructor.
  - apply bind_Ok in H. destruct H as (x1 & s1 & H1 & H).
    apply bind_Ok in H. destruct H as (l1 & s2 & H2 & H).
    apply ret_Ok in H. destruct H as [-> ->].
    constructor; eauto.
Qed.

Lemma for_each_post {A} (f : A -> M A) (P Q : A -> Prop) :
  (forall x s x' s', P x -> f x s = Ok (x', s') -> Q x') ->
  forall l s l' s', (forall x, In x l -> P x) ->
    for_each f l s = Ok (l', s') -> forall x', In x' l' -> Q x'.
Proof.
  intros Hf l. induction l as [|x l IH]; intros s l' s' HP H x' Hin;
    simpl in H.
  - apply ret_Ok in H. destruct H as [-> _]. destruct Hin.
  - apply bind_Ok in H. destruct H as (x1 & s1 & H1 & H).
    apply bind_Ok in H. destruct H as (l1 & s2 & H2 & H).
    apply ret_Ok in H. destruct H as [-> ->].
    destruct Hin as [<-|Hin].
    + eapply Hf; [|exact H1]. apply HP. left. reflexivity.
    + eapply IH; [|exact H2|exact Hin]. intros y Hy. apply HP. right. exact Hy.
Qed.

Lemma hex_prefix8_nonempty (u : N) : hex_prefix8 u <> "".
Proof. unfold hex_prefix8. discriminate. Qed.

Lemma good_id_fresh (u : N) : good_id (JStr (hex_prefix8 u)) = true.
Proof. reflexivity. Qed.

Lemma cell_id_spec (c c' : dict) (s s' : state) :
  cell_id c s = Ok (c', s') ->
  touches ["id"] c c' /\
  good_id (get "id" c') = true /\
  lookup "id" c' =
    (if good_id (get "id" c) then lookup "id" c
     else Some (JStr (hex_prefix8 (uuid4 (uuid_calls s))))) /\
  (good_id (get "id" c) = false -> changed s' = true).
Proof.
  unfold cell_id. cbv zeta. unfold good_id at 2 3.
  destruct (_ || _) eqn:G; intros H.
  - apply bind_Ok in H. destruct H as (i & s1 & H1 & H).
    unfold fresh_id in H1. injection H1 as <- <-.
    apply mark_ret_Ok in H. destruct H as [-> ->].
    split; [apply touches_setitem|].
    rewrite get_setitem, lookup_setitem_same. simpl. auto.
  - apply ret_Ok in H. destruct H as [-> ->].
    split; [apply touches_refl|]. unfold good_id. rewrite G. simpl.
    repeat split. discriminate.
Qed.

Lemma cell_metadata_spec (c c' : dict) (s s' : state) :
  cell_metadata c s = Ok (c', s') ->
  touches ["metadata"] c c' /\
  lookup "metadata" c' =
    (if is_dict (get_default "metadata" (JDict []) c)
     then lookup "metadata" c else Some (JDict [])).
Proof.
  unfold cell_metadata. intros H.
  apply guarded_setitem_Ok in H. destruct H as (T & E & _).
  split; [exact T|]. rewrite E.
  destruct (is_dict _); reflexivity.
Qed.

Lemma cell_tags_spec (c c' : dict) (s s' : state) :
  cell_tags c s = Ok (c', s') ->
  exists md md',
    lookup "metadata" c = Some (JDict md) /\
    lookup "metadata" c' = Some (JDict md') /\
    touches ["metadata"] c c' /\
    touches ["tags"] md md' /\
    tags_ok md' = true /\
    lookup "tags" md' =
      match lookup "tags" md with
      | Some (JList tags) => Some (JList (coerce_tags tags))
      | other => other
      end /\
    (forall tags, get "tags" md = JList tags ->
       (coerce_tags tags = tags -> c' = c /\ s' = s) /\
       (coerce_tags tags <> tags ->
        s' = mkState true (uuid_calls s))).
Proof.
  unfold cell_tags. intros H.
  apply bind_Ok in H. destruct H as (mdj & s0 & H0 & H).
  apply getitem_Ok in H0. destruct H0 as [L ->].
  apply bind_Ok in H. destruct H as (md & s0 & H0 & H).
  apply as_dict_Ok in H0. destruct H0 as [-> ->].
  exists md.
  assert (Keep : c' = c -> s' = s ->
    lookup "metadata" c' = Some (JDict md) /\ touches ["metadata"] c c' /\
    touches ["tags"] md md).
  { intros -> ->. auto using touches_refl. }
  destruct (get "tags" md) as [| | | | |tags|] eqn:G;
    try (apply ret_Ok in H; destruct H as [-> ->];
         exists md; destruct (Keep eq_refl eq_refl) as (K1 & K2 & K3);
         repeat split; try assumption;
         solve [ unfold tags_ok; rewrite G; reflexivity
               | unfold get, get_default in G;
                 destruct (lookup "tags" md) as [[]|]; congruence
               | intros; congruence ]).
  cbv zeta in H. apply get_is_list_lookup in G.
  assert (S : forallb is_str (coerce_tags tags) = true)
    by apply coerce_tags_strs.
  destruct (py_eq (JList (coerce_tags tags)) (JList tags)) eqn:P.
  - apply ret_Ok in H. destruct H as [-> ->]. exists md.
    destruct (Keep eq_refl eq_refl) as (K1 & K2 & K3).
    pose proof P as P'. apply py_eq_strs in P'; [|exact S].
    injection P' as P'.
    split; [exact K1|]. split; [exact K1|]. split; [exact K2|].
    split; [exact K3|]. split; [|split].
    + unfold tags_ok, get, get_default. rewrite G. exact P.
    + rewrite G. congruence.
    + intros tags' E. injection E as <-. split; [auto | congruence].
  - apply mark_ret_Ok in H. destruct H as [-> ->].
    exists (setitem "tags" (JList (coerce_tags tags)) md).
    split; [exact L|]. split; [apply lookup_setitem_same|].
    split; [apply touches_setitem|]. split; [apply touches_setitem|].
    split; [|split].
    + unfold tags_ok. rewrite get_setitem. simpl String.eqb. cbv iota.
      rewrite coerce_tags_idem. apply py_eq_strs_refl, S.
    + rewrite lookup_setitem_same, G. reflexivity.
    + intros tags' E. injection E as <-. split; [|reflexivity].
      intros E. exfalso. rewrite E in P.
      rewrite py_eq_strs_refl in P; [discriminate|].
      rewrite <- E. exact S.
Qed.

Lemma cell_execution_spec (c c' : dict) (s s' : state) :
  cell_execution c s = Ok (c', s') ->
  exists md md',
    lookup "metadata" c = Some (JDict md) /\
    lookup "metadata" c' = Some (JDict md') /\
    touches ["metadata"] c c' /\
    touches ["execution"] md md' /\
    ((forall e, lookup "execution" md = Some (JDict e) -> NoDup (keys e)) ->
     execution_ok md' = true).
Proof.
  intros H. unfold cell_execution in H.
  apply bind_Ok in H. destruct H as (mdj & s0 & H0 & H).
  apply getitem_Ok in H0. destruct H0 as [L ->].
  apply bind_Ok in H. destruct H as (md & s0 & H0 & H).
  apply as_dict_Ok in H0. destruct H0 as [-> ->].
  exists md.
  destruct (get "execution" md) as [| | | | | |e] eqn:G;
    try (apply ret_Ok in H; destruct H as [-> ->]; exists md;
         unfold execution_ok; rewrite G;
         auto 6 using touches_refl).
  apply get_is_dict_lookup in G.
  apply bind_Ok in H. destruct H as (e' & s1 & H1 & H).
  apply ret_Ok in H. destruct H as [-> ->].
  eexists. split; [exact L|]. split; [apply lookup_setitem_same|].
  split; [apply touches_setitem|]. split; [apply touches_setitem|].
  intros U.
  rewrite (for_items_entries (fun _ v => negb (is_str v))
             coerce_value coerce_value_eq) in H1 by (apply U, G).
  injection H1 as <- _.
  unfold execution_ok. rewrite get_setitem. simpl String.eqb. cbv iota.
  rewrite <- (coerce_entries_clean (fun _ v => negb (is_str v)) e)
    by reflexivity.
  apply forallb_pointwise. intros [k v]. simpl.
  symmetry. apply negb_involutive.
Qed.

Lemma cell_attachments_spec (c c' : dict) (s s' : state) :
  cell_attachments c s = Ok (c', s') ->
  touches ["attachments"] c c' /\ attachments_ok c' = true.
Proof.
  unfold cell_attachments. intros H.
  apply guarded_setitem_Ok in H. destruct H as (T & E & _).
  split; [exact T|]. unfold attachments_ok. back. rewrite E.
  destruct (py_in _ _); [|reflexivity]. simpl.
  destruct (lookup "attachments" c) as [a|]; [|reflexivity].
  destruct (is_dict a) eqn:D; simpl; [rewrite D|]; reflexivity.
Qed.

(** Strip mode, lines 93-96: [outputs] is assigned whatever it held. *)
Lemma cell_strip_spec (c c' : dict) (s s' : state) :
  cell_strip c s = Ok (c', s') ->
  touches ["outputs"; "execution_count"] c c' /\
  lookup "outputs" c' = Some (JList []) /\
  get "execution_count" c' = JNull /\
  lookup "execution_count" c' =
    (if is_none (get "execution_count" c) then lookup "execution_count" c
     else Some JNull) /\
  (changed s = true -> changed s' = true) /\
  (truthy (get "outputs" c) = true \/
   is_none (get "execution_count" c) = false -> changed s' = true) /\
  (truthy (get "outputs" c) = false ->
   is_none (get "execution_count" c) = true -> s' = s).
Proof.
  unfold cell_strip. intros H.
  apply bind_Ok in H. destruct H as ([] & s1 & H1 & H). cbv zeta in H.
  apply guarded_setitem_Ok in H. destruct H as (T & E & S).
  rewrite get_setitem in E, S. simpl String.eqb in E, S. cbv iota in E, S.
  rewrite lookup_setitem in E. simpl String.eqb in E. cbv iota in E.
  assert (O : lookup "outputs" c' = Some (JList [])).
  { rewrite (T "outputs" eq_refl). apply lookup_setitem_same. }
  split.
  { intros k Hk. simpl in Hk. rewrite orb_false_r in Hk.
    apply orb_false_iff in Hk. destruct Hk as [K1 K2].
    destruct (k =? "execution_count") eqn:K; [discriminate|].
    rewrite (T k) by (simpl; rewrite K; reflexivity).
    rewrite lookup_setitem, K1. reflexivity. }
  split; [exact O|].
  assert (X : lookup "execution_count" c' =
              (if is_none (get "execution_count" c)
               then lookup "execution_count" c else Some JNull)).
  { rewrite E. destruct (is_none _); reflexivity. }
  split.
  { unfold get, get_default in *. rewrite X.
    destruct (lookup "execution_count" c) as [[]|]; reflexivity. }
  split; [exact X|].
  destruct (truthy (get "outputs" c)) eqn:Tr.
  - unfold mark_changed, set_changed in H1. injection H1 as <-.
    subst s'. destruct (is_none _); simpl;
      (split; [auto|]; split; [auto | intros; discriminate]).
  - apply ret_Ok in H1. destruct H1 as [_ ->]. subst s'.
    destruct (is_none (get "execution_count" c)); simpl;
      (split; [auto|]; split;
       [intros [?|?]; auto; discriminate | intros; auto; discriminate]).
Qed.

Lemma keeps_flag_of_quiet {A} (f : A -> M A) : quiet f -> keeps_flag f.
Proof. intros Q x s y s' H. apply Q in H. tauto. Qed.

Lemma keeps_flag_for_each {A} (f : A -> M A) :
  keeps_flag f -> keeps_flag (for_each f).
Proof.
  intros Hf l. induction l as [|x l IH]; intros s l' s' H C; simpl in H.
  - apply ret_Ok in H. destruct H as [_ ->]. exact C.
  - apply bind_Ok in H. destruct H as (x1 & s1 & H1 & H).
    apply bind_Ok in H. destruct H as (l1 & s2 & H2 & H).
    apply ret_Ok in H. destruct H as [-> ->].
    eapply IH; [exact H2|]. eapply Hf; eauto.
Qed.

(** Normalize mode, lines 98-146. *)
Lemma cell_normalize_spec (c c' : dict) (s s' : state) :
  cell_normalize c s = Ok (c', s') ->
  touches ["outputs"; "execution_count"] c c' /\
  int_or_null_ok c' = true /\
  (truthy (get "outputs" c) = false ->
   lookup "outputs" c' = lookup "outputs" c) /\
  (truthy (get "outputs" c) = true -> is_list (get "outputs" c) = false ->
   lookup "outputs" c' = Some (JList []) /\ changed s' = true) /\
  (forall outs, truthy (get "outputs" c) = true ->
     get "outputs" c = JList outs ->
     exists outs', lookup "outputs" c' = Some (JList outs') /\
       Forall2 (fun o o' => exists s1 s2,
                  normalize_output o s1 = Ok (o', s2)) outs outs') /\
  ((forall outs o, lookup "outputs" c = Some (JList outs) -> In o outs ->
                   unique_keys o = true) ->
   outputs_ok c' = true).
Proof.
  intros H. unfold cell_normalize in H. cbv zeta in H.
  apply bind_Ok in H. destruct H as (c1 & s1 & H1 & H2).
  pose proof (keeps_flag_of_quiet _ quiet_int_or_null _ _ _ _ H2) as K2.
  apply int_or_null_spec in H2. destruct H2 as (T2 & F2 & _).
  assert (Step : touches ["outputs"] c c1 /\
    (truthy (get "outputs" c) = false ->
       lookup "outputs" c1 = lookup "outputs" c) /\
    (truthy (get "outputs" c) = true -> is_list (get "outputs" c) = false ->
       lookup "outputs" c1 = Some (JList []) /\ changed s1 = true) /\
    (forall outs, truthy (get "outputs" c) = true ->
       get "outputs" c = JList outs ->
       exists outs', lookup "outputs" c1 = Some (JList outs') /\
         Forall2 (fun o o' => exists s1 s2,
                    normalize_output o s1 = Ok (o', s2)) outs outs') /\
    ((forall outs o, lookup "outputs" c = Some (JList outs) -> In o outs ->
                     unique_keys o = true) ->
     outputs_ok c1 = true)).
  { unfold py_or in H1. unfold outputs_ok, py_or.
    destruct (truthy (get "outputs" c)) eqn:Tr.
    - destruct (get "outputs" c) as [| | | | |outs|] eqn:G;
        try (apply mark_ret_Ok in H1; destruct H1 as [-> ->];
             split; [apply touches_setitem|];
             rewrite get_setitem, lookup_setitem_same; simpl;
             repeat split; auto; discriminate).
      apply bind_Ok in H1. destruct H1 as (outs' & s0 & H0 & H1).
      apply ret_Ok in H1. destruct H1 as [-> ->].
      split; [apply touches_setitem|].
      rewrite get_setitem, lookup_setitem_same. simpl String.eqb. cbv iota.
      split; [discriminate|]. split; [discriminate|]. split.
      + intros outs0 _ [= <-]. exists outs'. split; [reflexivity|].
        eapply for_each_Forall2, H0.
      + intros U.
        assert (A : forall o', In o' outs' -> output_ok o' = true).
        { eapply (for_each_post normalize_output
                    (fun o => unique_keys o = true)
                    (fun o' => output_ok o' = true)); [| |exact H0].
          - intros x sx x' sx' Ux Hx.
            destruct (normalize_output_spec _ _ _ _ Ux Hx)
              as (o & o' & _ & _ & Ok' & _). exact Ok'.
          - intros o Ho. eapply U; [|exact Ho].
            apply get_is_list_lookup, G. }
        destruct (truthy (JList outs')); [|reflexivity].
        apply forallb_forall. exact A.
    - simpl in H1. apply ret_Ok in H1. destruct H1 as [-> ->].
      split; [apply touches_refl|]. rewrite Tr.
      repeat split; auto; discriminate. }
  destruct Step as (T1 & V0 & V1 & V2 & F1).
  split; [touch|].
  split; [exact F2|].
  split; [intros X; back; auto|].
  split; [intros X Y; back; destruct (V1 X Y); auto|].
  split; [intros outs X Y; back; auto|].
  intros U. unfold outputs_ok in *. back. auto.
Qed.

Lemma cell_outputs_spec (strip_outputs : bool) (c c' : dict) (s s' : state) :
  cell_outputs strip_outputs c s = Ok (c', s') ->
  touches ["outputs"; "execution_count"] c c' /\
  (changed s = true -> changed s' = true) /\
  (py_eq (get "cell_type" c) (JStr "code") = false -> c' = c /\ s' = s) /\
  (py_eq (get "cell_type" c) (JStr "code") = true ->
   if strip_outputs then cell_strip c s = Ok (c', s')
   else cell_normalize c s = Ok (c', s')).
Proof.
  unfold cell_outputs. intros H.
  destruct (py_eq _ _).
  - destruct strip_outputs.
    + pose proof (cell_strip_spec _ _ _ _ H) as (T & _ & _ & _ & K & _).
      repeat split; auto; discriminate.
    + pose proof (cell_normalize_spec _ _ _ _ H) as (T & _).
      pose proof (keeps_flag_of_quiet _ quiet_cell_normalize _ _ _ _ H) as K.
      repeat split; auto; discriminate.
  - apply ret_Ok in H. destruct H as [-> ->].
    repeat split; auto using touches_refl; discriminate.
Qed.

(** The loop body on one cell, rule by rule, in terms of the cell as it
    entered the loop. *)
Lemma sanitize_cell_spec (strip_outputs : bool) (cell cell' : json)
    (s s' : state) :
  sanitize_cell strip_outputs cell s = Ok (cell', s') ->
  exists c c' mdj md',
    cell = JDict c /\ cell' = JDict c' /\
    touches ["id"; "source"; "metadata"; "attachments"; "outputs";
             "execution_count"] c c' /\
    (changed s = true -> changed s' = true) /\
    good_id (get "id" c') = true /\
    lookup "id" c' =
      (if good_id (get "id" c) then lookup "id" c
       else Some (JStr (hex_prefix8 (uuid4 (uuid_calls s))))) /\
    lookup "source" c' = option_map coerce_str (lookup "source" c) /\
    lookup "metadata" c = Some mdj /\
    lookup "metadata" c' = Some (JDict md') /\
    touches ["tags"; "execution"] (entries_of mdj) md' /\
    tags_ok md' = true /\
    lookup "tags" md' =
      match lookup "tags" (entries_of mdj) with
      | Some (JList tags) => Some (JList (coerce_tags tags))
      | other => other
      end /\
    (forall tags, get "tags" (entries_of mdj) = JList tags ->
       coerce_tags tags <> tags -> changed s' = true) /\
    ((forall e, lookup "execution" (entries_of mdj) = Some (JDict e) ->
                NoDup (keys e)) ->
     execution_ok md' = true) /\
    attachments_ok c' = true /\
    exists c6 s6,
      touches ["id"; "source"; "metadata"; "attachments"] c c6 /\
      cell_outputs strip_outputs c6 s6 = Ok (c', s').
Proof.
  intros H. unfold sanitize_cell in H.
  apply bind_Ok in H. destruct H as (c & s0 & H0 & H).
  apply as_dict_Ok in H0. destruct H0 as [-> ->].
  apply bind_Ok in H. destruct H as (c1 & s1 & H1 & H).
  apply bind_Ok in H. destruct H as (c2 & s2 & H2 & H).
  apply bind_Ok in H. destruct H as (c3 & s3 & H3 & H).
  apply bind_Ok in H. destruct H as (c4 & s4 & H4 & H).
  apply bind_Ok in H. destruct H as (c5 & s5 & H5 & H).
  apply bind_Ok in H. destruct H as (c6 & s6 & H6 & H).
  apply bind_Ok in H. destruct H as (c7 & s7 & H7 & H).
  apply ret_Ok in H. destruct H as [-> ->].
  pose proof (keeps_flag_of_quiet _ quiet_cell_id _ _ _ _ H1) as K1.
  pose proof (keeps_flag_of_quiet _ (quiet_coerce_field "source")
                _ _ _ _ H2) as K2.
  pose proof (keeps_flag_of_quiet _ quiet_cell_metadata _ _ _ _ H3) as K3.
  pose proof (keeps_flag_of_quiet _ quiet_cell_tags _ _ _ _ H4) as K4.
  pose proof (keeps_flag_of_quiet _ quiet_cell_execution _ _ _ _ H5) as K5.
  pose proof (keeps_flag_of_quiet _ quiet_cell_attachments _ _ _ _ H6) as K6.
  pose proof (cell_outputs_spec _ _ _ _ _ H7) as (T7 & K7 & _).
  apply cell_id_spec in H1. destruct H1 as (T1 & G1 & V1 & _).
  apply coerce_field_spec in H2. destruct H2 as (T2 & V2 & _).
  apply cell_metadata_spec in H3. destruct H3 as (T3 & V3).
  apply cell_tags_spec in H4.
  destruct H4 as (md4 & md4' & L4 & L4' & T4 & TT4 & F4 & V4 & C4).
  apply cell_execution_spec in H5.
  destruct H5 as (md5 & md5' & L5 & L5' & T5 & TT5 & F5).
  apply cell_attachments_spec in H6. destruct H6 as (T6 & F6).
  rewrite L4' in L5. injection L5 as <-.
  (* the metadata the cell came with *)
  assert (L0 : exists mdj, lookup "metadata" c = Some mdj /\
                           md4 = entries_of mdj).
  { rewrite L4 in V3. unfold get_default in V3.
    rewrite (T2 "metadata" eq_refl), (T1 "metadata" eq_refl) in V3.
    destruct (lookup "metadata" c) as [mdj|]; [|discriminate V3].
    exists mdj. split; [reflexivity|].
    destruct mdj; simpl in V3 |- *; congruence. }
  destruct L0 as (mdj & L0 & ->).
  exists c, c7, mdj, md5'.
  split; [reflexivity|]. split; [reflexivity|].
  split; [touch|].
  split; [auto 10|].
  split; [back; exact G1|].
  split; [back; rewrite V1; reflexivity|].
  split; [back; rewrite V2; back; reflexivity|].
  split; [exact L0|].
  split; [back; exact L5'|].
  split; [touch|].
  split; [unfold tags_ok in *; back; exact F4|].
  split; [back; exact V4|].
  split.
  { intros tags E N. destruct (C4 tags E) as [_ C]. specialize (C N).
    subst s4. auto 10. }
  split.
  { intros U. apply F5. intros e E. rewrite (TT4 "execution" eq_refl) in E.
    apply U, E. }
  split; [unfold attachments_ok in *; back; back_in F6; exact F6|].
  exists c6, s6. split; [touch | exact H7].
Qed.

Lemma is_str_coerce_str (v : json) : is_str (coerce_str v) = true.
Proof. unfold coerce_str. destruct (is_str v) eqn:E; auto. Qed.

Lemma cell_outputs_clean (strip_outputs : bool) (c c' : dict) (s s' : state) :
  (forall outs o, lookup "outputs" c = Some (JList outs) -> In o outs ->
                  unique_keys o = true) ->
  cell_outputs strip_outputs c s = Ok (c', s') ->
  code_ok strip_outputs c' = true.
Proof.
  intros U H.
  destruct (cell_outputs_spec _ _ _ _ _ H) as (T & _ & N & Y).
  unfold code_ok. back.
  destruct (py_eq (get "cell_type" c) (JStr "code")); [|reflexivity].
  specialize (Y eq_refl). destruct strip_outputs.
  - apply cell_strip_spec in Y. destruct Y as (_ & O & E & _).
    unfold stripped. rewrite O, E. reflexivity.
  - apply cell_normalize_spec in Y. destruct Y as (_ & I & _ & _ & _ & O).
    rewrite (O U), I. reflexivity.
Qed.

(** Whatever the cell was, the loop body leaves a clean cell. *)
Lemma sanitize_cell_clean (strip_outputs : bool) (cell cell' : json)
    (s s' : state) :
  unique_keys cell = true ->
  sanitize_cell strip_outputs cell s = Ok (cell', s') ->
  cell_ok strip_outputs cell' = true.
Proof.
  intros U H. apply sanitize_cell_spec in H.
  destruct H as (c & c' & mdj & md' & -> & -> & T & _ & G & _ & So & L & L'
                 & _ & Tg & _ & _ & Ex & At & c6 & s6 & T6 & H7).
  unfold cell_ok. rewrite G, At. unfold field_ok, metadata_ok.
  rewrite So, L', Tg.
  assert (X : execution_ok md' = true).
  { apply Ex. intros e E. destruct mdj; try discriminate E. simpl in E.
    pose proof (unique_keys_lookup _ _ _ U L) as U1.
    pose proof (unique_keys_lookup _ _ _ U1 E) as U2.
    apply unique_keys_dict in U2. apply distinct_NoDup, U2. }
  rewrite X.
  rewrite (cell_outputs_clean _ _ _ _ _ ltac:(
    intros outs o Lo Io; rewrite (T6 "outputs" eq_refl) in Lo;
    pose proof (unique_keys_lookup _ _ _ U Lo) as U1;
    apply (proj1 (unique_keys_list outs) U1 o Io)) H7).
  destruct (lookup "source" c); simpl; [rewrite is_str_coerce_str|];
    reflexivity.
Qed.

(** ** The top-level rules *)

Lemma top_language_info_spec (md md' : dict) (s s' : state) :
  top_language_info md s = Ok (md', s') ->
  touches ["language_info"] md md' /\ language_info_ok md' = true.
Proof.
  unfold top_language_info, language_info_ok. intros H.
  destruct (get "language_info" md) as [| | | | | |li] eqn:G;
    try (apply mark_ret_Ok in H; destruct H as [-> ->];
         split; [apply touches_setitem|];
         rewrite get_setitem; reflexivity).
  apply guarded_Ok in H. destruct H as [(C & -> & ->)|(C & -> & ->)].
  - split; [apply touches_setitem|].
    rewrite get_setitem. simpl String.eqb. cbv iota.
    rewrite lookup_setitem_same. reflexivity.
  - split; [apply touches_refl|]. rewrite G.
    destruct (lookup "name" li); [|discriminate C].
    apply negb_false_iff in C. exact C.
Qed.

Lemma top_kernelspec_spec (md md' : dict) (s s' : state) :
  top_kernelspec md s = Ok (md', s') ->
  touches ["kernelspec"] md md' /\ kernelspec_ok md' = true.
Proof.
  unfold top_kernelspec, kernelspec_ok. intros H.
  destruct (get "kernelspec" md) as [| | | | | |ks] eqn:G;
    try (apply mark_ret_Ok in H; destruct H as [-> ->];
         split; [apply touches_setitem|];
         rewrite get_setitem; reflexivity).
  apply bind_Ok in H. destruct H as (ks1 & s1 & H1 & H).
  apply bind_Ok in H. destruct H as (ks2 & s2 & H2 & H).
  apply ret_Ok in H. destruct H as [-> ->].
  apply guarded_setitem_Ok in H1. destruct H1 as (T1 & E1 & _).
  apply guarded_setitem_Ok in H2. destruct H2 as (T2 & E2 & _).
  split; [apply touches_setitem|].
  rewrite get_setitem. simpl String.eqb. cbv iota.
  assert (N1 : is_none (get "name" ks1) = false).
  { unfold get, get_default in *. rewrite E1.
    destruct (lookup "name" ks) as [[]|]; reflexivity. }
  assert (N2 : is_none (get "display_name" ks2) = false).
  { unfold get, get_default in *. rewrite E2.
    destruct (lookup "display_name" ks1) as [[]|]; reflexivity. }
  back. rewrite N1, N2. reflexivity.
Qed.

Lemma top_metadata_spec (raw raw' : dict) (s s' : state) :
  top_metadata raw s = Ok (raw', s') ->
  touches ["metadata"] raw raw' /\
  exists md',
    lookup "metadata" raw' = Some (JDict md') /\
    touches ["language_info"; "kernelspec"]
      (entries_of (get "metadata" raw)) md' /\
    language_info_ok md' = true /\ kernelspec_ok md' = true.
Proof.
  unfold top_metadata. intros H.
  apply bind_Ok in H. destruct H as (raw1 & s1 & H1 & H).
  apply bind_Ok in H. destruct H as (md & s2 & H2 & H).
  apply bind_Ok in H. destruct H as (md1 & s3 & H3 & H).
  apply bind_Ok in H. destruct H as (md2 & s4 & H4 & H).
  apply ret_Ok in H. destruct H as [-> ->].
  apply guarded_setitem_Ok in H1. destruct H1 as (T1 & E1 & _).
  apply as_dict_Ok in H2. destruct H2 as [G2 ->].
  apply top_language_info_spec in H3. destruct H3 as (T3 & F3).
  apply top_kernelspec_spec in H4. destruct H4 as (T4 & F4).
  assert (Emd : md = entries_of (get "metadata" raw)).
  { unfold get, get_default in *. rewrite E1 in G2.
    destruct (lookup "metadata" raw) as [[]|]; simpl in *; congruence. }
  subst md. split.
  - intros k Hk. rewrite lookup_setitem.
    simpl in Hk. rewrite orb_false_r in Hk. rewrite Hk.
    apply T1. simpl. rewrite Hk. reflexivity.
  - exists md2. split; [apply lookup_setitem_same|].
    split; [touch|]. split; [|exact F4].
    unfold language_info_ok in *. back. exact F3.
Qed.

Lemma for_each_run {A} (f : A -> M A) (l l' : list A) (s s' : state) :
  keeps_flag f ->
  for_each f l s = Ok (l', s') ->
  Forall2 (fun x x' => exists s1 s2,
             f x s1 = Ok (x', s2) /\
             (changed s2 = true -> changed s' = true)) l l'.
Proof.
  intros K. revert l' s s'.
  induction l as [|x l IH]; intros l' s s' H; simpl in H.
  - apply ret_Ok in H. destruct H as [-> _]. constructor.
  - apply bind_Ok in H. destruct H as (x1 & s1 & H1 & H).
    apply bind_Ok in H. destruct H as (l1 & s2 & H2 & H).
    apply ret_Ok in H. destruct H as [-> ->].
    constructor; [|eauto].
    exists s, s1. split; [exact H1|].
    apply (keeps_flag_for_each f K _ _ _ _ H2).
Qed.

Lemma keeps_flag_sanitize_cell (strip_outputs : bool) :
  keeps_flag (sanitize_cell strip_outputs).
Proof.
  intros c s c' s' H. apply sanitize_cell_spec in H.
  destruct H as (? & ? & ? & ? & _ & _ & _ & K & _). exact K.
Qed.

Lemma top_cells_spec (strip_outputs : bool) (raw raw' : dict) (s s' : state) :
  top_cells strip_outputs raw s = Ok (raw', s') ->
  touches ["cells"] raw raw' /\
  (changed s = true -> changed s' = true) /\
  exists cells',
    lookup "cells" raw' = Some (JList cells') /\
    Forall2 (cell_run strip_outputs s') (cells_of raw) cells'.
Proof.
  unfold top_cells, cells_of. intros H.
  apply bind_Ok in H. destruct H as (raw1 & s1 & H1 & H).
  apply guarded_Ok in H1. destruct H1 as [(C & -> & ->)|(C & -> & ->)].
  - rewrite get_setitem in H. simpl in H.
    apply ret_Ok in H. destruct H as [-> ->].
    split.
    { intros k Hk. rewrite lookup_setitem. simpl in Hk.
      rewrite orb_false_r in Hk. rewrite Hk.
      rewrite lookup_setitem, Hk. reflexivity. }
    split; [reflexivity|].
    exists []. rewrite lookup_setitem_same. split; [reflexivity|].
    destruct (get "cells" raw); try discriminate C; constructor.
  - destruct (get "cells" raw) as [| | | | |cells|] eqn:G;
      try discriminate C.
    apply bind_Ok in H. destruct H as (cells' & s2 & H2 & H).
    apply ret_Ok in H. destruct H as [-> ->].
    split; [apply touches_setitem|].
    split.
    { apply (keeps_flag_for_each _
               (keeps_flag_sanitize_cell strip_outputs) _ _ _ _ H2). }
    exists cells'. split; [apply lookup_setitem_same|].
    apply (for_each_run _ _ _ _ _
             (keeps_flag_sanitize_cell strip_outputs) H2).
Qed.

(** ** The whole pass *)

(** The pass in terms of the document it was given. *)
Lemma sanitize_spec (strip_outputs : bool) (doc doc' : json) (ch : bool)
    (s s' : state) :
  sanitize_notebook strip_outputs doc s = Ok ((doc', ch), s') ->
  exists raw raw' md' cells',
    doc = JDict raw /\ doc' = JDict raw' /\ ch = changed s' /\
    touches ["nbformat"; "nbformat_minor"; "metadata"; "cells"] raw raw' /\
    py_eq (get "nbformat" raw') (JInt 4) = true /\
    is_int (get "nbformat_minor" raw') = true /\
    lookup "metadata" raw' = Some (JDict md') /\
    touches ["language_info"; "kernelspec"]
      (entries_of (get "metadata" raw)) md' /\
    language_info_ok md' = true /\ kernelspec_ok md' = true /\
    lookup "cells" raw' = Some (JList cells') /\
    Forall2 (cell_run strip_outputs s') (cells_of raw) cells'.
Proof.
  intros H. unfold sanitize_notebook in H.
  apply bind_Ok in H. destruct H as ([] & s0 & H0 & H).
  apply bind_Ok in H. destruct H as (raw & s0' & Hd & H).
  apply as_dict_Ok in Hd. destruct Hd as [-> ->].
  apply bind_Ok in H. destruct H as (raw1 & s1 & H1 & H).
  apply bind_Ok in H. destruct H as (raw2 & s2 & H2 & H).
  apply bind_Ok in H. destruct H as (raw3 & s3 & H3 & H).
  apply bind_Ok in H. destruct H as (raw4 & s4 & H4 & H).
  apply bind_Ok in H. destruct H as (ch' & s5 & H5 & H).
  unfold get_changed in H5. injection H5 as <- <-.
  apply ret_Ok in H. destruct H as [E ->]. injection E as -> ->.
  unfold top_nbformat in H1. apply guarded_setitem_Ok in H1.
  destruct H1 as (T1 & E1 & _).
  unfold top_nbformat_minor in H2. apply guarded_setitem_Ok in H2.
  destruct H2 as (T2 & E2 & _).
  apply top_metadata_spec in H3.
  destruct H3 as (T3 & md' & L3 & TT3 & F3 & F3').
  apply top_cells_spec in H4. destruct H4 as (T4 & _ & cells' & L4 & R4).
  exists raw, raw4, md', cells'.
  split; [reflexivity|]. split; [reflexivity|]. split; [reflexivity|].
  split; [touch|].
  split.
  { back. unfold get, get_default in *. rewrite E1.
    destruct (py_eq _ _) eqn:P; [exact P | reflexivity]. }
  split.
  { back. unfold get, get_default in *. rewrite E2.
    destruct (is_int _) eqn:P; [exact P | reflexivity]. }
  split; [back; exact L3|].
  split.
  { back_in TT3. exact TT3. }
  split; [exact F3|]. split; [exact F3'|]. split; [exact L4|].
  unfold cells_of in *. back_in R4. exact R4.
Qed.

(** Every successful pass ends in a normalised document. *)
Lemma sanitize_normalized (strip_outputs : bool) (doc doc' : json) (ch : bool)
    (s s' : state) :
  unique_keys doc = true ->
  sanitize_notebook strip_outputs doc s = Ok ((doc', ch), s') ->
  normalized strip_outputs doc' = true.
Proof.
  intros U H. apply sanitize_spec in H.
  destruct H as (raw & raw' & md' & cells' & -> & -> & _ & _ & N & Mi & Lm
                 & _ & Li & Ks & Lc & R).
  unfold normalized, top_ok, get, get_default in *.
  rewrite N, Mi, Lm, Li, Ks, Lc. simpl.
  assert (Uc : forall c, In c (cells_of raw) -> unique_keys c = true).
  { unfold cells_of, get, get_default. intros c Hc.
    destruct (lookup "cells" raw) as [[| | | | |cells|]|] eqn:L;
      try destruct Hc.
    pose proof (unique_keys_lookup _ _ _ U L) as U1.
    apply (proj1 (unique_keys_list cells) U1 c Hc). }
  clear - R Uc. induction R as [|c c' l l' Hc R IH]; [reflexivity|].
  simpl. destruct Hc as (s1 & s2 & Hc & _).
  rewrite (sanitize_cell_clean _ _ _ _ _ (Uc c (or_introl eq_refl)) Hc).
  apply IH. intros x Hx. apply Uc. right. exact Hx.
Qed.

(** ** Steady computations *)

Lemma steady_ret {A} (a : A) : steady (ret a).
Proof.
  intros s b s' H. apply ret_Ok in H. destruct H as [-> ->].
  split; [auto|]. right. split; reflexivity.
Qed.

Lemma steady_raise {A} (e : exn) : steady (@raise A e).
Proof. intros s a s' H. discriminate H. Qed.

Lemma steady_mark : steady mark_changed.
Proof.
  intros s a s' H. unfold mark_changed, set_changed in H.
  injection H as _ <-. split; [auto|]. left. reflexivity.
Qed.

Lemma steady_bind {A B} (m : M A) (k : A -> M B) :
  steady m -> (forall a, steady (k a)) -> steady (bind m k).
Proof.
  intros Hm Hk s b s2 H. apply bind_Ok in H.
  destruct H as (a & s1 & H1 & H2).
  destruct (Hm _ _ _ H1) as [M1 D1]. destruct (Hk a _ _ _ H2) as [M2 D2].
  split; [auto|].
  destruct D1 as [C1|[-> I1]]; [left; auto|].
  destruct D2 as [C2|[-> I2]]; [left; exact C2|].
  right. split; [reflexivity|]. intros t.
  rewrite (bind_step _ _ _ _ _ (I1 t)). apply I2.
Qed.

Lemma steady_as_dict (x : json) : steady (as_dict x).
Proof. destruct x; simpl; auto using steady_raise, steady_ret. Qed.

Lemma steady_getitem (k : string) (d : dict) : steady (getitem k d).
Proof.
  unfold getitem. destruct (lookup k d); auto using steady_raise, steady_ret.
Qed.

Lemma steady_fresh {A} (k : string -> A) :
  steady (i <- fresh_id ;; mark_changed ;;; ret (k i)).
Proof.
  intros s a s' H. apply bind_Ok in H. destruct H as (i & s1 & H1 & H).
  apply mark_ret_Ok in H. destruct H as [-> ->].
  split; [auto|]. left. reflexivity.
Qed.

Lemma steady_for_each {A} (f : A -> M A) (l : list A) :
  (forall x, steady (f x)) -> steady (for_each f l).
Proof.
  intros Hf. induction l as [|x l IH]; simpl.
  - apply steady_ret.
  - apply steady_bind; [apply Hf|]. intros x'.
    apply steady_bind; [exact IH|]. intros l'. apply steady_ret.
Qed.

Lemma steady_for_items (body : string -> json -> dict -> M dict)
    (snapshot : dict) :
  (forall k v d, steady (body k v d)) ->
  forall d, steady (for_items body snapshot d).
Proof.
  intros Hb. induction snapshot as [|[k v] rest IH]; intros d; simpl.
  - apply steady_ret.
  - apply steady_bind; [apply Hb | exact IH].
Qed.

Create HintDb steady.
#[local] Hint Resolve steady_ret steady_raise steady_mark steady_as_dict
  steady_getitem steady_fresh : steady.

(** Splits a computation along its binds, tests and matches. *)
Ltac steady_split :=
  repeat first
    [ solve [auto with steady]
    | apply steady_fresh
    | apply steady_bind; [|intros ?]
    | apply steady_for_each; intros ?
    | apply steady_for_items; intros ? ? ?
    | match goal with
      | |- steady (if ?g then _ else _) => destruct g
      | |- steady (match ?x with _ => _ end) => destruct x
      end
    | progress cbv zeta ].

Lemma steady_coerce_field (fld : string) (o : dict) :
  steady (coerce_field fld o).
Proof. unfold coerce_field. steady_split. Qed.

Lemma steady_int_or_null (o : dict) : steady (int_or_null o).
Proof. unfold int_or_null. steady_split. Qed.

#[local] Hint Resolve steady_coerce_field steady_int_or_null : steady.

Lemma steady_top_metadata (raw : dict) : steady (top_metadata raw).
Proof.
  unfold top_metadata, top_language_info, top_kernelspec. steady_split.
Qed.

Lemma steady_normalize_output (out : json) : steady (normalize_output out).
Proof.
  unfold normalize_output, output_data, output_traceback, coerce_data.
  steady_split.
Qed.

#[local] Hint Resolve steady_normalize_output : steady.

Lemma steady_sanitize_cell (strip_outputs : bool) (cell : json) :
  steady (sanitize_cell strip_outputs cell).
Proof.
  unfold sanitize_cell, cell_id, cell_metadata, cell_tags, cell_execution,
    cell_attachments, cell_outputs, cell_strip, cell_normalize, coerce_value.
  steady_split.
Qed.

#[local] Hint Resolve steady_sanitize_cell steady_top_metadata : steady.

Lemma steady_top_cells (strip_outputs : bool) (raw : dict) :
  steady (top_cells strip_outputs raw).
Proof. unfold top_cells. steady_split. Qed.

(** A pass that returns [changed = False] has read nothing of the state:
    from any other state it returns the same tree and the same flag. *)
Lemma sanitize_unflagged (strip_outputs : bool) (doc doc' : json)
    (s s' t : state) :
  sanitize_notebook strip_outputs doc s = Ok ((doc', false), s') ->
  sanitize_notebook strip_outputs doc t =
  Ok ((doc', false), mkState false (uuid_calls t)).
Proof.
  unfold sanitize_notebook. intros H.
  apply bind_Ok in H. destruct H as ([] & s0 & H0 & H).
  unfold set_changed in H0. injection H0 as <-.
  assert (St : forall raw, steady
    (raw <- top_nbformat raw ;;
     raw <- top_nbformat_minor raw ;;
     raw <- top_metadata raw ;;
     top_cells strip_outputs raw)).
  { intros raw. unfold top_nbformat, top_nbformat_minor. steady_split. }
  apply bind_Ok in H. destruct H as (raw & s1 & Hd & H).
  apply as_dict_Ok in Hd. destruct Hd as [-> ->].
  apply bind_Ok in H. destruct H as (raw1 & s1 & H1 & H).
  apply bind_Ok in H. destruct H as (raw2 & s2 & H2 & H).
  apply bind_Ok in H. destruct H as (raw3 & s3 & H3 & H).
  apply bind_Ok in H. destruct H as (raw4 & s4 & H4 & H).
  apply bind_Ok in H. destruct H as (ch & s5 & H5 & H).
  unfold get_changed in H5. injection H5 as <- <-.
  apply ret_Ok in H. destruct H as [E ->]. injection E as -> C.
  assert (Run : (raw <- top_nbformat raw ;;
                 raw <- top_nbformat_minor raw ;;
                 raw <- top_metadata raw ;;
                 top_cells strip_outputs raw)
                  (mkState false (uuid_calls s)) = Ok (raw4, s4)).
  { rewrite (bind_step _ _ _ _ _ H1). rewrite (bind_step _ _ _ _ _ H2).
    rewrite (bind_step _ _ _ _ _ H3). exact H4. }
  destruct (St raw _ _ _ Run) as [_ [X|[_ I]]]; [congruence|].
  specialize (I (mkState false (uuid_calls t))).
  rewrite (bind_step _ _ t (mkState false (uuid_calls t)) tt eq_refl).
  rewrite (bind_step _ _ _ _ raw eq_refl).
  apply bind_Ok in I. destruct I as (r1 & t1 & I1 & I).
  apply bind_Ok in I. destruct I as (r2 & t2 & I2 & I).
  apply bind_Ok in I. destruct I as (r3 & t3 & I3 & I).
  rewrite (bind_step _ _ _ _ _ I1). rewrite (bind_step _ _ _ _ _ I2).
  rewrite (bind_step _ _ _ _ _ I3). rewrite (bind_step _ _ _ _ _ I).
  reflexivity.
Qed.

(** * The claims *)

(** ** The scalar coercer *)














(** ** Idempotence *)

(** C4.  The pass is idempotent in either mode: run again on the tree a
    first pass produced, from any state of the process, it returns
    [changed = False], draws no UUID and leaves that tree as it is.  So
    does a second run of the script over the file the first run left,
    which is the new tree when the first run returned [True] and the old
    file when it returned [False]: it returns [False], and the file stays
    as it is. *)
Theorem sanitize_idempotent (strip_outputs : bool) (doc doc' : json)
    (ch : bool) (s s' s2 : state) :
  unique_keys doc = true ->
  sanitize_notebook strip_outputs doc s = Ok ((doc', ch), s') ->
  sanitize_notebook strip_outputs doc' s2 =
    Ok ((doc', false), mkState false (uuid_calls s2)) /\
  exists tree,
    sanitize_notebook strip_outputs (file_after doc (doc', ch)) s2 =
      Ok ((tree, false), mkState false (uuid_calls s2)) /\
    file_after (file_after doc (doc', ch)) (tree, false) =
    file_after doc (doc', ch).
Proof.
  intros U H.
  assert (I : sanitize_notebook strip_outputs doc' s2 =
              Ok ((doc', false), mkState false (uuid_calls s2))).
  { apply sanitize_noop. eapply sanitize_normalized; eassumption. }
  split; [exact I|].
  exists doc'. destruct ch; simpl file_after.
  - split; [exact I | reflexivity].
  - split; [|reflexivity]. eapply sanitize_unflagged, H.
Qed.

(** ** The changed flag *)

(** Strip mode on one code cell, lines 93-96: unless the cell is one of
    those cleared silently, the block leaves cell and state as they are or
    sets [changed]. *)
Lemma strip_step_quiet (c c' : dict) (s s' : state) :
  cleared_silently (JDict c) = false ->
  cell_outputs true c s = Ok (c', s') ->
  (changed s = true -> changed s' = true) /\
  ((c' = c /\ s' = s) \/ changed s' = true).
Proof.
  unfold cleared_silently, cell_outputs. simpl entries_of. intros N H.
  destruct (py_eq (get "cell_type" c) (JStr "code")).
  - simpl in N. unfold cell_strip in H.
    apply bind_Ok in H. destruct H as ([] & s1 & H1 & H). cbv zeta in H.
    apply guarded_Ok in H.
    destruct (truthy (get "outputs" c)) eqn:Tr.
    + unfold mark_changed, set_changed in H1. injection H1 as <-.
      destruct H as [(_ & _ & ->)|(_ & _ & ->)]; simpl; auto.
    + apply ret_Ok in H1. destruct H1 as [_ ->].
      assert (L : lookup "outputs" c = Some (JList [])).
      { unfold get, get_default in Tr.
        destruct (lookup "outputs" c) as [v|]; [|discriminate N].
        destruct v as [| | | | |[|o l]|]; simpl in N, Tr;
          first [reflexivity | rewrite Tr in N; discriminate N
                | discriminate N | discriminate Tr]. }
      rewrite (setitem_id _ _ _ L) in H.
      destruct H as [(_ & -> & ->)|(_ & -> & ->)]; simpl; auto.
  - apply ret_Ok in H. destruct H as [-> ->]. auto.
Qed.

(** The loop body in strip mode, on a cell that is not cleared silently. *)
Lemma strip_cell_quiet (cell cell' : json) (s s' : state) :
  cleared_silently cell = false ->
  sanitize_cell true cell s = Ok (cell', s') ->
  (changed s = true -> changed s' = true) /\
  ((cell' = cell /\ s' = s) \/ changed s' = true).
Proof.
  intros N H. unfold sanitize_cell in H.
  apply bind_Ok in H. destruct H as (c & s0 & H0 & H).
  apply as_dict_Ok in H0. destruct H0 as [-> ->].
  apply bind_Ok in H. destruct H as (c1 & s1 & H1 & H).
  apply bind_Ok in H. destruct H as (c2 & s2 & H2 & H).
  apply bind_Ok in H. destruct H as (c3 & s3 & H3 & H).
  apply bind_Ok in H. destruct H as (c4 & s4 & H4 & H).
  apply bind_Ok in H. destruct H as (c5 & s5 & H5 & H).
  apply bind_Ok in H. destruct H as (c6 & s6 & H6 & H).
  apply bind_Ok in H. destruct H as (c7 & s7 & H7 & H).
  apply ret_Ok in H. destruct H as [-> ->].
  pose proof (cell_outputs_spec _ _ _ _ _ H7) as (_ & K7 & _).
  apply quiet_cell_id in H1. apply quiet_coerce_field in H2.
  apply quiet_cell_metadata in H3. apply quiet_cell_tags in H4.
  apply quiet_cell_execution in H5. apply quiet_cell_attachments in H6.
  destruct H1 as [M1 D1], H2 as [M2 D2], H3 as [M3 D3], H4 as [M4 D4],
    H5 as [M5 D5], H6 as [M6 D6].
  destruct D1 as [[-> ->]|C1]; [|split; [auto 12 | right; auto 12]].
  destruct D2 as [[-> ->]|C2]; [|split; [auto 12 | right; auto 12]].
  destruct D3 as [[-> ->]|C3]; [|split; [auto 12 | right; auto 12]].
  destruct D4 as [[-> ->]|C4]; [|split; [auto 12 | right; auto 12]].
  destruct D5 as [[-> ->]|C5]; [|split; [auto 12 | right; auto 12]].
  destruct D6 as [[-> ->]|C6]; [|split; [auto 12 | right; auto 12]].
  destruct (strip_step_quiet _ _ _ _ N H7) as [M7 [[-> ->]|C7]];
    split; auto.
Qed.

Lemma strip_cells_quiet (l l' : list json) (s s' : state) :
  (forall c, In c l -> cleared_silently c = false) ->
  for_each (sanitize_cell true) l s = Ok (l', s') ->
  (changed s = true -> changed s' = true) /\
  ((l' = l /\ s' = s) \/ changed s' = true).
Proof.
  revert l' s s'. induction l as [|x l IH]; intros l' s s' N H; simpl in H.
  - apply ret_Ok in H. destruct H; subst; auto.
  - apply bind_Ok in H. destruct H as (x1 & s1 & H1 & H).
    apply bind_Ok in H. destruct H as (l1 & s2 & H2 & H).
    apply ret_Ok in H. destruct H as [-> ->].
    apply (strip_cell_quiet _ _ _ _ (N x (or_introl eq_refl))) in H1.
    apply IH in H2; [|intros c Hc; apply N; right; exact Hc].
    destruct H1 as [M1 [[-> ->]|C1]], H2 as [M2 [[-> ->]|C2]]; auto.
Qed.

(** In strip mode a pass that returns [changed = False] over a document
    none of whose cells is cleared silently has left the tree as it
    was. *)
Lemma strip_unchanged (doc doc' : json) (s s' : state) :
  (forall c, In c (cells_of (entries_of doc)) ->
     cleared_silently c = false) ->
  sanitize_notebook true doc s = Ok ((doc', false), s') -> doc' = doc.
Proof.
  intros N H. unfold sanitize_notebook in H.
  apply bind_Ok in H. destruct H as ([] & s0 & H0 & H).
  unfold set_changed in H0. injection H0 as <-.
  apply bind_Ok in H. destruct H as (raw & s0 & Hd & H).
  apply as_dict_Ok in Hd. destruct Hd as [-> ->]. simpl entries_of in N.
  apply bind_Ok in H. destruct H as (raw1 & s1 & H1 & H).
  apply bind_Ok in H. destruct H as (raw2 & s2 & H2 & H).
  apply bind_Ok in H. destruct H as (raw3 & s3 & H3 & H).
  apply bind_Ok in H. destruct H as (raw4 & s4 & H4 & H).
  apply bind_Ok in H. destruct H as (ch & s5 & H5 & H).
  unfold get_changed in H5. injection H5 as <- <-.
  apply ret_Ok in H. destruct H as [E ->]. injection E as -> F.
  pose proof (top_cells_spec _ _ _ _ _ H4) as (_ & K4 & _).
  apply quiet_top_nbformat in H1. apply quiet_top_nbformat_minor in H2.
  apply quiet_top_metadata in H3.
  destruct H1 as [M1 D1], H2 as [M2 D2], H3 as [M3 D3].
  destruct D1 as [[-> ->]|C1];
    [|exfalso; assert (changed s4 = true) by auto 10; congruence].
  destruct D2 as [[-> ->]|C2];
    [|exfalso; assert (changed s4 = true) by auto 10; congruence].
  destruct D3 as [[-> ->]|C3];
    [|exfalso; assert (changed s4 = true) by auto 10; congruence].
  unfold top_cells in H4.
  apply bind_Ok in H4. destruct H4 as (raw5 & t & G & H4).
  apply guarded_Ok in G. destruct G as [(_ & -> & ->)|(G & -> & ->)].
  - rewrite get_setitem in H4. simpl in H4. run_inv. discriminate F.
  - unfold cells_of in N.
    destruct (get "cells" raw) as [| | | | |cells|] eqn:E; try discriminate G.
    apply bind_Ok in H4. destruct H4 as (cells' & t & Hc & H4).
    apply ret_Ok in H4. destruct H4 as [-> ->].
    destruct (strip_cells_quiet _ _ _ _ N Hc) as [_ [[-> _]|C]];
      [|congruence].
    rewrite setitem_id by (apply get_is_list_lookup, E). reflexivity.
Qed.

Lemma Forall2_diag {A} (R : A -> A -> Prop) (l : list A) (x : A) :
  Forall2 R l l -> In x l -> R x x.
Proof.
  induction l as [|a l IH]; intros F I; [destruct I|].
  inversion F; subst. destruct I as [<-|I]; [assumption | apply IH; assumption].
Qed.

(** A cell that strip mode clears silently is altered. *)
Lemma strip_clears_differs (doc doc' : json) (ch : bool) (s s' : state)
    (c : json) :
  sanitize_notebook true doc s = Ok ((doc', ch), s') ->
  In c (cells_of (entries_of doc)) -> cleared_silently c = true ->
  doc' <> doc.
Proof.
  intros H I Cl E. subst doc'. apply sanitize_spec in H.
  destruct H as (raw & raw' & md' & cells' & -> & Er & _ & _ & _ & _ & _
                 & _ & _ & _ & Lc & R).
  injection Er as <-. simpl entries_of in I.
  assert (Ec : cells_of raw = cells')
    by (unfold cells_of, get, get_default; rewrite Lc; reflexivity).
  rewrite Ec in R, I.
  destruct (Forall2_diag _ _ _ R I) as (s1 & s2 & Hc & _).
  apply sanitize_cell_spec in Hc.
  destruct Hc as (d & d' & mdj & mdc & -> & Ed & _ & _ & _ & _ & _ & _
                  & _ & _ & _ & _ & _ & _ & _ & c6 & s6 & T6 & H7).
  injection Ed as <-.
  unfold cleared_silently in Cl. simpl entries_of in Cl.
  apply andb_true_iff in Cl. destruct Cl as [Code Cl].
  destruct (cell_outputs_spec _ _ _ _ _ H7) as (_ & _ & _ & Y).
  assert (Code6 : py_eq (get "cell_type" c6) (JStr "code") = true)
    by (back; exact Code).
  specialize (Y Code6). simpl in Y. apply cell_strip_spec in Y.
  destruct Y as (_ & O & _). rewrite O in Cl. discriminate Cl.
Qed.

(** C1, amended.  A pass that returns [changed = True] has altered the
    tree, in either mode; in normalize mode the converse holds as well, so
    there [changed] is true exactly when the tree was altered.  In strip
    mode the tree was altered exactly when [changed] is true or some code
    cell came with an [outputs] that is missing, or falsy and not the
    empty list: such a cell leaves with [outputs] equal to [[]] and the
    flag is not set for it.  So in strip mode too [changed] is true
    exactly when the tree was altered, for every document none of whose
    code cells is of that kind. *)
Theorem changed_flag_sound (strip_outputs : bool) (doc doc' : json)
    (ch : bool) (s s' : state) :
  unique_keys doc = true ->
  sanitize_notebook strip_outputs doc s = Ok ((doc', ch), s') ->
  (ch = true -> doc' <> doc) /\
  (strip_outputs = false -> (ch = true <-> doc' <> doc)) /\
  (strip_outputs = true ->
   (doc' <> doc <->
    ch = true \/
    exists c, In c (cells_of (entries_of doc)) /\
              py_eq (get "cell_type" (entries_of c)) (JStr "code") = true /\
              match lookup "outputs" (entries_of c) with
              | None => True
              | Some (JList []) => False
              | Some v => truthy v = false
              end) /\
   ((forall c, In c (cells_of (entries_of doc)) ->
       cleared_silently c = false) ->
    (ch = true <-> doc' <> doc))).
Proof.
  intros U H.
  assert (Fwd : ch = true -> doc' <> doc).
  { intros -> E. subst doc'.
    pose proof (sanitize_normalized _ _ _ _ _ _ U H) as N.
    rewrite (sanitize_noop _ _ s N) in H. discriminate H. }
  split; [exact Fwd|]. split.
  { intros ->. split; [exact Fwd|].
    intros N. destruct ch; [reflexivity|].
    exfalso. apply N. eapply sanitize_unchanged, H. }
  intros ->.
  assert (Cs : forall c,
            cleared_silently c = true <->
            py_eq (get "cell_type" (entries_of c)) (JStr "code") = true /\
            match lookup "outputs" (entries_of c) with
            | None => True
            | Some (JList []) => False
            | Some v => truthy v = false
            end).
  { intros c. unfold cleared_silently. rewrite andb_true_iff.
    destruct (lookup "outputs" (entries_of c)) as [[| | | | |[|o l]|]|];
      simpl; rewrite ?negb_true_iff; intuition congruence. }
  assert (Quiet : (forall c, In c (cells_of (entries_of doc)) ->
                     cleared_silently c = false) ->
                  (ch = true <-> doc' <> doc)).
  { intros N. split; [exact Fwd|].
    intros D. destruct ch; [reflexivity|].
    exfalso. apply D. eapply strip_unchanged; eassumption. }
  split; [|exact Quiet].
  split.
  - intros D.
    destruct (existsb cleared_silently (cells_of (entries_of doc))) eqn:X.
    + right. apply existsb_exists in X. destruct X as (c & I & Cl).
      exists c. split; [exact I|]. apply Cs, Cl.
    + left. apply Quiet; [|exact D].
      intros c I. destruct (cleared_silently c) eqn:Cl; [|reflexivity].
      rewrite <- X. symmetry. apply existsb_exists. eauto.
  - intros [C|(c & I & Cl)]; [apply Fwd, C|].
    eapply strip_clears_differs; [exact H | exact I | apply Cs, Cl].
Qed.

(** ** Exceptions *)

Lemma cell_id_total (c : dict) (s : state) :
  exists c1 s1, cell_id c s = Ok (c1, s1).
Proof.
  unfold cell_id. cbv zeta. destruct (_ || _); eexists; eexists; reflexivity.
Qed.

Lemma coerce_field_total (fld : string) (c : dict) (s : state) :
  exists c1 s1, coerce_field fld c s = Ok (c1, s1).
Proof.
  unfold coerce_field. destruct (lookup fld c) as [v|];
    [destruct (negb (is_str v))|]; eexists; eexists; reflexivity.
Qed.

(** A cell that comes without a [metadata] key passes the test of line 69,
    whose [get] falls back on an empty dict, and then fails the subscript
    of line 73. *)
Lemma sanitize_cell_no_metadata (strip_outputs : bool) (c : dict)
    (s : state) :
  lookup "metadata" c = None ->
  sanitize_cell strip_outputs (JDict c) s = Raise KeyError.
Proof.
  intros L. unfold sanitize_cell.
  rewrite (bind_step _ _ s s c eq_refl).
  destruct (cell_id_total c s) as (c1 & s1 & H1).
  rewrite (bind_step _ _ _ _ _ H1).
  destruct (coerce_field_total "source" c1 s1) as (c2 & s2 & H2).
  rewrite (bind_step _ _ _ _ _ H2).
  apply cell_id_spec in H1. destruct H1 as (T1 & _).
  apply coerce_field_spec in H2. destruct H2 as (T2 & _).
  assert (L2 : lookup "metadata" c2 = None) by (back; exact L).
  assert (H3 : cell_metadata c2 s2 = Ok (c2, s2)).
  { unfold cell_metadata, get_default. rewrite L2. reflexivity. }
  rewrite (bind_step _ _ _ _ _ H3).
  unfold bind, cell_tags, bind, getitem. rewrite L2. reflexivity.
Qed.

(** ** Cells, before and after *)

Lemma Forall2_in_r {A B} (R : A -> B -> Prop) (l : list A) (l' : list B)
    (y : B) :
  Forall2 R l l' -> In y l' -> exists x, In x l /\ R x y.
Proof.
  induction 1 as [|a b l l' Hab _ IH]; intros Hin; [destruct Hin|].
  destruct Hin as [<-|Hin].
  - exists a. split; [left; reflexivity | exact Hab].
  - destruct (IH Hin) as (x & Hx & Rx). exists x. split; [right|]; assumption.
Qed.

(** The cells of the document a pass returns are, one by one and in
    order, what the loop body made of the cells it was given. *)
Lemma pass_cells (strip_outputs : bool) (doc doc' : json) (ch : bool)
    (s s' : state) :
  sanitize_notebook strip_outputs doc s = Ok ((doc', ch), s') ->
  exists raw raw' cells',
    doc = JDict raw /\ doc' = JDict raw' /\
    get "cells" raw' = JList cells' /\
    Forall2 (fun c c' => exists s1 s2,
               sanitize_cell strip_outputs c s1 = Ok (c', s2) /\
               (changed s2 = true -> ch = true))
      (cells_of raw) cells'.
Proof.
  intros H. apply sanitize_spec in H.
  destruct H as (raw & raw' & md' & cells' & -> & -> & -> & _ & _ & _ & _
                 & _ & _ & _ & Lc & R).
  exists raw, raw', cells'. split; [reflexivity|]. split; [reflexivity|].
  split; [unfold get, get_default; rewrite Lc; reflexivity|].
  exact R.
Qed.

Lemma good_id_inv (v : json) :
  good_id v = true -> exists i, v = JStr i /\ i <> "".
Proof.
  destruct v; try discriminate. unfold good_id. simpl.
  intros H. exists s. split; [reflexivity|]. intros ->. discriminate H.
Qed.

(** ** When the pass completes *)

Lemma bind_total {A B} (m : M A) (k : A -> M B) (s : state) :
  (exists a s1, m s = Ok (a, s1) /\ exists b s2, k a s1 = Ok (b, s2)) ->
  exists b s2, bind m k s = Ok (b, s2).
Proof.
  intros (a & s1 & H & b & s2 & K). exists b, s2.
  rewrite (bind_step _ _ _ _ _ H). exact K.
Qed.

Lemma guarded_total {A} (g : bool) (v c : A) (s : state) :
  exists c' s', (if g then mark_changed ;;; ret v else ret c) s = Ok (c', s').
Proof. destruct g; eexists; eexists; reflexivity. Qed.

Lemma for_each_total {A} (f : A -> M A) (l : list A) :
  (forall x, In x l -> forall s, exists y s', f x s = Ok (y, s')) ->
  forall s, exists l' s', for_each f l s = Ok (l', s').
Proof.
  induction l as [|x l IH]; intros Hf s; simpl.
  - eexists; eexists; reflexivity.
  - apply bind_total.
    destruct (Hf x (or_introl eq_refl) s) as (y & s1 & H1).
    exists y, s1. split; [exact H1|].
    apply bind_total.
    destruct (IH (fun z Hz => Hf z (or_intror Hz)) s1) as (l' & s2 & H2).
    exists l', s2. split; [exact H2|].
    eexists; eexists; reflexivity.
Qed.

Lemma for_items_total (body : string -> json -> dict -> M dict) :
  (forall k v d s, exists d' s', body k v d s = Ok (d', s')) ->
  forall snapshot d s, exists d' s', for_items body snapshot d s = Ok (d', s').
Proof.
  intros Hb snapshot.
  induction snapshot as [|[k v] rest IH]; intros d s; simpl.
  - eexists; eexists; reflexivity.
  - apply bind_total. destruct (Hb k v d s) as (d1 & s1 & H1).
    exists d1, s1. split; [exact H1 | apply IH].
Qed.

Lemma int_or_null_total (o : dict) (s : state) :
  exists o' s', int_or_null o s = Ok (o', s').
Proof. apply guarded_total. Qed.

Lemma output_data_total (o : dict) (s : state) :
  exists o' s', output_data o s = Ok (o', s').
Proof.
  unfold output_data. cbv zeta.
  destruct (py_or _ _); try (eexists; eexists; reflexivity).
  apply bind_total.
  destruct (for_items_total coerce_data
              (fun k v d t => ltac:(rewrite coerce_data_eq;
                                    apply guarded_total))
              entries entries s) as (d' & s1 & H1).
  exists d', s1. split; [exact H1|]. eexists; eexists; reflexivity.
Qed.

Lemma output_traceback_total (o : dict) (s : state) :
  exists o' s', output_traceback o s = Ok (o', s').
Proof.
  unfold output_traceback. destruct (lookup "traceback" o);
    [apply guarded_total | eexists; eexists; reflexivity].
Qed.

(** The loop body on an output completes exactly on dicts. *)
Lemma normalize_output_total (o : dict) (s : state) :
  exists out' s', normalize_output (JDict o) s = Ok (out', s').
Proof.
  unfold normalize_output. rewrite (bind_step _ _ s s o eq_refl).
  apply bind_total.
  destruct (guarded_total
              (negb (is_dict (get_default "metadata" (JDict []) o)))
              (setitem "metadata" (JDict []) o) o s) as (o1 & s1 & H1).
  exists o1, s1. split; [exact H1|]. cbv zeta.
  apply bind_total.
  assert (Mid : exists o2 s2,
    (if py_eq (get "output_type" o1) (JStr "stream")
     then o0 <- coerce_field "text" o1;; coerce_field "name" o0
     else
      if py_in (get "output_type" o1)
           [JStr "display_data"; JStr "execute_result"]
      then
       o0 <- output_data o1;;
       (if py_eq (get "output_type" o1) (JStr "execute_result")
        then int_or_null o0
        else ret o0)
      else
       if py_eq (get "output_type" o1) (JStr "error")
       then
        o0 <- output_traceback o1;;
        o2 <- coerce_field "ename" o0;; coerce_field "evalue" o2
       else ret o1) s1 = Ok (o2, s2)).
  { destruct (py_eq _ (JStr "stream")).
    - apply bind_total.
      destruct (coerce_field_total "text" o1 s1) as (a & t & Ha).
      exists a, t. split; [exact Ha | apply coerce_field_total].
    - destruct (py_in _ _).
      + apply bind_total.
        destruct (output_data_total o1 s1) as (a & t & Ha).
        exists a, t. split; [exact Ha|].
        destruct (py_eq _ _);
          [apply int_or_null_total | eexists; eexists; reflexivity].
      + destruct (py_eq _ (JStr "error"));
          [|eexists; eexists; reflexivity].
        apply bind_total.
        destruct (output_traceback_total o1 s1) as (a & t & Ha).
        exists a, t. split; [exact Ha|].
        apply bind_total.
        destruct (coerce_field_total "ename" a t) as (b & u & Hb).
        exists b, u. split; [exact Hb | apply coerce_field_total]. }
  destruct Mid as (o2 & s2 & H2). exists o2, s2. split; [exact H2|].
  eexists; eexists; reflexivity.
Qed.

Lemma normalize_output_Ok_dict (out out' : json) (s s' : state) :
  normalize_output out s = Ok (out', s') -> is_dict out = true.
Proof.
  unfold normalize_output. intros H.
  apply bind_Ok in H. destruct H as (o & s0 & H0 & _).
  apply as_dict_Ok in H0. destruct H0 as [-> _]. reflexivity.
Qed.

Lemma cell_tags_total (c md : dict) (s : state) :
  lookup "metadata" c = Some (JDict md) ->
  exists c' s', cell_tags c s = Ok (c', s').
Proof.
  intros L. unfold cell_tags.
  rewrite (bind_step _ _ s s (JDict md))
    by (unfold getitem; rewrite L; reflexivity).
  rewrite (bind_step _ _ s s md eq_refl).
  destruct (get "tags" md); try (eexists; eexists; reflexivity).
  apply guarded_total.
Qed.

Lemma cell_execution_total (c md : dict) (s : state) :
  lookup "metadata" c = Some (JDict md) ->
  exists c' s', cell_execution c s = Ok (c', s').
Proof.
  intros L. unfold cell_execution.
  rewrite (bind_step _ _ s s (JDict md))
    by (unfold getitem; rewrite L; reflexivity).
  rewrite (bind_step _ _ s s md eq_refl).
  destruct (get "execution" md); try (eexists; eexists; reflexivity).
  apply bind_total.
  destruct (for_items_total coerce_value
              (fun k v d t => guarded_total _ _ _ _) entries entries s)
    as (d' & s1 & H1).
  exists d', s1. split; [exact H1|]. eexists; eexists; reflexivity.
Qed.

Lemma cell_strip_total (c : dict) (s : state) :
  exists c' s', cell_strip c s = Ok (c', s').
Proof.
  unfold cell_strip. apply bind_total.
  destruct (truthy (get "outputs" c)).
  - eexists; eexists. split; [reflexivity|]. apply guarded_total.
  - eexists; eexists. split; [reflexivity|]. apply guarded_total.
Qed.

Lemma cell_normalize_total (c : dict) (s : state) :
  forallb is_dict (outputs_of c) = true ->
  exists c' s', cell_normalize c s = Ok (c', s').
Proof.
  unfold outputs_of, cell_normalize. cbv zeta. intros D.
  apply bind_total.
  destruct (py_or (get "outputs" c) (JList [])) as [| | | | |outs|];
    try (eexists; eexists; split; [reflexivity | apply int_or_null_total]).
  destruct (for_each_total normalize_output outs
              ltac:(intros x Hx t; rewrite forallb_forall in D;
                    specialize (D x Hx); destruct x; try discriminate D;
                    apply normalize_output_total) s) as (outs' & s1 & H1).
  eexists; eexists. split; [|apply int_or_null_total].
  rewrite (bind_step _ _ _ _ _ H1). reflexivity.
Qed.

Lemma cell_normalize_Ok_shaped (c c' : dict) (s s' : state) :
  cell_normalize c s = Ok (c', s') -> forallb is_dict (outputs_of c) = true.
Proof.
  intros H. apply cell_normalize_spec in H.
  destruct H as (_ & _ & _ & _ & V2 & _).
  unfold outputs_of, py_or.
  destruct (truthy (get "outputs" c)) eqn:Tr; [|reflexivity].
  destruct (get "outputs" c) as [| | | | |outs|] eqn:G; try reflexivity.
  destruct (V2 outs eq_refl eq_refl) as (outs' & _ & R).
  clear - R. induction R as [|o o' l l' (s1 & s2 & Ho) _ IH]; [reflexivity|].
  simpl. rewrite (normalize_output_Ok_dict _ _ _ _ Ho). exact IH.
Qed.

(** The loop body completes exactly on the cells that are dicts with a
    [metadata] key and, in normalize mode, with dicts only among the
    outputs of a code cell. *)
Lemma sanitize_cell_completes (strip_outputs : bool) (cell : json)
    (s : state) :
  cell_shaped strip_outputs cell = true <->
  exists cell' s', sanitize_cell strip_outputs cell s = Ok (cell', s').
Proof.
  split.
  - destruct cell as [| | | | | |c]; try discriminate. simpl cell_shaped.
    rewrite andb_true_iff. intros [Hm Ho].
    unfold sanitize_cell. rewrite (bind_step _ _ s s c eq_refl).
    destruct (cell_id_total c s) as (c1 & s1 & H1).
    rewrite (bind_step _ _ _ _ _ H1).
    destruct (coerce_field_total "source" c1 s1) as (c2 & s2 & H2).
    rewrite (bind_step _ _ _ _ _ H2).
    destruct (guarded_total
                (negb (is_dict (get_default "metadata" (JDict []) c2)))
                (setitem "metadata" (JDict []) c2) c2 s2) as (c3 & s3 & H3).
    fold (cell_metadata c2) in H3. rewrite (bind_step _ _ _ _ _ H3).
    apply cell_id_spec in H1. destruct H1 as (T1 & _).
    apply coerce_field_spec in H2. destruct H2 as (T2 & _).
    apply cell_metadata_spec in H3. destruct H3 as (T3 & V3).
    assert (L3 : exists md, lookup "metadata" c3 = Some (JDict md)).
    { rewrite V3. unfold get_default. back. unfold contains in Hm.
      destruct (lookup "metadata" c) as [[]|]; try discriminate Hm;
        simpl; eauto. }
    destruct L3 as (md3 & L3).
    destruct (cell_tags_total c3 md3 s3 L3) as (c4 & s4 & H4).
    rewrite (bind_step _ _ _ _ _ H4).
    apply cell_tags_spec in H4.
    destruct H4 as (md4 & md4' & _ & L4 & T4 & _).
    destruct (cell_execution_total c4 md4' s4 L4) as (c5 & s5 & H5).
    rewrite (bind_step _ _ _ _ _ H5).
    apply cell_execution_spec in H5.
    destruct H5 as (md5 & md5' & _ & L5 & T5 & _).
    destruct (guarded_total
                (py_in (get "cell_type" c5) [JStr "markdown"; JStr "raw"]
                 && match lookup "attachments" c5 with
                    | None => false
                    | Some a => negb (is_dict a)
                    end)
                (setitem "attachments" (JDict []) c5) c5 s5)
      as (c6 & s6 & H6).
    fold (cell_attachments c5) in H6. rewrite (bind_step _ _ _ _ _ H6).
    apply cell_attachments_spec in H6. destruct H6 as (T6 & _).
    apply bind_total.
    assert (H7 : exists c7 s7, cell_outputs strip_outputs c6 s6 = Ok (c7, s7)).
    { unfold cell_outputs.
      destruct (py_eq (get "cell_type" c6) (JStr "code")) eqn:Code;
        [|eexists; eexists; reflexivity].
      destruct strip_outputs; [apply cell_strip_total|].
      apply cell_normalize_total.
      back_in Code. rewrite Code in Ho. simpl in Ho.
      unfold outputs_of in *. back. exact Ho. }
    destruct H7 as (c7 & s7 & H7). exists c7, s7. split; [exact H7|].
    eexists; eexists; reflexivity.
  - intros (cell' & s' & H). apply sanitize_cell_spec in H.
    destruct H as (c & c' & mdj & md' & -> & _ & _ & _ & _ & _ & _ & L & _
                   & _ & _ & _ & _ & _ & _ & c6 & s6 & T6 & H7).
    simpl. unfold contains. rewrite L. simpl.
    destruct strip_outputs; [reflexivity|]. simpl.
    destruct (cell_outputs_spec _ _ _ _ _ H7) as (_ & _ & _ & Y).
    back_in Y.
    destruct (py_eq (get "cell_type" c) (JStr "code")); [|reflexivity].
    simpl. specialize (Y eq_refl). simpl in Y.
    apply cell_normalize_Ok_shaped in Y.
    unfold outputs_of in *. back_in Y. exact Y.
Qed.

Lemma top_metadata_total (raw : dict) (s : state) :
  exists raw' s', top_metadata raw s = Ok (raw', s').
Proof.
  unfold top_metadata. apply bind_total.
  destruct (guarded_total (negb (is_dict (get "metadata" raw)))
              (setitem "metadata" (JDict []) raw) raw s)
    as (raw1 & s1 & H1).
  exists raw1, s1. split; [exact H1|].
  apply guarded_setitem_Ok in H1. destruct H1 as (_ & E1 & _).
  assert (D : exists md, get "metadata" raw1 = JDict md).
  { unfold get, get_default in *. rewrite E1.
    destruct (lookup "metadata" raw) as [[]|]; simpl; eauto. }
  destruct D as (md & D). rewrite D.
  rewrite (bind_step _ _ s1 s1 md eq_refl).
  apply bind_total.
  assert (Li : exists md1 t1, top_language_info md s1 = Ok (md1, t1)).
  { unfold top_language_info.
    destruct (get "language_info" md); try (eexists; eexists; reflexivity).
    apply guarded_total. }
  destruct Li as (md1 & t1 & Li). exists md1, t1. split; [exact Li|].
  apply bind_total.
  assert (Ks : exists md2 t2, top_kernelspec md1 t1 = Ok (md2, t2)).
  { unfold top_kernelspec.
    destruct (get "kernelspec" md1); try (eexists; eexists; reflexivity).
    apply bind_total.
    destruct (guarded_total (is_none (get "name" entries))
                (setitem "name" (JStr "python3") entries) entries t1)
      as (k1 & u1 & K1).
    exists k1, u1. split; [exact K1|].
    apply bind_total.
    destruct (guarded_total (is_none (get "display_name" k1))
                (setitem "display_name" (JStr "Python 3") k1) k1 u1)
      as (k2 & u2 & K2).
    exists k2, u2. split; [exact K2|]. eexists; eexists; reflexivity. }
  destruct Ks as (md2 & t2 & Ks). exists md2, t2. split; [exact Ks|].
  eexists; eexists; reflexivity.
Qed.

(** The pass completes exactly on the well-shaped documents: a top-level
    dict whose cells are dicts with a [metadata] key and, in normalize
    mode, dicts only among the outputs of the code cells. *)
Lemma sanitize_completes (strip_outputs : bool) (doc : json) (s : state) :
  well_shaped strip_outputs doc = true <->
  exists doc' ch s',
    sanitize_notebook strip_outputs doc s = Ok ((doc', ch), s').
Proof.
  split.
  - destruct doc as [| | | | | |raw]; try discriminate. simpl well_shaped.
    intros W. unfold sanitize_notebook.
    rewrite (bind_step _ _ s (mkState false (uuid_calls s)) tt eq_refl).
    rewrite (bind_step _ _ _ _ raw eq_refl).
    destruct (guarded_total (negb (py_eq (get "nbformat" raw) (JInt 4)))
                (setitem "nbformat" (JInt 4) raw) raw
                (mkState false (uuid_calls s))) as (raw1 & s1 & H1).
    fold (top_nbformat raw) in H1. rewrite (bind_step _ _ _ _ _ H1).
    destruct (guarded_total (negb (is_int (get "nbformat_minor" raw1)))
                (setitem "nbformat_minor" (JInt 5) raw1) raw1 s1)
      as (raw2 & s2 & H2).
    fold (top_nbformat_minor raw1) in H2. rewrite (bind_step _ _ _ _ _ H2).
    destruct (top_metadata_total raw2 s2) as (raw3 & s3 & H3).
    rewrite (bind_step _ _ _ _ _ H3).
    unfold top_nbformat in H1. apply guarded_setitem_Ok in H1.
    destruct H1 as (T1 & _).
    unfold top_nbformat_minor in H2. apply guarded_setitem_Ok in H2.
    destruct H2 as (T2 & _).
    apply top_metadata_spec in H3. destruct H3 as (T3 & _).
    assert (H4 : exists raw4 s4,
              top_cells strip_outputs raw3 s3 = Ok (raw4, s4)).
    { unfold top_cells. apply bind_total.
      destruct (guarded_total (negb (is_list (get "cells" raw3)))
                  (setitem "cells" (JList []) raw3) raw3 s3)
        as (r & t & Hr).
      exists r, t. split; [exact Hr|].
      apply guarded_Ok in Hr.
      destruct Hr as [(C & -> & ->)|(C & -> & ->)].
      - rewrite get_setitem. simpl. eexists; eexists; reflexivity.
      - destruct (get "cells" raw3) as [| | | | |cells|] eqn:G;
          try discriminate C.
        apply bind_total.
        destruct (for_each_total (sanitize_cell strip_outputs) cells
                    ltac:(intros x Hx u;
                          apply (proj1 (sanitize_cell_completes _ _ _));
                          unfold cells_of in W; back_in G; rewrite G in W;
                          rewrite forallb_forall in W; apply W, Hx) s3)
          as (cells' & s4 & Hc).
        exists cells', s4. split; [exact Hc|]. eexists; eexists; reflexivity. }
    destruct H4 as (raw4 & s4 & H4). rewrite (bind_step _ _ _ _ _ H4).
    eexists; eexists; eexists. reflexivity.
  - intros (doc' & ch & s' & H). apply pass_cells in H.
    destruct H as (raw & raw' & cells' & -> & _ & _ & R).
    simpl. induction R as [|c c' l l' (s1 & s2 & Hc & _) _ IH];
      [reflexivity|].
    simpl. rewrite IH, andb_true_r.
    apply (proj2 (sanitize_cell_completes _ _ s1)). eauto.
Qed.

(** ** Generated ids *)

Lemma sanitize_cell_steps (strip_outputs : bool) (cell cell' : json)
    (s s' : state) :
  sanitize_cell strip_outputs cell s = Ok (cell', s') ->
  exists c c1 c2 c3 c4 c5 c6 c7 s1 s2 s3 s4 s5 s6,
    cell = JDict c /\ cell' = JDict c7 /\
    cell_id c s = Ok (c1, s1) /\
    coerce_field "source" c1 s1 = Ok (c2, s2) /\
    cell_metadata c2 s2 = Ok (c3, s3) /\
    cell_tags c3 s3 = Ok (c4, s4) /\
    cell_execution c4 s4 = Ok (c5, s5) /\
    cell_attachments c5 s5 = Ok (c6, s6) /\
    cell_outputs strip_outputs c6 s6 = Ok (c7, s').
Proof.
  intros H. unfold sanitize_cell in H.
  apply bind_Ok in H. destruct H as (c & s0 & H0 & H).
  apply as_dict_Ok in H0. destruct H0 as [-> ->].
  apply bind_Ok in H. destruct H as (c1 & s1 & H1 & H).
  apply bind_Ok in H. destruct H as (c2 & s2 & H2 & H).
  apply bind_Ok in H. destruct H as (c3 & s3 & H3 & H).
  apply bind_Ok in H. destruct H as (c4 & s4 & H4 & H).
  apply bind_Ok in H. destruct H as (c5 & s5 & H5 & H).
  apply bind_Ok in H. destruct H as (c6 & s6 & H6 & H).
  apply bind_Ok in H. destruct H as (c7 & s7 & H7 & H).
  apply ret_Ok in H. destruct H as [-> ->].
  exists c, c1, c2, c3, c4, c5, c6, c7, s1, s2, s3, s4, s5, s6.
  repeat (split; [first [reflexivity | assumption]|]). assumption.
Qed.

Lemma sanitize_steps (strip_outputs : bool) (doc doc' : json) (ch : bool)
    (s s' : state) :
  sanitize_notebook strip_outputs doc s = Ok ((doc', ch), s') ->
  exists raw raw1 raw2 raw3 raw4 s1 s2 s3,
    doc = JDict raw /\ doc' = JDict raw4 /\ ch = changed s' /\
    top_nbformat raw (mkState false (uuid_calls s)) = Ok (raw1, s1) /\
    top_nbformat_minor raw1 s1 = Ok (raw2, s2) /\
    top_metadata raw2 s2 = Ok (raw3, s3) /\
    top_cells strip_outputs raw3 s3 = Ok (raw4, s').
Proof.
  intros H. unfold sanitize_notebook in H.
  apply bind_Ok in H. destruct H as ([] & s0 & H0 & H).
  unfold set_changed in H0. injection H0 as <-.
  apply bind_Ok in H. destruct H as (raw & s0' & Hd & H).
  apply as_dict_Ok in Hd. destruct Hd as [-> ->].
  apply bind_Ok in H. destruct H as (raw1 & s1 & H1 & H).
  apply bind_Ok in H. destruct H as (raw2 & s2 & H2 & H).
  apply bind_Ok in H. destruct H as (raw3 & s3 & H3 & H).
  apply bind_Ok in H. destruct H as (raw4 & s4 & H4 & H).
  apply bind_Ok in H. destruct H as (ch' & s5 & H5 & H).
  unfold get_changed in H5. injection H5 as <- <-.
  apply ret_Ok in H. destruct H as [E ->]. injection E as -> ->.
  exists raw, raw1, raw2, raw3, raw4, s1, s2, s3.
  repeat (split; [first [reflexivity | assumption]|]). assumption.
Qed.

Lemma silent_ret {A} (a : A) : silent (ret a).
Proof. intros s b s' H. apply ret_Ok in H. destruct H as [_ ->]. reflexivity. Qed.

Lemma silent_raise {A} (e : exn) : silent (@raise A e).
Proof. intros s a s' H. discriminate H. Qed.

Lemma silent_mark : silent mark_changed.
Proof.
  intros s a s' H. unfold mark_changed, set_changed in H.
  injection H as _ <-. reflexivity.
Qed.

Lemma silent_bind {A B} (m : M A) (k : A -> M B) :
  silent m -> (forall a, silent (k a)) -> silent (bind m k).
Proof.
  intros Hm Hk s b s2 H. apply bind_Ok in H.
  destruct H as (a & s1 & H1 & H2).
  rewrite (Hk a _ _ _ H2). apply (Hm _ _ _ H1).
Qed.

Lemma silent_as_dict (x : json) : silent (as_dict x).
Proof. destruct x; simpl; auto using silent_raise, silent_ret. Qed.

Lemma silent_getitem (k : string) (d : dict) : silent (getitem k d).
Proof.
  unfold getitem. destruct (lookup k d); auto using silent_raise, silent_ret.
Qed.

Lemma silent_for_each {A} (f : A -> M A) (l : list A) :
  (forall x, silent (f x)) -> silent (for_each f l).
Proof.
  intros Hf. induction l as [|x l IH]; simpl.
  - apply silent_ret.
  - apply silent_bind; [apply Hf|]. intros x'.
    apply silent_bind; [exact IH|]. intros l'. apply silent_ret.
Qed.

Lemma silent_for_items (body : string -> json -> dict -> M dict)
    (snapshot : dict) :
  (forall k v d, silent (body k v d)) ->
  forall d, silent (for_items body snapshot d).
Proof.
  intros Hb. induction snapshot as [|[k v] rest IH]; intros d; simpl.
  - apply silent_ret.
  - apply silent_bind; [apply Hb | exact IH].
Qed.

Create HintDb silent.
#[local] Hint Resolve silent_ret silent_raise silent_mark silent_as_dict
  silent_getitem : silent.

Ltac silent_split :=
  repeat first
    [ solve [auto with silent]
    | apply silent_bind; [|intros ?]
    | apply silent_for_each; intros ?
    | apply silent_for_items; intros ? ? ?
    | match goal with
      | |- silent (if ?g then _ else _) => destruct g
      | |- silent (match ?x with _ => _ end) => destruct x
      end
    | progress cbv zeta ].

Lemma silent_coerce_field (fld : string) (o : dict) :
  silent (coerce_field fld o).
Proof. unfold coerce_field. silent_split. Qed.

Lemma silent_int_or_null (o : dict) : silent (int_or_null o).
Proof. unfold int_or_null. silent_split. Qed.

#[local] Hint Resolve silent_coerce_field silent_int_or_null : silent.

Lemma silent_normalize_output (out : json) : silent (normalize_output out).
Proof.
  unfold normalize_output, output_data, output_traceback, coerce_data.
  silent_split.
Qed.

#[local] Hint Resolve silent_normalize_output : silent.

(** The loop body after the id rule. *)
Lemma silent_after_id (strip_outputs : bool) (c1 : dict) :
  silent (c <- coerce_field "source" c1 ;;
          c <- cell_metadata c ;;
          c <- cell_tags c ;;
          c <- cell_execution c ;;
          c <- cell_attachments c ;;
          c <- cell_outputs strip_outputs c ;;
          ret (JDict c)).
Proof.
  unfold cell_metadata, cell_tags, cell_execution, cell_attachments,
    cell_outputs, cell_strip, cell_normalize, coerce_value.
  silent_split.
Qed.

Lemma silent_top_nbformat (raw : dict) : silent (top_nbformat raw).
Proof. unfold top_nbformat. silent_split. Qed.

Lemma silent_top_nbformat_minor (raw : dict) :
  silent (top_nbformat_minor raw).
Proof. unfold top_nbformat_minor. silent_split. Qed.

Lemma silent_top_metadata (raw : dict) : silent (top_metadata raw).
Proof.
  unfold top_metadata, top_language_info, top_kernelspec. silent_split.
Qed.

(** One cell draws one UUID when it lacks an id, and none otherwise. *)
Lemma sanitize_cell_draws (strip_outputs : bool) (cell cell' : json)
    (s s' : state) :
  sanitize_cell strip_outputs cell s = Ok (cell', s') ->
  uuid_calls s' = (uuid_calls s + (if lacks_id cell then 1 else 0))%nat.
Proof.
  intros H. unfold sanitize_cell in H.
  apply bind_Ok in H. destruct H as (c & s0 & H0 & H).
  apply as_dict_Ok in H0. destruct H0 as [-> ->].
  apply bind_Ok in H. destruct H as (c1 & s1 & H1 & H).
  apply silent_after_id in H. rewrite H. clear H.
  unfold lacks_id, good_id. simpl entries_of.
  unfold cell_id in H1. cbv zeta in H1.
  destruct (is_none (get "id" c) || negb (is_str (get "id" c))
            || negb (truthy (get "id" c))); cbn [negb].
  - apply bind_Ok in H1. destruct H1 as (i & t & Hi & H1).
    apply mark_ret_Ok in H1. destruct H1 as [_ ->].
    unfold fresh_id in Hi. injection Hi as _ <-. simpl. lia.
  - apply ret_Ok in H1. destruct H1 as [_ ->]. lia.
Qed.

Lemma for_each_draws (strip_outputs : bool) (l l' : list json)
    (s s' : state) :
  for_each (sanitize_cell strip_outputs) l s = Ok (l', s') ->
  uuid_calls s' = (uuid_calls s + List.length (filter lacks_id l))%nat.
Proof.
  revert l' s s'. induction l as [|c l IH]; intros l' s s' H; simpl in H.
  - apply ret_Ok in H. destruct H as [_ ->]. simpl. lia.
  - apply bind_Ok in H. destruct H as (c' & s1 & H1 & H).
    apply bind_Ok in H. destruct H as (l1 & s2 & H2 & H).
    apply ret_Ok in H. destruct H as [_ ->].
    apply sanitize_cell_draws in H1. apply IH in H2. rewrite H2, H1.
    simpl. destruct (lacks_id c); simpl; lia.
Qed.

Lemma for_each_app {A} (f : A -> M A) (l1 l2 l' : list A) (s s' : state) :
  for_each f (l1 ++ l2)%list s = Ok (l', s') ->
  exists l1' l2' s1,
    for_each f l1 s = Ok (l1', s1) /\ for_each f l2 s1 = Ok (l2', s') /\
    l' = (l1' ++ l2')%list /\ List.length l1' = List.length l1.
Proof.
  revert l' s. induction l1 as [|x l1 IH]; intros l' s H; simpl in H.
  - exists [], l', s. repeat split; assumption.
  - apply bind_Ok in H. destruct H as (x' & s1 & H1 & H).
    apply bind_Ok in H. destruct H as (r & s2 & H2 & H).
    apply ret_Ok in H. destruct H as [-> ->].
    destruct (IH _ _ H2) as (l1' & l2' & t & F1 & F2 & -> & Len).
    exists (x' :: l1'), l2', t. simpl.
    rewrite (bind_step _ _ _ _ _ H1). rewrite (bind_step _ _ _ _ _ F1).
    repeat split; [exact F2 | rewrite Len; reflexivity].
Qed.

(** A cell that lacks an id sets the flag. *)
Lemma sanitize_cell_flags_id (strip_outputs : bool) (cell cell' : json)
    (s s' : state) :
  sanitize_cell strip_outputs cell s = Ok (cell', s') ->
  lacks_id cell = true -> changed s' = true.
Proof.
  intros H L. apply sanitize_cell_steps in H.
  destruct H as (d & c1 & c2 & c3 & c4 & c5 & c6 & c7 & t1 & t2 & t3 & t4
                 & t5 & t6 & -> & -> & H1 & H2 & H3 & H4 & H5 & H6 & H7).
  pose proof (keeps_flag_of_quiet _ (quiet_coerce_field "source")
                _ _ _ _ H2) as K2.
  pose proof (keeps_flag_of_quiet _ quiet_cell_metadata _ _ _ _ H3) as K3.
  pose proof (keeps_flag_of_quiet _ quiet_cell_tags _ _ _ _ H4) as K4.
  pose proof (keeps_flag_of_quiet _ quiet_cell_execution _ _ _ _ H5) as K5.
  pose proof (keeps_flag_of_quiet _ quiet_cell_attachments _ _ _ _ H6) as K6.
  pose proof (cell_outputs_spec _ _ _ _ _ H7) as (_ & K7 & _).
  apply cell_id_spec in H1. destruct H1 as (_ & _ & _ & F1).
  unfold lacks_id in L. simpl entries_of in L.
  apply negb_true_iff in L. auto 10.
Qed.

(** The ids the pass generates, in either mode.  The pass draws one UUID
    for each cell that comes without a usable id, and none otherwise; the
    cells are served in order, so such a cell receives the first eight
    hexadecimal digits of a UUID drawn during this pass, the one whose
    number is the count of such cells before it, and the pass returns
    [True]. *)
Lemma fresh_ids_in_order (strip_outputs : bool) (doc doc' : json)
    (ch : bool) (s s' : state) :
  sanitize_notebook strip_outputs doc s = Ok ((doc', ch), s') ->
  uuid_calls s' =
    (uuid_calls s
     + List.length (filter lacks_id (cells_of (entries_of doc))))%nat /\
  forall pre c post,
    cells_of (entries_of doc) = (pre ++ c :: post)%list ->
    lacks_id c = true ->
    exists pre' c' post',
      get "cells" (entries_of doc') = JList (pre' ++ c' :: post')%list /\
      List.length pre' = List.length pre /\
      let i := hex_prefix8
                 (uuid4 (uuid_calls s
                         + List.length (filter lacks_id pre))%nat) in
      lookup "id" (entries_of c') = Some (JStr i) /\ i <> "" /\ ch = true.
Proof.
  intros H. apply sanitize_steps in H.
  destruct H as (raw & raw1 & raw2 & raw3 & raw4 & s1 & s2 & s3 & -> & ->
                 & -> & H1 & H2 & H3 & H4).
  simpl entries_of.
  pose proof (silent_top_nbformat _ _ _ _ H1) as D1.
  pose proof (silent_top_nbformat_minor _ _ _ _ H2) as D2.
  pose proof (silent_top_metadata _ _ _ _ H3) as D3.
  simpl in D1.
  assert (D : uuid_calls s3 = uuid_calls s) by congruence.
  unfold top_nbformat in H1. apply guarded_setitem_Ok in H1.
  destruct H1 as (T1 & _).
  unfold top_nbformat_minor in H2. apply guarded_setitem_Ok in H2.
  destruct H2 as (T2 & _).
  apply top_metadata_spec in H3. destruct H3 as (T3 & _).
  assert (G : get "cells" raw3 = get "cells" raw) by (back; reflexivity).
  unfold top_cells in H4.
  apply bind_Ok in H4. destruct H4 as (raw5 & s5 & H5 & H4).
  apply guarded_Ok in H5. destruct H5 as [(C & -> & ->)|(C & -> & ->)].
  - rewrite get_setitem in H4. simpl in H4. run_inv. simpl uuid_calls.
    rewrite G in C. unfold cells_of.
    destruct (get "cells" raw); try discriminate C; simpl;
      (split; [lia | intros [|] ? ? X; discriminate X]).
  - rewrite G in H4, C. unfold cells_of.
    destruct (get "cells" raw) as [| | | | |cells|] eqn:Gc;
      try discriminate C.
    apply bind_Ok in H4. destruct H4 as (cells' & s6 & H6 & H4).
    apply ret_Ok in H4. destruct H4 as [-> ->].
    split; [rewrite (for_each_draws _ _ _ _ _ H6), D; reflexivity|].
    intros pre c post -> L.
    apply for_each_app in H6.
    destruct H6 as (pre' & rest' & t1 & F1 & F2 & -> & Len).
    simpl in F2.
    apply bind_Ok in F2. destruct F2 as (c' & t2 & Hc & F2).
    apply bind_Ok in F2. destruct F2 as (post' & t3 & Hp & F2).
    apply ret_Ok in F2. destruct F2 as [-> ->].
    exists pre', c', post'.
    split; [rewrite get_setitem; reflexivity|]. split; [exact Len|].
    cbv zeta.
    pose proof (sanitize_cell_flags_id _ _ _ _ _ Hc L) as Fl.
    pose proof (keeps_flag_for_each _
                  (keeps_flag_sanitize_cell strip_outputs) _ _ _ _ Hp Fl)
      as Fl'.
    apply for_each_draws in F1.
    apply sanitize_cell_spec in Hc.
    destruct Hc as (d & d' & mdj & mdc & -> & -> & _ & _ & _ & Vi & _).
    unfold lacks_id in L. simpl entries_of in L |- *.
    apply negb_true_iff in L. rewrite L in Vi. rewrite F1, D in Vi.
    split; [exact Vi|].
    split; [apply hex_prefix8_nonempty | exact Fl'].
Qed.

(** A boolean [nbformat_minor] passes the test of line 32, since
    [isinstance(True, int)] holds, and leaves every completed pass as it
    came. *)
Lemma bool_minor_kept (strip_outputs : bool) (doc doc' : json) (ch : bool)
    (s s' : state) (b : bool) :
  get "nbformat_minor" (entries_of doc) = JBool b ->
  sanitize_notebook strip_outputs doc s = Ok ((doc', ch), s') ->
  get "nbformat_minor" (entries_of doc') = JBool b.
Proof.
  intros G H. apply sanitize_steps in H.
  destruct H as (raw & raw1 & raw2 & raw3 & raw4 & s1 & s2 & s3 & -> & ->
                 & _ & H1 & H2 & H3 & H4).
  simpl entries_of in *.
  unfold top_nbformat in H1. apply guarded_setitem_Ok in H1.
  destruct H1 as (T1 & _).
  unfold top_nbformat_minor in H2.
  rewrite (touches_get _ _ _ "nbformat_minor" T1 eq_refl), G in H2.
  apply ret_Ok in H2. destruct H2 as [-> ->].
  apply top_metadata_spec in H3. destruct H3 as (T3 & _).
  apply top_cells_spec in H4. destruct H4 as (T4 & _).
  back. exact G.
Qed.

(** What a completed pass does establish: [nbformat] compares equal
    to 4, being the int 4 or a float of value 4; [nbformat_minor] is an
    instance of Python's [int], that is an integer or a boolean; every
    cell has a non-empty string [id]; and every cell's [source], when
    present, is a string.  A cell that entered with the integer id 0 and
    the source ["a", "b"] leaves with the first eight hex digits of a
    UUID as its id, which [fresh_ids_in_order] says is one drawn for it
    during the pass, and with the source "ab". *)
Theorem sanitize_establishes_shape (strip_outputs : bool) (doc doc' : json)
    (ch : bool) (s s' : state) :
  sanitize_notebook strip_outputs doc s = Ok ((doc', ch), s') ->
  exists raw' cells',
    doc' = JDict raw' /\
    (get "nbformat" raw' = JInt 4 \/
     exists f, get "nbformat" raw' = JFloat f /\ float_eq_Z f 4 = true) /\
    ((exists n, get "nbformat_minor" raw' = JInt n) \/
     (exists b, get "nbformat_minor" raw' = JBool b)) /\
    get "cells" raw' = JList cells' /\
    (forall c', In c' cells' ->
       exists d' i,
         c' = JDict d' /\ lookup "id" d' = Some (JStr i) /\ i <> "" /\
         forall v, lookup "source" d' = Some v -> is_str v = true) /\
    Forall2 (fun c c' =>
               get "id" (entries_of c) = JInt 0 ->
               get "source" (entries_of c) = JList [JStr "a"; JStr "b"] ->
               (exists n, get "id" (entries_of c')
                          = JStr (hex_prefix8 (uuid4 n))) /\
               get "source" (entries_of c') = JStr "ab")
      (cells_of (entries_of doc)) cells'.
Proof.
  intros H. pose proof (pass_cells _ _ _ _ _ _ H) as P.
  apply sanitize_spec in H.
  destruct H as (raw & raw' & md' & cells0 & -> & -> & _ & _ & N & Mi & _).
  destruct P as (raw0 & raw0' & cells' & E & E' & Lc & R).
  injection E as <-. injection E' as <-.
  exists raw', cells'. split; [reflexivity|].
  split.
  { apply py_eq_JInt_r in N. destruct N as [N|[(b & _ & B)|N]]; auto.
    destruct b; discriminate B. }
  split; [apply is_int_inv, Mi|].
  split; [exact Lc|].
  split.
  - intros c' Hin. destruct (Forall2_in_r _ _ _ _ R Hin) as (c & _ & Rc).
    destruct Rc as (s1 & s2 & Hc & _). apply sanitize_cell_spec in Hc.
    destruct Hc as (d & d' & mdj & mdc & -> & -> & _ & _ & G & _ & So & _).
    apply good_id_inv in G. destruct G as (i & Gi & Ni).
    exists d', i. split; [reflexivity|]. split.
    { unfold get, get_default in Gi.
      destruct (lookup "id" d'); [congruence | discriminate Gi]. }
    split; [exact Ni|].
    intros v Lv. rewrite So in Lv.
    destruct (lookup "source" d); [|discriminate Lv].
    injection Lv as <-. apply is_str_coerce_str.
  - simpl entries_of. eapply Forall2_impl; [|exact R].
    intros c c' (s1 & s2 & Hc & _) Hid Hso.
    apply sanitize_cell_spec in Hc.
    destruct Hc as (d & d' & mdj & mdc & -> & -> & _ & _ & _ & Vi & So & _).
    simpl entries_of in *. unfold get, get_default in *.
    rewrite Vi, So.
    destruct (lookup "id" d) as [vid|]; [|discriminate Hid]. subst vid.
    destruct (lookup "source" d) as [vso|]; [|discriminate Hso]. subst vso.
    simpl. split; [eexists; reflexivity | reflexivity].
Qed.

(** ** Strip mode *)

(** C5, amended.  In strip mode, every code cell leaves the pass with
    [outputs] equal to the empty list, the key being created when it was
    absent.
    Its [execution_count] is [None] where the key was present, whatever
    it held, and is still absent where it was absent: line 95 tests
    [c.get("execution_count") is not None] and creates nothing, so that
    [c.get("execution_count")] is [None] in either case.  [changed] is
    set when [outputs] was truthy, that is non-empty, or
    [execution_count] was not [None]. *)
Theorem strip_clears_code_cells (doc doc' : json) (ch : bool) (s s' : state) :
  sanitize_notebook true doc s = Ok ((doc', ch), s') ->
  exists raw' cells',
    doc' = JDict raw' /\ get "cells" raw' = JList cells' /\
    Forall2 (fun c c' =>
               exists d d',
                 c = JDict d /\ c' = JDict d' /\
                 get "cell_type" d' = get "cell_type" d /\
                 (py_eq (get "cell_type" d) (JStr "code") = true ->
                  lookup "outputs" d' = Some (JList []) /\
                  lookup "execution_count" d' =
                    match lookup "execution_count" d with
                    | Some _ => Some JNull
                    | None => None
                    end /\
                  get "execution_count" d' = JNull /\
                  (truthy (get "outputs" d) = true \/
                   is_none (get "execution_count" d) = false -> ch = true)))
      (cells_of (entries_of doc)) cells'.
Proof.
  intros H. apply pass_cells in H.
  destruct H as (raw & raw' & cells' & -> & -> & Lc & R).
  exists raw', cells'. split; [reflexivity|]. split; [exact Lc|].
  simpl entries_of. eapply Forall2_impl; [|exact R].
  intros c c' (s1 & s2 & Hc & Fl).
  apply sanitize_cell_spec in Hc.
  destruct Hc as (d & d' & mdj & mdc & -> & -> & T & _ & _ & _ & _ & _ & _
                  & _ & _ & _ & _ & _ & _ & c6 & s6 & T6 & H7).
  exists d, d'. split; [reflexivity|]. split; [reflexivity|].
  split; [back; reflexivity|].
  intros Code.
  destruct (cell_outputs_spec _ _ _ _ _ H7) as (T7 & _ & _ & Y).
  assert (Code6 : py_eq (get "cell_type" c6) (JStr "code") = true)
    by (back; exact Code).
  specialize (Y Code6). simpl in Y. apply cell_strip_spec in Y.
  destruct Y as (_ & O & E & V & _ & Mk & _).
  split; [exact O|].
  split.
  { rewrite V. back. unfold get, get_default.
    destruct (lookup "execution_count" d) as [[]|]; reflexivity. }
  split; [exact E|].
  intros X. apply Fl, Mk. back. exact X.
Qed.

(** ** Tags *)

(** C8.  When a cell's [metadata.tags] is a list, the pass leaves there
    the list of the coercions of its entries that are not [None], in their
    original order: strings only.  [changed] is set when that list differs
    from the original, and the rule of lines 73-77 leaves the cell and the
    state untouched when it does not. *)
Theorem tags_coerced (strip_outputs : bool) (doc doc' : json) (ch : bool)
    (s s' : state) :
  sanitize_notebook strip_outputs doc s = Ok ((doc', ch), s') ->
  exists raw' cells',
    doc' = JDict raw' /\ get "cells" raw' = JList cells' /\
    Forall2 (fun c c' =>
               forall md tags,
                 get "metadata" (entries_of c) = JDict md ->
                 get "tags" md = JList tags ->
                 exists md',
                   get "metadata" (entries_of c') = JDict md' /\
                   get "tags" md' =
                     JList (map (fun t => JStr (to_s t))
                              (filter (fun t => negb (is_none t)) tags)) /\
                   forallb is_str (coerce_tags tags) = true /\
                   (coerce_tags tags <> tags -> ch = true) /\
                   (forall c1 t1 t2,
                      cell_tags (entries_of c) t1 = Ok (c1, t2) ->
                      coerce_tags tags = tags ->
                      c1 = entries_of c /\ t2 = t1))
      (cells_of (entries_of doc)) cells'.
Proof.
  intros H. apply pass_cells in H.
  destruct H as (raw & raw' & cells' & -> & -> & Lc & R).
  exists raw', cells'. split; [reflexivity|]. split; [exact Lc|].
  simpl entries_of. eapply Forall2_impl; [|exact R].
  intros c c' (s1 & s2 & Hc & Fl) md tags Hmd Htags.
  apply sanitize_cell_spec in Hc.
  destruct Hc as (d & d' & mdj & mdc & -> & -> & _ & _ & _ & _ & _ & L & L'
                  & _ & _ & Vt & Ct & _).
  simpl entries_of in *.
  apply get_is_dict_lookup in Hmd. rewrite L in Hmd. injection Hmd as ->.
  simpl entries_of in *.
  exists mdc. split; [unfold get, get_default; rewrite L'; reflexivity|].
  split.
  { pose proof (get_is_list_lookup _ _ _ Htags) as Lt. rewrite Lt in Vt.
    unfold get, get_default. rewrite Vt. reflexivity. }
  split; [apply coerce_tags_strs|].
  split; [intros N; apply Fl; eapply Ct; eassumption|].
  intros c1 t1 t2 Ht E. apply cell_tags_spec in Ht.
  destruct Ht as (md0 & md0' & L0 & _ & _ & _ & _ & _ & C0).
  rewrite L in L0. injection L0 as <-.
  destruct (C0 tags Htags) as [C _]. apply C, E.
Qed.

(** ** Falsy outputs in normalize mode *)

Lemma cell_normalize_falsy (c : dict) (s : state) :
  truthy (get "outputs" c) = false -> int_or_null_ok c = true ->
  cell_normalize c s = Ok (c, s).
Proof.
  intros F I. unfold cell_normalize. cbv zeta. unfold py_or. rewrite F.
  simpl for_each. rewrite (bind_step _ _ s s c eq_refl).
  apply int_or_null_noop, I.
Qed.

(** C10.  In normalize mode, a code cell whose [outputs] is falsy (absent,
    [None], an empty list, an empty dict, or any other empty or zero value)
    keeps exactly the [outputs] entry it had, or the lack of one; lines
    98-100 then change neither the cell nor the state, so with a valid
    [execution_count] the whole block leaves both as they are.  A truthy
    [outputs] that is not a list is replaced by the empty list, and
    [changed] is set.  An [outputs] that is a list stays a list of the
    same length, each output being what the loop body of line 100 made of
    the output in its place.  So the cell leaves with an empty list for
    [outputs] only if it came with one, or with a truthy value that is
    not a list. *)
Theorem falsy_outputs_left_alone (doc doc' : json) (ch : bool)
    (s s' : state) :
  sanitize_notebook false doc s = Ok ((doc', ch), s') ->
  exists raw' cells',
    doc' = JDict raw' /\ get "cells" raw' = JList cells' /\
    Forall2 (fun c c' =>
               py_eq (get "cell_type" (entries_of c)) (JStr "code") = true ->
               (truthy (get "outputs" (entries_of c)) = false ->
                lookup "outputs" (entries_of c') =
                lookup "outputs" (entries_of c) /\
                forall t,
                  int_or_null_ok (entries_of c) = true ->
                  cell_normalize (entries_of c) t = Ok (entries_of c, t)) /\
               (truthy (get "outputs" (entries_of c)) = true ->
                is_list (get "outputs" (entries_of c)) = false ->
                lookup "outputs" (entries_of c') = Some (JList []) /\
                ch = true) /\
               (forall outs,
                  get "outputs" (entries_of c) = JList outs ->
                  exists outs',
                    lookup "outputs" (entries_of c') = Some (JList outs') /\
                    List.length outs' = List.length outs /\
                    Forall2 (fun o o' => exists t1 t2,
                               normalize_output o t1 = Ok (o', t2))
                      outs outs') /\
               (lookup "outputs" (entries_of c') = Some (JList []) ->
                lookup "outputs" (entries_of c) = Some (JList []) \/
                (truthy (get "outputs" (entries_of c)) = true /\
                 is_list (get "outputs" (entries_of c)) = false)))
      (cells_of (entries_of doc)) cells'.
Proof.
  intros H. apply pass_cells in H.
  destruct H as (raw & raw' & cells' & -> & -> & Lc & R).
  exists raw', cells'. split; [reflexivity|]. split; [exact Lc|].
  simpl entries_of. eapply Forall2_impl; [|exact R].
  intros c c' (s1 & s2 & Hc & Fl) Code.
  apply sanitize_cell_spec in Hc.
  destruct Hc as (d & d' & mdj & mdc & -> & -> & T & _ & _ & _ & _ & _ & _
                  & _ & _ & _ & _ & _ & _ & c6 & s6 & T6 & H7).
  simpl entries_of in *.
  destruct (cell_outputs_spec _ _ _ _ _ H7) as (T7 & _ & _ & Y).
  assert (Code6 : py_eq (get "cell_type" c6) (JStr "code") = true)
    by (back; exact Code).
  specialize (Y Code6). simpl in Y. apply cell_normalize_spec in Y.
  destruct Y as (_ & _ & V0 & V1 & V2 & _).
  back_in V0. back_in V1.
  assert (V2' : forall outs, truthy (get "outputs" d) = true ->
                  get "outputs" d = JList outs ->
                  exists outs',
                    lookup "outputs" d' = Some (JList outs') /\
                    Forall2 (fun o o' => exists t1 t2,
                               normalize_output o t1 = Ok (o', t2))
                      outs outs').
  { intros outs Tr G. apply (V2 outs); back; assumption. }
  clear V2.
  assert (Ls : forall outs, get "outputs" d = JList outs ->
                 exists outs',
                   lookup "outputs" d' = Some (JList outs') /\
                   List.length outs' = List.length outs /\
                   Forall2 (fun o o' => exists t1 t2,
                              normalize_output o t1 = Ok (o', t2))
                     outs outs').
  { intros outs G. destruct (truthy (get "outputs" d)) eqn:Tr.
    - destruct (V2' outs eq_refl G) as (outs' & L & F).
      exists outs'. split; [exact L|].
      split; [symmetry; eapply Forall2_length, F | exact F].
    - rewrite G in Tr. destruct outs; [|discriminate Tr].
      exists []. rewrite (V0 eq_refl), (get_is_list_lookup _ _ _ G).
      split; [reflexivity|]. split; [reflexivity | constructor]. }
  split; [|split; [|split]].
  - intros F. split; [apply V0, F|].
    intros t I. apply cell_normalize_falsy; assumption.
  - intros Tr Nl. destruct (V1 Tr Nl) as [O C]. split; [exact O|].
    apply Fl, C.
  - exact Ls.
  - intros E. destruct (truthy (get "outputs" d)) eqn:Tr.
    + destruct (is_list (get "outputs" d)) eqn:Il; [|right; auto].
      left. destruct (get "outputs" d) as [| | | | |outs|] eqn:G;
        try discriminate Il.
      destruct (Ls outs eq_refl) as (outs' & L & Len & _).
      rewrite E in L. injection L as <-.
      destruct outs; [|discriminate Len]. discriminate Tr.
    + left. rewrite <- (V0 eq_refl). exact E.
Qed.

(** ** Rich outputs *)

(** What lines 116-123 make of one entry of [data]. *)
Lemma coerce_entries_values (data : dict) :
  Forall2 (fun kv kv' =>
             fst kv' = fst kv /\
             snd kv' =
               (if is_text_mime (fst kv) then coerce_str (snd kv)
                else if is_dict (snd kv) || is_list (snd kv) || is_str (snd kv)
                     then snd kv
                     else JStr (to_s (snd kv))))
    data (coerce_entries needs_coerce data).
Proof.
  induction data as [|[k v] data IH]; constructor; [|exact IH].
  simpl. split; [reflexivity|].
  unfold needs_coerce, coerce_str.
  destruct (is_text_mime k); [destruct (is_str v) | destruct (_ || _)];
    reflexivity.
Qed.

Lemma text_entries_are_strings (data : dict) (k : string) (v' : json) :
  In (k, v') (coerce_entries needs_coerce data) ->
  (is_text_mime k = true -> is_str v' = true) /\
  (is_text_mime k = false ->
   is_dict v' || is_list v' || is_str v' = true).
Proof.
  induction data as [|[k0 v0] data IH]; simpl; [intros []|].
  intros [E|Hin]; [|auto]. injection E as <- <-.
  unfold needs_coerce.
  destruct (is_text_mime k0); split; try discriminate; intros _.
  - destruct (is_str v0) eqn:S; simpl; [exact S | reflexivity].
  - destruct (is_dict v0 || is_list v0 || is_str v0) eqn:S; simpl;
      [exact S | reflexivity].
Qed.

Lemma clean_data_entries (o' data' : dict) (k : string) (v' : json) :
  data_ok o' = true -> get "data" o' = JDict data' -> In (k, v') data' ->
  (is_text_mime k = true -> is_str v' = true) /\
  (is_text_mime k = false -> is_dict v' || is_list v' || is_str v' = true).
Proof.
  unfold data_ok, py_or. intros D G Hin. rewrite G in D.
  destruct data' as [|e data']; [destruct Hin|].
  simpl truthy in D. cbv iota in D.
  rewrite forallb_forall in D. specialize (D _ Hin). simpl in D.
  apply negb_true_iff in D. unfold needs_coerce in D.
  destruct (is_text_mime k); split; try discriminate; intros _.
  - apply negb_false_iff in D. exact D.
  - apply negb_false_iff in D. exact D.
Qed.

(** In a normalised document, the [data] of every rich output of a code
    cell holds strings under the text and image keys, and dicts, lists or
    strings under the others. *)
Lemma normalized_data_entries (raw' : dict) (cells' outs' : list json)
    (c' o' : json) (data' : dict) (k : string) (v' : json) :
  normalized false (JDict raw') = true ->
  get "cells" raw' = JList cells' -> In c' cells' ->
  py_eq (get "cell_type" (entries_of c')) (JStr "code") = true ->
  get "outputs" (entries_of c') = JList outs' -> In o' outs' ->
  py_in (get "output_type" (entries_of o'))
    [JStr "display_data"; JStr "execute_result"] = true ->
  get "data" (entries_of o') = JDict data' -> In (k, v') data' ->
  (is_text_mime k = true -> is_str v' = true) /\
  (is_text_mime k = false -> is_dict v' || is_list v' || is_str v' = true).
Proof.
  intros N Lc Hc Code Lo Ho Ty Ld Hin.
  unfold normalized in N. rewrite Lc in N.
  apply andb_true_iff in N. destruct N as [_ N].
  rewrite forallb_forall in N. specialize (N _ Hc).
  destruct c' as [| | | | | |d']; try discriminate N.
  simpl entries_of in *. unfold cell_ok in N.
  rewrite !andb_true_iff in N. destruct N as [_ N].
  unfold code_ok in N. rewrite Code in N.
  apply andb_true_iff in N. destruct N as [N _].
  unfold outputs_ok, py_or in N. rewrite Lo in N.
  destruct outs' as [|o0 outs']; [destruct Ho|].
  simpl truthy in N. cbv iota in N.
  rewrite forallb_forall in N. specialize (N _ Ho).
  destruct o' as [| | | | | |e']; try discriminate N.
  simpl entries_of in *. unfold output_ok in N.
  apply andb_true_iff in N. destruct N as [_ N]. cbv zeta in N.
  rewrite Ty in N.
  assert (St : py_eq (get "output_type" e') (JStr "stream") = false).
  { apply py_in_two in Ty. destruct Ty as [-> | ->]; reflexivity. }
  rewrite St in N. apply andb_true_iff in N. destruct N as [N _].
  eapply clean_data_entries; eassumption.
Qed.

(** C7.  In normalize mode, after the pass, in the [data] of every
    [display_data] or [execute_result] output of a code cell the value of a
    key that starts with [text/] or [image/] (or is [text/plain]) is a
    string, and the value of any other key is a dict, a list or a string.
    Where that [data] was a dict before the pass, it holds the same keys
    in the same order: a value under a text or image key was coerced with
    [to_s] when it was not a string, and a value under another key was kept
    when it was a dict, a list or a string and coerced otherwise.  So
    [{"text/plain": 42}] becomes [{"text/plain": "42"}]. *)
Theorem display_data_coerced (doc doc' : json) (ch : bool) (s s' : state) :
  unique_keys doc = true ->
  sanitize_notebook false doc s = Ok ((doc', ch), s') ->
  exists raw' cells',
    doc' = JDict raw' /\ get "cells" raw' = JList cells' /\
    (forall c' outs' o' data' k v',
       In c' cells' ->
       py_eq (get "cell_type" (entries_of c')) (JStr "code") = true ->
       get "outputs" (entries_of c') = JList outs' -> In o' outs' ->
       py_in (get "output_type" (entries_of o'))
         [JStr "display_data"; JStr "execute_result"] = true ->
       get "data" (entries_of o') = JDict data' -> In (k, v') data' ->
       (is_text_mime k = true -> is_str v' = true) /\
       (is_text_mime k = false ->
        is_dict v' || is_list v' || is_str v' = true)) /\
    Forall2 (fun c c' =>
       py_eq (get "cell_type" (entries_of c)) (JStr "code") = true ->
       forall outs, get "outputs" (entries_of c) = JList outs ->
       exists outs',
         get "outputs" (entries_of c') = JList outs' /\
         Forall2 (fun o o' =>
            py_in (get "output_type" (entries_of o))
              [JStr "display_data"; JStr "execute_result"] = true ->
            forall data, get "data" (entries_of o) = JDict data ->
            exists data',
              get "data" (entries_of o') = JDict data' /\
              data' = coerce_entries needs_coerce data /\
              Forall2 (fun kv kv' =>
                 fst kv' = fst kv /\
                 snd kv' =
                   (if is_text_mime (fst kv) then coerce_str (snd kv)
                    else if is_dict (snd kv) || is_list (snd kv)
                            || is_str (snd kv)
                         then snd kv
                         else JStr (to_s (snd kv)))) data data' /\
              (forall k v', In (k, v') data' ->
                 (is_text_mime k = true -> is_str v' = true) /\
                 (is_text_mime k = false ->
                  is_dict v' || is_list v' || is_str v' = true)))
           outs outs')
      (cells_of (entries_of doc)) cells' /\
    coerce_entries needs_coerce [("text/plain", JInt 42)] =
    [("text/plain", JStr "42")].
Proof.
  intros U H. pose proof (sanitize_normalized _ _ _ _ _ _ U H) as N.
  apply pass_cells in H.
  destruct H as (raw & raw' & cells' & -> & -> & Lc & R).
  exists raw', cells'. split; [reflexivity|]. split; [exact Lc|].
  split.
  { intros c' outs' o' data' k v' Hc Code Lo Ho Ty Ld Hin.
    eapply normalized_data_entries; eassumption. }
  split; [|reflexivity].
  assert (Uc : forall c, In c (cells_of raw) -> unique_keys c = true).
  { unfold cells_of, get, get_default. intros c Hc.
    destruct (lookup "cells" raw) as [[| | | | |cells|]|] eqn:L;
      try destruct Hc.
    pose proof (unique_keys_lookup _ _ _ U L) as U1.
    apply (proj1 (unique_keys_list cells) U1 c Hc). }
  simpl entries_of. clear Lc U N.
  induction R as [|c c' l l' Hc R IH]; constructor;
    [|apply IH; intros x Hx; apply Uc; right; exact Hx].
  pose proof (Uc c (or_introl eq_refl)) as U. clear IH Uc R.
  destruct Hc as (s1 & s2 & Hc & _). intros Code outs Houts.
  apply sanitize_cell_spec in Hc.
  destruct Hc as (d & d' & mdj & mdc & -> & -> & T & _ & _ & _ & _ & _ & _
                  & _ & _ & _ & _ & _ & _ & c6 & s6 & T6 & H7).
  simpl entries_of in *.
  destruct (cell_outputs_spec _ _ _ _ _ H7) as (T7 & _ & _ & Y).
  assert (Code6 : py_eq (get "cell_type" c6) (JStr "code") = true)
    by (back; exact Code).
  specialize (Y Code6). simpl in Y. apply cell_normalize_spec in Y.
  destruct Y as (_ & _ & V0 & _ & V2 & _).
  back_in V0. specialize (V2 outs). back_in V2.
  pose proof (get_is_list_lookup _ _ _ Houts) as Lo.
  assert (Uo : forall o, In o outs -> unique_keys o = true).
  { pose proof (unique_keys_lookup _ _ _ U Lo) as U1.
    apply (proj1 (unique_keys_list outs) U1). }
  destruct (truthy (get "outputs" d)) eqn:Tr.
  - destruct (V2 eq_refl Houts) as (outs' & Lo' & Ro).
    exists outs'. split; [unfold get, get_default; rewrite Lo'; reflexivity|].
    clear - Ro Uo. induction Ro as [|o o' l l' Ho Ro IH]; constructor;
      [|apply IH; intros x Hx; apply Uo; right; exact Hx].
    destruct Ho as (t1 & t2 & Ho). intros Ty data Hd.
    destruct (normalize_output_spec _ _ _ _ (Uo o (or_introl eq_refl)) Ho)
      as (e & e' & -> & -> & _ & _ & V).
    simpl entries_of in *. specialize (V Ty). rewrite Hd in V.
    exists (coerce_entries needs_coerce data).
    split.
    { unfold get, get_default. rewrite V.
      destruct (truthy (JDict data)) eqn:Td; [reflexivity|].
      rewrite (get_is_dict_lookup _ _ _ Hd).
      destruct data; [reflexivity | discriminate Td]. }
    split; [reflexivity|].
    split; [apply coerce_entries_values|].
    intros k v'. apply text_entries_are_strings.
  - rewrite Houts in Tr. destruct outs; [|discriminate Tr].
    exists []. split; [|constructor].
    unfold get, get_default. rewrite (V0 eq_refl), Lo. reflexivity.
Qed.

(** ** Top-level metadata *)

Lemma top_language_info_values (md md' : dict) (s s' : state) :
  top_language_info md s = Ok (md', s') ->
  exists li',
    get "language_info" md' = JDict li' /\
    get "name" li' =
      (if is_str (get "name" (entries_of (get "language_info" md)))
       then get "name" (entries_of (get "language_info" md))
       else JStr "python").
Proof.
  unfold top_language_info. intros H.
  destruct (get "language_info" md) as [| | | | | |li] eqn:G;
    try (apply mark_ret_Ok in H; destruct H as [-> ->];
         eexists; rewrite get_setitem; split; reflexivity).
  simpl entries_of.
  apply guarded_Ok in H. destruct H as [(C & -> & ->)|(C & -> & ->)].
  - eexists. rewrite get_setitem. split; [reflexivity|].
    unfold get, get_default. rewrite lookup_setitem_same.
    destruct (lookup "name" li) as [v|]; [|reflexivity].
    apply negb_true_iff in C. rewrite C. reflexivity.
  - exists li. split; [exact G|]. unfold get, get_default.
    destruct (lookup "name" li) as [v|]; [|discriminate C].
    apply negb_false_iff in C. rewrite C. reflexivity.
Qed.

Lemma top_kernelspec_values (md md' : dict) (s s' : state) :
  top_kernelspec md s = Ok (md', s') ->
  exists ks',
    get "kernelspec" md' = JDict ks' /\
    get "name" ks' =
      (if is_none (get "name" (entries_of (get "kernelspec" md)))
       then JStr "python3"
       else get "name" (entries_of (get "kernelspec" md))) /\
    get "display_name" ks' =
      (if is_none (get "display_name" (entries_of (get "kernelspec" md)))
       then JStr "Python 3"
       else get "display_name" (entries_of (get "kernelspec" md))).
Proof.
  unfold top_kernelspec. intros H.
  destruct (get "kernelspec" md) as [| | | | | |ks] eqn:G;
    try (apply mark_ret_Ok in H; destruct H as [-> ->];
         eexists; rewrite get_setitem; split; [reflexivity|];
         split; reflexivity).
  simpl entries_of.
  apply bind_Ok in H. destruct H as (ks1 & s1 & H1 & H).
  apply bind_Ok in H. destruct H as (ks2 & s2 & H2 & H).
  apply ret_Ok in H. destruct H as [-> ->].
  apply guarded_setitem_Ok in H1. destruct H1 as (T1 & E1 & _).
  apply guarded_setitem_Ok in H2. destruct H2 as (T2 & E2 & _).
  exists ks2. rewrite get_setitem. split; [reflexivity|].
  split.
  - back. unfold get, get_default in *. rewrite E1.
    destruct (lookup "name" ks) as [[]|]; reflexivity.
  - unfold get, get_default in *. rewrite E2.
    rewrite (T1 "display_name" eq_refl).
    destruct (lookup "display_name" ks) as [[]|]; reflexivity.
Qed.

Lemma top_metadata_values (raw raw' : dict) (s s' : state) :
  top_metadata raw s = Ok (raw', s') ->
  exists md' li' ks',
    get "metadata" raw' = JDict md' /\
    get "language_info" md' = JDict li' /\
    get "kernelspec" md' = JDict ks' /\
    let md := entries_of (get "metadata" raw) in
    let li := entries_of (get "language_info" md) in
    let ks := entries_of (get "kernelspec" md) in
    get "name" li' =
      (if is_str (get "name" li) then get "name" li else JStr "python") /\
    get "name" ks' =
      (if is_none (get "name" ks) then JStr "python3" else get "name" ks) /\
    get "display_name" ks' =
      (if is_none (get "display_name" ks) then JStr "Python 3"
       else get "display_name" ks).
Proof.
  unfold top_metadata. intros H.
  apply bind_Ok in H. destruct H as (raw1 & s1 & H1 & H).
  apply bind_Ok in H. destruct H as (md & s2 & H2 & H).
  apply bind_Ok in H. destruct H as (md1 & s3 & H3 & H).
  apply bind_Ok in H. destruct H as (md2 & s4 & H4 & H).
  apply ret_Ok in H. destruct H as [-> ->].
  apply guarded_setitem_Ok in H1. destruct H1 as (T1 & E1 & _).
  apply as_dict_Ok in H2. destruct H2 as [G2 ->].
  assert (Emd : md = entries_of (get "metadata" raw)).
  { unfold get, get_default in *. rewrite E1 in G2.
    destruct (lookup "metadata" raw) as [[]|]; simpl in *; congruence. }
  subst md.
  pose proof (top_language_info_spec _ _ _ _ H3) as (T3 & _).
  pose proof (top_kernelspec_spec _ _ _ _ H4) as (T4 & _).
  apply top_language_info_values in H3. destruct H3 as (li' & Gl & Vl).
  apply top_kernelspec_values in H4. destruct H4 as (ks' & Gk & Vn & Vd).
  exists md2, li', ks'. rewrite get_setitem. split; [reflexivity|].
  split; [back; exact Gl|]. split; [exact Gk|].
  cbv zeta. split; [exact Vl|].
  back_in Vn. back_in Vd. split; assumption.
Qed.

(** C6, amended.  After a pass that completes, the top-level [metadata] is
    a dict holding a [language_info] dict whose [name] is a string (the one
    it had, or "python"), and a [kernelspec] dict whose [name] and
    [display_name] are not [None]: each is the default string when it was
    missing or [None], and the value it already had otherwise, whatever the
    type of that value. *)
Theorem metadata_filled (strip_outputs : bool) (doc doc' : json) (ch : bool)
    (s s' : state) :
  sanitize_notebook strip_outputs doc s = Ok ((doc', ch), s') ->
  exists raw' md' li' ks' lang,
    doc' = JDict raw' /\
    get "metadata" raw' = JDict md' /\
    get "language_info" md' = JDict li' /\
    get "name" li' = JStr lang /\
    get "kernelspec" md' = JDict ks' /\
    let md := entries_of (get "metadata" (entries_of doc)) in
    let ks := entries_of (get "kernelspec" md) in
    get "name" ks' =
      (if is_none (get "name" ks) then JStr "python3" else get "name" ks) /\
    get "display_name" ks' =
      (if is_none (get "display_name" ks) then JStr "Python 3"
       else get "display_name" ks) /\
    is_none (get "name" ks') = false /\
    is_none (get "display_name" ks') = false.
Proof.
  intros H. unfold sanitize_notebook in H.
  apply bind_Ok in H. destruct H as ([] & s0 & H0 & H).
  apply bind_Ok in H. destruct H as (raw & s0' & Hd & H).
  apply as_dict_Ok in Hd. destruct Hd as [-> ->].
  apply bind_Ok in H. destruct H as (raw1 & s1 & H1 & H).
  apply bind_Ok in H. destruct H as (raw2 & s2 & H2 & H).
  apply bind_Ok in H. destruct H as (raw3 & s3 & H3 & H).
  apply bind_Ok in H. destruct H as (raw4 & s4 & H4 & H).
  apply bind_Ok in H. destruct H as (ch' & s5 & H5 & H).
  apply ret_Ok in H. destruct H as [E ->]. injection E as -> ->.
  unfold top_nbformat in H1. apply guarded_setitem_Ok in H1.
  destruct H1 as (T1 & _).
  unfold top_nbformat_minor in H2. apply guarded_setitem_Ok in H2.
  destruct H2 as (T2 & _).
  apply top_metadata_values in H3.
  destruct H3 as (md' & li' & ks' & Gm & Gl & Gk & Vl & Vn & Vd).
  apply top_cells_spec in H4. destruct H4 as (T4 & _).
  cbv zeta in *. back_in Vl. back_in Vn. back_in Vd.
  simpl entries_of.
  assert (L : exists lang, get "name" li' = JStr lang).
  { rewrite Vl. destruct (is_str _) eqn:S; [|eauto].
    destruct (get "name" _); try discriminate S. eauto. }
  destruct L as (lang & L).
  exists raw4, md', li', ks', lang. split; [reflexivity|].
  split; [back; exact Gm|]. split; [exact Gl|]. split; [exact L|].
  split; [exact Gk|]. split; [exact Vn|]. split; [exact Vd|].
  rewrite Vn, Vd. split.
  - destruct (is_none (get "name" _)) eqn:N; [reflexivity | exact N].
  - destruct (is_none (get "display_name" _)) eqn:N; [reflexivity | exact N].
Qed.

End Sanitize.

(** * Worked examples *)

(** A runtime for the examples: the process draws the UUIDs
    [1b9d6bcd-bbfd-4b2d-9b5d-ab8dfbbd4bed], then the same with the first
    group increased by one, and so on; no example coerces a float, and the
    strings whose [repr] is taken hold no quote, backslash or control
    character. *)
Definition example_uuid4 (n : nat) : N :=
  (0x1b9d6bcdbbfd4b2d9b5dab8dfbbd4bed + N.of_nat n * 2 ^ 96)%N.

Definition example_float_repr (f : float) : string := "nan".

Definition example_str_repr (s : string) : string := "'" ++ s ++ "'".

Definition run_example (strip_outputs : bool) (doc : json)
  : result (json * bool * state) :=
  sanitize_notebook example_uuid4 example_float_repr example_str_repr
    strip_outputs doc (mkState false 0).

(** One code cell in need of most rules. *)
Definition code_cell_in : json :=
  JDict [("cell_type", JStr "code"); ("id", JInt 0);
         ("source", JList [JStr "a"; JStr "b"]);
         ("metadata",
          JDict [("tags", JList [JStr "x"; JNull; JInt 1]);
                 ("execution", JDict [("iopub.execute_input", JInt 0)])]);
         ("execution_count", JStr "3");
         ("outputs",
          JList [JDict [("output_type", JStr "execute_result");
                        ("data", JDict [("text/plain", JInt 42)])]])].

Definition notebook_in : json :=
  JDict [("nbformat", JInt 3); ("cells", JList [code_cell_in])].

Definition metadata_out : json :=
  JDict [("language_info", JDict [("name", JStr "python")]);
         ("kernelspec",
          JDict [("name", JStr "python3");
                 ("display_name", JStr "Python 3")])].

Definition code_cell_out : json :=
  JDict [("cell_type", JStr "code"); ("id", JStr "1b9d6bcd");
         ("source", JStr "ab");
         ("metadata",
          JDict [("tags", JList [JStr "x"; JStr "1"]);
                 ("execution", JDict [("iopub.execute_input", JStr "0")])]);
         ("execution_count", JNull);
         ("outputs",
          JList [JDict [("output_type", JStr "execute_result");
                        ("data", JDict [("text/plain", JStr "42")])]])].

Definition notebook_out : json :=
  JDict [("nbformat", JInt 4); ("cells", JList [code_cell_out]);
         ("nbformat_minor", JInt 5); ("metadata", metadata_out)].

Definition code_cell_stripped : json :=
  JDict [("cell_type", JStr "code"); ("id", JStr "1b9d6bcd");
         ("source", JStr "ab");
         ("metadata",
          JDict [("tags", JList [JStr "x"; JStr "1"]);
                 ("execution", JDict [("iopub.execute_input", JStr "0")])]);
         ("execution_count", JNull); ("outputs", JList [])].

Definition notebook_stripped : json :=
  JDict [("nbformat", JInt 4); ("cells", JList [code_cell_stripped]);
         ("nbformat_minor", JInt 5); ("metadata", metadata_out)].

Lemma run_notebook_in :
  run_example false notebook_in = Ok ((notebook_out, true), mkState true 1).
Proof. vm_compute. reflexivity. Qed.

Lemma run_notebook_in_strip :
  run_example true notebook_in =
  Ok ((notebook_stripped, true), mkState true 1).
Proof. vm_compute. reflexivity. Qed.

Lemma Forall2_single {A B} (R : A -> B -> Prop) (x : A) (l' : list B) :
  Forall2 R [x] l' -> exists y, l' = [y] /\ R x y.
Proof.
  intros H. inversion H as [|a b l0 l1 Hab Hl]; subst.
  inversion Hl; subst. eauto.
Defined.

(** The second pass over [notebook_out] changes nothing. *)
Lemma sanitize_idempotent_example :
  unique_keys notebook_in = true /\
  run_example false notebook_in = Ok ((notebook_out, true), mkState true 1) /\
  run_example false notebook_out = Ok ((notebook_out, false), mkState false 0).
Proof.
  split; [reflexivity|]. split; [vm_compute; reflexivity|].
  apply (proj1 (sanitize_idempotent example_uuid4 example_float_repr
                  example_str_repr false notebook_in notebook_out true
                  (mkState false 0) (mkState true 1) (mkState false 0)
                  eq_refl run_notebook_in)).
Defined.

(** The flag of the pass over [notebook_in] is right. *)
Lemma changed_flag_sound_example :
  unique_keys notebook_in = true /\
  run_example false notebook_in = Ok ((notebook_out, true), mkState true 1) /\
  notebook_out <> notebook_in.
Proof.
  split; [reflexivity|]. split; [vm_compute; reflexivity|].
  apply (proj1 (changed_flag_sound example_uuid4 example_float_repr
                  example_str_repr false notebook_in notebook_out true
                  (mkState false 0) (mkState true 1)
                  eq_refl run_notebook_in)).
  reflexivity.
Defined.

(** The cell of [notebook_out] has a fresh non-empty id and a string
    source. *)
Lemma sanitize_establishes_shape_example :
  run_example false notebook_in = Ok ((notebook_out, true), mkState true 1) /\
  exists d' i,
    code_cell_out = JDict d' /\ lookup "id" d' = Some (JStr i) /\ i <> "" /\
    forall v, lookup "source" d' = Some v -> is_str v = true.
Proof.
  split; [vm_compute; reflexivity|].
  destruct (sanitize_establishes_shape example_uuid4 example_float_repr
              example_str_repr false notebook_in notebook_out true
              (mkState false 0) (mkState true 1) run_notebook_in)
    as (raw' & cells' & E & _ & _ & Lc & Hc & _).
  unfold notebook_out in E. injection E as <-.
  change (JList [code_cell_out] = JList cells') in Lc. injection Lc as <-.
  apply Hc. left. reflexivity.
Defined.

(** Strip mode on [notebook_in]: the outputs are gone and the execution
    count is null. *)
Lemma strip_clears_code_cells_example :
  run_example true notebook_in =
    Ok ((notebook_stripped, true), mkState true 1) /\
  lookup "outputs" (entries_of code_cell_stripped) = Some (JList []) /\
  lookup "execution_count" (entries_of code_cell_stripped) = Some JNull.
Proof.
  split; [vm_compute; reflexivity|].
  destruct (strip_clears_code_cells example_uuid4 example_float_repr
              example_str_repr notebook_in notebook_stripped true
              (mkState false 0) (mkState true 1) run_notebook_in_strip)
    as (raw' & cells' & E & Lc & R).
  unfold notebook_stripped in E. injection E as <-.
  change (JList [code_cell_stripped] = JList cells') in Lc.
  injection Lc as <-.
  change (cells_of (entries_of notebook_in)) with [code_cell_in] in R.
  apply Forall2_single in R. destruct R as (y & Ey & d & d' & Ed & Ed' & _ & P).
  injection Ey as <-. unfold code_cell_in in Ed. injection Ed as <-.
  rewrite Ed'. destruct (P eq_refl) as (O & X & _). exact (conj O X).
Defined.


(** The missing [metadata] of [notebook_in] is filled with the defaults. *)
Lemma metadata_filled_example :
  run_example false notebook_in = Ok ((notebook_out, true), mkState true 1) /\
  exists md' li' ks' lang,
    get "metadata" (entries_of notebook_out) = JDict md' /\
    get "language_info" md' = JDict li' /\ get "name" li' = JStr lang /\
    get "kernelspec" md' = JDict ks' /\
    get "name" ks' = JStr "python3" /\
    get "display_name" ks' = JStr "Python 3".
Proof.
  split; [vm_compute; reflexivity|].
  destruct (metadata_filled example_uuid4 example_float_repr
              example_str_repr false notebook_in notebook_out true
              (mkState false 0) (mkState true 1) run_notebook_in)
    as (raw' & md' & li' & ks' & lang & E & Gm & Gl & Gn & Gk & Vn & Vd & _).
  unfold notebook_out in E. injection E as <-.
  exists md', li', ks', lang. repeat split; assumption.
Defined.

(** The [data] of the output of [notebook_in]: [{"text/plain": 42}]
    becomes [{"text/plain": "42"}]. *)
Lemma display_data_coerced_example :
  unique_keys notebook_in = true /\
  run_example false notebook_in = Ok ((notebook_out, true), mkState true 1) /\
  exists o' data',
    get "outputs" (entries_of code_cell_out) = JList [o'] /\
    get "data" (entries_of o') = JDict data' /\
    data' = [("text/plain", JStr "42")].
Proof.
  split; [reflexivity|]. split; [vm_compute; reflexivity|].
  destruct (display_data_coerced example_uuid4 example_float_repr
              example_str_repr notebook_in notebook_out true
              (mkState false 0) (mkState true 1) eq_refl run_notebook_in)
    as (raw' & cells' & E & Lc & _ & R & _).
  unfold notebook_out in E. injection E as <-.
  change (JList [code_cell_out] = JList cells') in Lc. injection Lc as <-.
  change (cells_of (entries_of notebook_in)) with [code_cell_in] in R.
  apply Forall2_single in R. destruct R as (y & Ey & P).
  injection Ey as <-.
  destruct (P eq_refl _ eq_refl) as (outs' & Lo & Ro).
  apply Forall2_single in Ro. destruct Ro as (o' & -> & Q).
  destruct (Q eq_refl _ eq_refl) as (data' & Gd & Ed & _).
  exists o', data'. split; [exact Lo|]. split; [exact Gd|].
  rewrite Ed. reflexivity.
Defined.

(** The tags of the cell of [notebook_in]: the null is dropped, the
    integer coerced, the order kept. *)
Lemma tags_coerced_example :
  run_example false notebook_in = Ok ((notebook_out, true), mkState true 1) /\
  exists md',
    get "metadata" (entries_of code_cell_out) = JDict md' /\
    get "tags" md' = JList [JStr "x"; JStr "1"].
Proof.
  split; [vm_compute; reflexivity|].
  destruct (tags_coerced example_uuid4 example_float_repr
              example_str_repr false notebook_in notebook_out true
              (mkState false 0) (mkState true 1) run_notebook_in)
    as (raw' & cells' & E & Lc & R).
  unfold notebook_out in E. injection E as <-.
  change (JList [code_cell_out] = JList cells') in Lc. injection Lc as <-.
  change (cells_of (entries_of notebook_in)) with [code_cell_in] in R.
  apply Forall2_single in R. destruct R as (y & Ey & P).
  injection Ey as <-.
  destruct (P _ _ eq_refl eq_refl) as (md' & Gm & Gt & _).
  exists md'. split; [exact Gm | exact Gt].
Defined.

(** A code cell whose [outputs] is null, in normalize mode: the pass
    gives the cell an id, and the null stays. *)
Definition null_outputs_cell : json :=
  JDict [("cell_type", JStr "code"); ("source", JStr "x");
         ("metadata", JDict []); ("outputs", JNull)].

Definition null_outputs_cell_out : json :=
  JDict [("cell_type", JStr "code"); ("source", JStr "x");
         ("metadata", JDict []); ("outputs", JNull);
         ("id", JStr "1b9d6bcd")].

Definition null_outputs_notebook : json :=
  JDict [("nbformat", JInt 4); ("nbformat_minor", JInt 5);
         ("metadata", metadata_out); ("cells", JList [null_outputs_cell])].

Definition null_outputs_notebook_out : json :=
  JDict [("nbformat", JInt 4); ("nbformat_minor", JInt 5);
         ("metadata", metadata_out);
         ("cells", JList [null_outputs_cell_out])].

Lemma run_null_outputs :
  run_example false null_outputs_notebook =
  Ok ((null_outputs_notebook_out, true), mkState true 1).
Proof. vm_compute. reflexivity. Qed.

Lemma falsy_outputs_left_alone_example :
  run_example false null_outputs_notebook =
    Ok ((null_outputs_notebook_out, true), mkState true 1) /\
  lookup "outputs" (entries_of null_outputs_cell_out) = Some JNull.
Proof.
  split; [vm_compute; reflexivity|].
  destruct (falsy_outputs_left_alone example_uuid4 example_float_repr
              example_str_repr null_outputs_notebook
              null_outputs_notebook_out true (mkState false 0)
              (mkState true 1) run_null_outputs)
    as (raw' & cells' & E & Lc & R).
  unfold null_outputs_notebook_out in E. injection E as <-.
  change (JList [null_outputs_cell_out] = JList cells') in Lc.
  injection Lc as <-.
  change (cells_of (entries_of null_outputs_notebook))
    with [null_outputs_cell] in R.
  apply Forall2_single in R. destruct R as (y & Ey & P).
  injection Ey as <-.
  destruct (P eq_refl) as (F & _). destruct (F eq_refl) as (L & _).
  rewrite L. reflexivity.
Defined.

(** * Where the code departs from the specification *)

(** A clean code cell that comes without an [outputs] key. *)
Definition bare_code_cell : json :=
  JDict [("cell_type", JStr "code"); ("id", JStr "c1"); ("source", JStr "x");
         ("metadata", JDict [])].

Definition bare_notebook : json :=
  JDict [("nbformat", JInt 4); ("nbformat_minor", JInt 5);
         ("metadata", metadata_out); ("cells", JList [bare_code_cell])].

Definition bare_notebook_stripped : json :=
  JDict [("nbformat", JInt 4); ("nbformat_minor", JInt 5);
         ("metadata", metadata_out);
         ("cells",
          JList [JDict [("cell_type", JStr "code"); ("id", JStr "c1");
                        ("source", JStr "x"); ("metadata", JDict []);
                        ("outputs", JList [])]])].

(** Strip mode assigns [outputs] whatever the cell held: the cell of
    [bare_notebook] gains the key, and nothing sets [changed]. *)
Lemma strip_alters_without_flag :
  run_example true bare_notebook =
    Ok ((bare_notebook_stripped, false), mkState false 0) /\
  bare_notebook_stripped <> bare_notebook.
Proof. split; [vm_compute; reflexivity | discriminate]. Qed.

(** The cell of [bare_notebook] has no [execution_count], and none after
    strip mode: the field is not null there, it is missing. *)
Lemma strip_leaves_count_absent :
  run_example true bare_notebook =
    Ok ((bare_notebook_stripped, false), mkState false 0) /\
  (forall c', In c' (cells_of (entries_of bare_notebook_stripped)) ->
     py_eq (get "cell_type" (entries_of c')) (JStr "code") = true /\
     lookup "execution_count" (entries_of c') = None /\
     contains "execution_count" (entries_of c') = false).
Proof.
  split; [vm_compute; reflexivity|].
  intros c' [<-|[]]. repeat split.
Qed.

(** A clean notebook but for its cell, which has no [metadata] key. *)
Definition no_metadata_notebook : json :=
  JDict [("nbformat", JInt 4); ("nbformat_minor", JInt 5);
         ("metadata", metadata_out);
         ("cells",
          JList [JDict [("cell_type", JStr "markdown");
                        ("source", JStr "hi")]])].

(** C2.  The pass does raise on a document whose top level is a dict: on
    the cell of [no_metadata_notebook], which has no [metadata] key, line
    73 raises [KeyError], in either mode. *)
Lemma missing_metadata_raises :
  run_example false no_metadata_notebook = Raise KeyError /\
  run_example true no_metadata_notebook = Raise KeyError.
Proof. split; vm_compute; reflexivity. Qed.

(** A cell that is not a dict: the pass raises [AttributeError]. *)
Lemma scalar_cell_raises :
  run_example false (JDict [("cells", JList [JStr "x"])]) =
  Raise AttributeError.
Proof. vm_compute. reflexivity. Qed.


(** A notebook whose [nbformat_minor] is a boolean and whose [nbformat]
    is a float. *)
Definition bool_minor_notebook : json :=
  JDict [("nbformat", JFloat 4); ("nbformat_minor", JBool true);
         ("metadata", metadata_out); ("cells", JList [])].

(** C3.  The pass does not make [nbformat_minor] an integer:
    [isinstance(True, int)] holds, so the boolean of [bool_minor_notebook]
    passes the test of line 32 and is still there when the pass returns,
    with [changed] false.  So does [4.0 == 4]: the float passes the test
    of line 30 and stays. *)
Lemma bool_minor_survives :
  run_example false bool_minor_notebook =
    Ok ((bool_minor_notebook, false), mkState false 0) /\
  get "nbformat_minor" (entries_of bool_minor_notebook) = JBool true /\
  (forall n, get "nbformat_minor" (entries_of bool_minor_notebook) <> JInt n) /\
  get "nbformat" (entries_of bool_minor_notebook) = JFloat 4.
Proof.
  split; [vm_compute; reflexivity|]. split; [reflexivity|].
  split; [intros n; discriminate | reflexivity].
Qed.

(** A float [nbformat_minor] fails the test of line 32 and is replaced by
    the integer 5, with [changed] set: the tree has changed, and so has
    its serialization, although Python's [==] holds [5.0] and [5] equal. *)
Lemma float_minor_rewritten :
  run_example false
    (JDict [("nbformat", JInt 4); ("nbformat_minor", JFloat 5);
            ("metadata", metadata_out); ("cells", JList [])]) =
    Ok ((JDict [("nbformat", JInt 4); ("nbformat_minor", JInt 5);
                ("metadata", metadata_out); ("cells", JList [])], true),
        mkState true 0) /\
  py_eq (JFloat 5) (JInt 5) = true.
Proof. split; vm_compute; reflexivity. Qed.

(** A notebook whose [kernelspec] has a number for its [name]. *)
Definition numeric_kernel_notebook : json :=
  JDict [("nbformat", JInt 4); ("nbformat_minor", JInt 5);
         ("metadata",
          JDict [("language_info", JDict [("name", JStr "python")]);
                 ("kernelspec",
                  JDict [("name", JInt 5);
                         ("display_name", JStr "Python 3")])]);
         ("cells", JList [])].

(** The test of line 49 only looks for [None]: the number stays. *)
Lemma numeric_kernel_name_survives :
  run_example false numeric_kernel_notebook =
    Ok ((numeric_kernel_notebook, false), mkState false 0) /\
  get "name"
    (entries_of (get "kernelspec"
       (entries_of (get "metadata" (entries_of numeric_kernel_notebook)))))
  = JInt 5.
Proof. split; [vm_compute; reflexivity | reflexivity]. Qed.
